(** * FaultAPI: the report service of [src/index.js]

    A shallow embedding of the three request handlers ([POST /reports],
    [GET /reports], [PUT /reports/:id/status]) and of [saveBase64Image],
    with the file system, the clock and the random sources as explicit
    state.

    Modelling conventions.
    - A JavaScript string is a sequence of code units; the model keeps the
      code units below 256, so [String.length] is [.length] and the line
      terminators a string can hold are LF and CR.  String literals of the
      source are written as they stand in the source file.
    - A JSON number is an integer (type [Z]); it prints in decimal, as
      JavaScript prints an integer below 10^21.
    - [undefined] is [None] of [option json].
    - A file of the reports directory is identified with the JSON value its
      text denotes ([JsonText]); a file whose text [JSON.parse] rejects is
      [Binary].  [JSON.stringify] followed by [JSON.parse] is the identity
      on [json].  An image [saveBase64Image] writes is kept as its bytes
      ([Binary]), and no statement depends on what [JSON.parse] makes of
      those.
    - The two directories are flat: a file is addressed by its name.
      [path.join] is modelled on the segments of the path ([path_join]);
      it yields the file [name] of a directory whenever [name] holds no
      separator, and the statements about [PUT /reports/:id/status] that
      depend on where the path lands say so in a hypothesis.
    - An object is the list of its properties in order, each name once.
      The request body is the object [express.json()] parsed; a missing
      property reads as [undefined]. *)

From stdpp Require Import base strings list gmap pretty sorting.
From Stdlib Require Import ZArith Ascii String.
From Stdlib.Strings Require Byte.

Set Warnings "-register-all".

Open Scope string_scope.
Open Scope Z_scope.

(** ** JSON values and the JavaScript operations applied to them *)

Module Js.

Inductive json : Type :=
| JNull
| JBool (b : bool)
| JNum (n : Z)
| JStr (s : string)
| JArr (items : list json)
| JObj (props : list (string * json)).

(** A value as an expression sees it: [None] is [undefined]. *)
Definition value := option json.

(** [!!v]: [undefined], [null], [false], [0] and the empty string are
    falsy, everything else (arrays and objects included) is truthy. *)
Definition truthy (v : value) : bool :=
  match v with
  | None | Some JNull | Some (JBool false) | Some (JNum 0)
  | Some (JStr EmptyString) => false
  | Some _ => true
  end.

(** Own property lookup in an object literal, first binding wins. *)
Fixpoint get (k : string) (props : list (string * json)) : value :=
  match props with
  | [] => None
  | (k', v) :: rest => if String.eqb k k' then Some v else get k rest
  end.

(** [o[k] = v] on an object: an existing key keeps its position, a new
    key goes last. *)
Fixpoint set (k : string) (v : json) (props : list (string * json))
  : list (string * json) :=
  match props with
  | [] => [(k, v)]
  | (k', v') :: rest =>
      if String.eqb k k' then (k, v) :: rest else (k', v') :: set k v rest
  end.

(** What [JSON.stringify] keeps of an object literal: properties whose
    value is [undefined] are left out. *)
Fixpoint literal (fields : list (string * value)) : list (string * json) :=
  match fields with
  | [] => []
  | (k, Some v) :: rest => (k, v) :: literal rest
  | (_, None) :: rest => literal rest
  end.

(** [s.endsWith(suffix)]. *)
Fixpoint endsWith (s suffix : string) : bool :=
  String.eqb s suffix ||
  match s with
  | EmptyString => false
  | String _ s' => endsWith s' suffix
  end.

(** [s.split(sep)] for a one-character separator. *)
Fixpoint split (sep : ascii) (s : string) : list string :=
  match s with
  | EmptyString => [EmptyString]
  | String c s' =>
      if Ascii.eqb c sep then EmptyString :: split sep s'
      else match split sep s' with
           | seg :: segs => String c seg :: segs
           | [] => [String c EmptyString]
           end
  end.

(** [`${v}`] for a value that is a string or [undefined]. *)
Definition interpolate (v : option string) : string :=
  match v with
  | Some s => s
  | None => "undefined"
  end.

End Js.
Import Js.

(** ** The regular expression [/^data:(.+);base64,(.+)$/] *)

Module DataUri.

(** [.] matches any code unit except a line terminator. *)
Definition isLineTerminator (c : ascii) : bool :=
  Ascii.eqb c "010" || Ascii.eqb c "013".

Fixpoint oneLine (s : string) : bool :=
  match s with
  | EmptyString => true
  | String c s' => negb (isLineTerminator c) && oneLine s'
  end.

Fixpoint stripPrefix (p s : string) : option string :=
  match p, s with
  | EmptyString, _ => Some s
  | String a p', String b s' =>
      if Ascii.eqb a b then stripPrefix p' s' else None
  | String _ _, EmptyString => None
  end.

(** [;base64,(.+)$] against the whole of [s]. *)
Definition tail (s : string) : option string :=
  match stripPrefix ";base64," s with
  | Some (String c p) =>
      if oneLine (String c p) then Some (String c p) else None
  | _ => None
  end.

(** The rest of the first group, greedy: it is extended by one more
    code unit whenever the remainder still matches, and stops here only
    when no longer extension does. *)
Fixpoint group1 (s : string) : option (string * string) :=
  match s with
  | EmptyString => None
  | String c s' =>
      let stop := option_map (pair EmptyString) (tail s) in
      if isLineTerminator c then stop
      else match group1 s' with
           | Some (g, p) => Some (String c g, p)
           | None => stop
           end
  end.

(** [s.match(/^data:(.+);base64,(.+)$/)]: the two captures. *)
Definition exec (s : string) : option (string * string) :=
  match stripPrefix "data:" s with
  | Some (String c r) =>
      if isLineTerminator c then None
      else match group1 r with
           | Some (g, p) => Some (String c g, p)
           | None => None
           end
  | _ => None
  end.

(** The language of the pattern [data:<mimeType>;base64,<payload>]:
    both placeholders are non-empty and hold no line terminator. *)
Definition matches (s : string) : Prop :=
  exists mime payload : string,
    s = "data:" +:+ mime +:+ ";base64," +:+ payload
    /\ mime <> EmptyString /\ payload <> EmptyString
    /\ oneLine mime = true /\ oneLine payload = true.

End DataUri.

(** ** Exceptions, responses and the state of the process *)

Inductive exn : Type :=
| Error (message : string)
| TypeError (message : string)
| SyntaxError (message : string)
| SystemError (message : string).

(** [error.message]. *)
Definition message (e : exn) : string :=
  match e with
  | Error m | TypeError m | SyntaxError m | SystemError m => m
  end.

Inductive outcome (A : Type) : Type :=
| Return (a : A)
| Throw (e : exn).
Arguments Return {A} a.
Arguments Throw {A} e.

(** What Node and V8 supply and the source only calls. *)
Record Runtime : Type := {
  (** [Buffer.from(s, 'base64')]: total, it has no failure result. *)
  Buffer_from : string -> list Byte.byte;
  (** [new Date(t).toISOString()]. *)
  toISOString : Z -> string;
  (** [v < n] for a [v] that is a string, an array or an object, which the
      comparison first converts to a primitive and then to a number. *)
  coerce_lt : json -> Z -> outcome bool;
}.

(** [res.status(code).json(body)]. *)
Record Response : Type := { statusCode : Z; body : json }.

Inductive file : Type :=
| JsonText (v : json)
| Binary (bytes : list Byte.byte).

Inductive dir : Type := REPORTS_DIR | UPLOADS_DIR.

(** The file system and the sources of non-determinism.  A directory that
    does not exist is [None].  [clock], [dice] and [uuids] list the results
    of the coming calls of [Date.now()] (and [new Date()]),
    [Math.floor(Math.random() * 10000)] and [uuidv4()]; [faults] lists, for
    each coming call of an [fs] function, the message of the error the
    operating system answers with, if any.  A list that has run out stands
    for [0], the empty string and success from there on.  [position] is the
    place the file system gives a name when it enumerates a directory: the
    order of [fs.readdir] is the file system's own, not one of the names. *)
Record World : Type := {
  reports : option (gmap string file);
  uploads : option (gmap string file);
  clock : list Z;
  dice : list Z;
  uuids : list string;
  faults : list (option string);
  position : string -> nat;
}.

Definition get_dir (d : dir) (w : World) : option (gmap string file) :=
  match d with
  | REPORTS_DIR => reports w
  | UPLOADS_DIR => uploads w
  end.

Definition set_dir (d : dir) (m : gmap string file) (w : World) : World :=
  match d with
  | REPORTS_DIR =>
      {| reports := Some m; uploads := uploads w; clock := clock w;
         dice := dice w; uuids := uuids w; faults := faults w;
         position := position w |}
  | UPLOADS_DIR =>
      {| reports := reports w; uploads := Some m; clock := clock w;
         dice := dice w; uuids := uuids w; faults := faults w;
         position := position w |}
  end.

Definition set_clock (c : list Z) (w : World) : World :=
  {| reports := reports w; uploads := uploads w; clock := c;
     dice := dice w; uuids := uuids w; faults := faults w;
     position := position w |}.

Definition set_dice (c : list Z) (w : World) : World :=
  {| reports := reports w; uploads := uploads w; clock := clock w;
     dice := c; uuids := uuids w; faults := faults w;
     position := position w |}.

Definition set_uuids (c : list string) (w : World) : World :=
  {| reports := reports w; uploads := uploads w; clock := clock w;
     dice := dice w; uuids := c; faults := faults w; position := position w |}.

Definition set_faults (c : list (option string)) (w : World) : World :=
  {| reports := reports w; uploads := uploads w; clock := clock w;
     dice := dice w; uuids := uuids w; faults := c; position := position w |}.

(** ** Computations: state and exceptions *)

Definition js (A : Type) : Type := World -> outcome A * World.

Definition ret {A} (a : A) : js A := fun w => (Return a, w).

Definition throw {A} (e : exn) : js A := fun w => (Throw e, w).

Definition bind {A B} (m : js A) (k : A -> js B) : js B :=
  fun w =>
    match m w with
    | (Return a, w') => k a w'
    | (Throw e, w') => (Throw e, w')
    end.

(** [try { m } catch (e) { h e }]. *)
Definition try_catch {A} (m : js A) (h : exn -> js A) : js A :=
  fun w =>
    match m w with
    | (Return a, w') => (Return a, w')
    | (Throw e, w') => h e w'
    end.

Definition lift {A} (o : outcome A) : js A := fun w => (o, w).

Declare Scope js_scope.
Delimit Scope js_scope with js.
Notation "x <- m ;; k" := (bind m (fun x => k))
  (at level 100, m at next level, right associativity) : js_scope.
Notation "m ;; k" := (bind m (fun _ => k))
  (at level 100, right associativity) : js_scope.
Open Scope js_scope.

(** ** The [fs/promises] functions the source calls *)

Definition ENOENT : exn := SystemError "ENOENT: no such file or directory".

(** The operating system's verdict on the next call. *)
Definition syscall : js unit :=
  fun w =>
    match faults w with
    | [] => (Return tt, w)
    | None :: rest => (Return tt, set_faults rest w)
    | Some m :: rest => (Throw (SystemError m), set_faults rest w)
    end.

(** [fs.mkdir(d, { recursive: true })]: an existing directory is kept. *)
Definition mkdir (d : dir) : js unit :=
  syscall ;;
  fun w =>
    match get_dir d w with
    | Some _ => (Return tt, w)
    | None => (Return tt, set_dir d ∅ w)
    end.

Definition writeFile (d : dir) (name : string) (data : file) : js unit :=
  syscall ;;
  fun w =>
    match get_dir d w with
    | Some m => (Return tt, set_dir d (<[name := data]> m) w)
    | None => (Throw ENOENT, w)
    end.

(** The names of the files of a directory in the order the file system
    enumerates them: by the place it gives each name. *)
Definition before (place : string -> nat) : relation string :=
  fun a b => (place a <= place b)%nat.

#[global] Instance before_dec (place : string -> nat) (a b : string) :
  Decision (before place a b) := decide (place a <= place b)%nat.

Definition enumerate (place : string -> nat) (m : gmap string file) : list string :=
  merge_sort (before place) (map_to_list m).*1.

Definition readdir (d : dir) : js (list string) :=
  syscall ;;
  fun w =>
    match get_dir d w with
    | Some m => (Return (enumerate (position w) m), w)
    | None => (Throw ENOENT, w)
    end.

Definition lookup_file (d : dir) (name : string) (w : World) : option file :=
  match get_dir d w with
  | Some m => m !! name
  | None => None
  end.

Definition readFile (d : dir) (name : string) : js file :=
  syscall ;;
  fun w =>
    match lookup_file d name w with
    | Some f => (Return f, w)
    | None => (Throw ENOENT, w)
    end.

Definition access (d : dir) (name : string) : js unit :=
  syscall ;;
  fun w =>
    match lookup_file d name w with
    | Some _ => (Return tt, w)
    | None => (Throw ENOENT, w)
    end.

(** ** The clock and the random sources *)

Definition Date_now : js Z :=
  fun w => (Return (hd 0 (clock w)), set_clock (tl (clock w)) w).

(** [Math.floor(Math.random() * 10000)]. *)
Definition Math_random_10000 : js Z :=
  fun w => (Return (hd 0 (dice w)), set_dice (tl (dice w)) w).

Definition uuidv4 : js string :=
  fun w => (Return (hd EmptyString (uuids w)), set_uuids (tl (uuids w)) w).

(** ** Paths *)

(** Where a path lands: on a file of one of the two directories, or
    anywhere else (another directory of the working directory, a
    subdirectory, or a place reached through the parent of the working
    directory). *)
Inductive location : Type :=
| Inside (d : dir) (name : string)
| Elsewhere.

Definition dirName (d : dir) : string :=
  match d with
  | REPORTS_DIR => "reports"
  | UPLOADS_DIR => "uploads"
  end.

(** The segments of a path walked from a place below the working
    directory, the place given innermost segment first: an empty segment
    and [.] stay, [..] goes up, any other segment goes down.  [None] when
    the walk leaves the working directory. *)
Fixpoint walk (place : list string) (segments : list string) : option (list string) :=
  match segments with
  | [] => Some place
  | segment :: rest =>
      if String.eqb segment EmptyString || String.eqb segment "." then walk place rest
      else if String.eqb segment ".." then
        match place with
        | [] => None
        | _ :: up => walk up rest
        end
      else walk (segment :: place) rest
  end.

(** [path.join(d, rel)] for the POSIX paths of the deployment, with
    [REPORTS_DIR] and [UPLOADS_DIR] the children [reports] and [uploads] of
    the working directory (lines 12 and 13): the path is normalised on
    its text alone. *)
Definition path_join (d : dir) (rel : string) : location :=
  match walk [dirName d] (split "/" rel) with
  | Some [name; parent] =>
      if String.eqb parent "reports" then Inside REPORTS_DIR name
      else if String.eqb parent "uploads" then Inside UPLOADS_DIR name
      else Elsewhere
  | _ => Elsewhere
  end.

(** ** The program *)

Section Program.

Variable rt : Runtime.

(** [v.length] of a truthy [v]. *)
Definition length_of (v : value) : value :=
  match v with
  | Some (JStr s) => Some (JNum (Z.of_nat (String.length s)))
  | Some (JArr items) => Some (JNum (Z.of_nat (List.length items)))
  | Some (JObj props) => get "length" props
  | _ => None
  end.

(** [x < n] with a number on the right: [undefined] converts to [NaN],
    which is less than nothing. *)
Definition lessThan (x : value) (n : Z) : outcome bool :=
  match x with
  | None => Return false
  | Some JNull => Return (0 <? n)
  | Some (JBool b) => Return ((if b then 1 else 0) <? n)
  | Some (JNum z) => Return (z <? n)
  | Some v => coerce_lt rt v n
  end.

(** [!v || v.length < n]. *)
Definition missingOrShorter (v : value) (n : Z) : outcome bool :=
  if negb (truthy v) then Return true else lessThan (length_of v) n.

(** [o.status] of a parsed file, for a property name that is neither an
    index nor built in. *)
Definition property (o : json) (k : string) : outcome value :=
  match o with
  | JObj props => Return (get k props)
  | JNull => Throw (TypeError "Cannot read properties of null")
  | _ => Return None
  end.

(** A property whose value is [undefined] does not reach the JSON text. *)
Fixpoint unset (k : string) (props : list (string * json))
  : list (string * json) :=
  match props with
  | [] => []
  | (k', v') :: rest =>
      if String.eqb k k' then rest else (k', v') :: unset k rest
  end.

(** [o.status = v] in strict mode (the source is an ES module), read back
    as JSON: an array takes the property and serialises without it, a
    primitive or [null] refuses it. *)
Definition assign (o : json) (k : string) (v : value) : outcome json :=
  match o with
  | JObj props =>
      Return (JObj match v with
                   | Some x => set k x props
                   | None => unset k props
                   end)
  | JArr items => Return (JArr items)
  | JNull => Throw (TypeError "Cannot set properties of null")
  | _ => Throw (TypeError "Cannot create property on a primitive")
  end.

(** [JSON.parse(content)]. *)
Definition JSON_parse (content : file) : outcome json :=
  match content with
  | JsonText v => Return v
  | Binary _ => Throw (SyntaxError "Unexpected token in JSON")
  end.

(** [allowed.includes(v)] for an array of string literals. *)
Definition includes (allowed : list string) (v : value) : bool :=
  match v with
  | Some (JStr s) => existsb (String.eqb s) allowed
  | _ => false
  end.

Definition ensureDirs : js unit :=
  mkdir REPORTS_DIR ;;
  mkdir UPLOADS_DIR.

(** [base64String.match(/^data:(.+);base64,(.+)$/)]: only a string has the
    method. *)
Definition String_match (base64String : value) : outcome (option (string * string)) :=
  match base64String with
  | Some (JStr s) => Return (DataUri.exec s)
  | Some JNull => Throw (TypeError "Cannot read properties of null (reading 'match')")
  | None => Throw (TypeError "Cannot read properties of undefined (reading 'match')")
  | Some _ => Throw (TypeError "base64String.match is not a function")
  end.

Definition saveBase64Image (base64String : value) (prefix : string) : js string :=
  matches <- lift (String_match base64String) ;;
  match matches with
  | None => throw (Error "Invalid base64 string format")
  | Some (mimeType, base64Data) =>
      let extension := split "/" mimeType !! 1%nat in
      let buffer := Buffer_from rt base64Data in
      now <- Date_now ;;
      rnd <- Math_random_10000 ;;
      let filename :=
        prefix +:+ "-" +:+ pretty now +:+ "-" +:+ pretty rnd +:+ "."
        +:+ interpolate extension in
      writeFile UPLOADS_DIR filename (Binary buffer) ;;
      ret ("/uploads/" +:+ filename)
  end.

(** [if (cond) throw e]. *)
Definition throwIf (cond : outcome bool) (e : exn) : outcome unit :=
  match cond with
  | Return true => Throw e
  | Return false => Return tt
  | Throw e' => Throw e'
  end.

Definition seq (a b : outcome unit) : outcome unit :=
  match a with
  | Return _ => b
  | Throw e => Throw e
  end.

(** Lines 53 to 58 of the handler of [POST /reports]. *)
Definition validate (reqBody : list (string * json)) : outcome unit :=
  let ownerName := get "ownerName" reqBody in
  let phoneNumber := get "phoneNumber" reqBody in
  let licensePlate := get "licensePlate" reqBody in
  let faultDescription := get "faultDescription" reqBody in
  let ownerSignature := get "ownerSignature" reqBody in
  let technicianSignature := get "technicianSignature" reqBody in
  seq (throwIf (missingOrShorter ownerName 2) (Error "ownerName inválido"))
 (seq (throwIf (Return (negb (truthy phoneNumber))) (Error "phoneNumber requerido"))
 (seq (throwIf (missingOrShorter licensePlate 3) (Error "licensePlate inválido"))
 (seq (throwIf (missingOrShorter faultDescription 10) (Error "faultDescription inválido"))
 (seq (throwIf (Return (negb (truthy ownerSignature))) (Error "ownerSignature requerida"))
      (throwIf (Return (negb (truthy technicianSignature))) (Error "technicianSignature requerida")))))).

(** The loop of lines 66 to 69. *)
Fixpoint savePhotos (photos : list json) (photoFiles : list json) : js (list json) :=
  match photos with
  | [] => ret photoFiles
  | photoBase64 :: rest =>
      file <- saveBase64Image (Some photoBase64) "photo" ;;
      savePhotos rest (photoFiles ++ [JStr file])
  end.

(** [location || null]. *)
Definition orNull (v : value) : json :=
  match v with
  | Some x => if truthy v then x else JNull
  | None => JNull
  end.

Definition post_reports (reqBody : list (string * json)) : js Response :=
  try_catch
    (let ownerName := get "ownerName" reqBody in
     let phoneNumber := get "phoneNumber" reqBody in
     let licensePlate := get "licensePlate" reqBody in
     let faultDescription := get "faultDescription" reqBody in
     let location := get "location" reqBody in
     let photos := get "photos" reqBody in
     let ownerSignature := get "ownerSignature" reqBody in
     let technicianSignature := get "technicianSignature" reqBody in
     lift (validate reqBody) ;;
     ensureDirs ;;
     photoFiles <- match photos with
                   | Some (JArr items) => savePhotos items []
                   | _ => ret []
                   end ;;
     ownerSignFile <- saveBase64Image ownerSignature "ownerSign" ;;
     technicianSignFile <- saveBase64Image technicianSignature "techSign" ;;
     reportId <- uuidv4 ;;
     created <- Date_now ;;
     let reportData :=
       JObj (literal
         [("id", Some (JStr reportId));
          ("ownerName", ownerName);
          ("phoneNumber", phoneNumber);
          ("licensePlate", licensePlate);
          ("faultDescription", faultDescription);
          ("location", Some (orNull location));
          ("photos", Some (JArr photoFiles));
          ("ownerSignature", Some (JStr ownerSignFile));
          ("technicianSignature", Some (JStr technicianSignFile));
          ("createdAt", Some (JStr (toISOString rt created)));
          ("status", Some (JStr "pending"))]) in
     writeFile REPORTS_DIR (reportId +:+ ".json") (JsonText reportData) ;;
     ret {| statusCode := 201; body := JObj [("reportId", JStr reportId)] |})
    (fun error =>
       ret {| statusCode := 400; body := JObj [("error", JStr (message error))] |}).

(** The loop of lines 109 to 119. *)
Fixpoint readReports (files : list string) (reports : list json) : js (list json) :=
  match files with
  | [] => ret reports
  | file :: rest =>
      if endsWith file ".json" then
        content <- readFile REPORTS_DIR file ;;
        report <- lift (JSON_parse content) ;;
        status <- lift (property report "status") ;;
        report <- (if negb (truthy status)
                   then lift (assign report "status" (Some (JStr "pending")))
                   else ret report) ;;
        readReports rest (reports ++ [report])
      else readReports rest reports
  end.

Definition get_reports : js Response :=
  try_catch
    (files <- readdir REPORTS_DIR ;;
     reports <- readReports files [] ;;
     ret {| statusCode := 200; body := JArr reports |})
    (fun error =>
       ret {| statusCode := 500; body := JObj [("error", JStr "Error reading reports")] |}).

(** [app.put('/reports/:id/status')] (lines 128 to 159) for a
    [reportPath] that is the file [name] of the directory [d]. *)
Definition put_reports_status_at (d : dir) (name : string)
    (reqBody : list (string * json)) : js Response :=
  try_catch
    (let status := get "status" reqBody in
     if negb (includes ["pending"; "attended"] status) then
       ret {| statusCode := 400; body := JObj [("error", JStr "Estado inválido")] |}
     else
       let reportPath := name in
       found <- try_catch (access d reportPath ;; ret true)
                          (fun _ => ret false) ;;
       if negb found then
         ret {| statusCode := 404; body := JObj [("error", JStr "Reporte no encontrado")] |}
       else
         content <- readFile d reportPath ;;
         reportData <- lift (JSON_parse content) ;;
         reportData <- lift (assign reportData "status" status) ;;
         writeFile d reportPath (JsonText reportData) ;;
         ret {| statusCode := 200; body := reportData |})
    (fun error =>
       ret {| statusCode := 500;
              body := JObj [("error", JStr "Error actualizando el estado del reporte")] |}).

(** The handler for a [reportId] whose path (line 137) is the file
    [<reportId>.json] of the reports directory, as it is for every
    identifier without a separator ([path_join_plain]). *)
Definition put_reports_status (id : string) (reqBody : list (string * json)) : js Response :=
  put_reports_status_at REPORTS_DIR (id +:+ ".json") reqBody.

(** The handler for any [reportId], as far as the two directories go:
    [path.join(REPORTS_DIR, `${reportId}.json`)] decides which file is
    probed, read and rewritten.  [None] when that file is in neither
    directory. *)
Definition put_reports_status_resolved (id : string) (reqBody : list (string * json))
  : option (js Response) :=
  match path_join REPORTS_DIR (id +:+ ".json") with
  | Inside d name => Some (put_reports_status_at d name reqBody)
  | Elsewhere => None
  end.

End Program.

(** * The vocabulary of the statements *)

(** ** Attachments *)

(** The name the decoder gives a file:
    [{prefix}-{timestamp}-{random}.{extension}]. *)
Definition fileName (prefix : string) (now rnd : Z) (extension : string) : string :=
  prefix +:+ "-" +:+ pretty now +:+ "-" +:+ pretty rnd +:+ "." +:+ extension.

(** The extension the decoder derives from a mime type. *)
Definition extensionOf (mimeType : string) : string :=
  interpolate (split "/" mimeType !! 1%nat).

(** [c] occurs in [s]. *)
Fixpoint contains (c : ascii) (s : string) : bool :=
  match s with
  | EmptyString => false
  | String a s' => Ascii.eqb a c || contains c s'
  end.

(** An attachment the decoder accepts. *)
Definition decodable (v : json) : bool :=
  match v with
  | JStr s => match DataUri.exec s with Some _ => true | None => false end
  | _ => false
  end.

(** The photos the handler walks through: those of an array, none
    otherwise. *)
Definition photoItems (reqBody : list (string * json)) : list json :=
  match get "photos" reqBody with
  | Some (JArr items) => items
  | _ => []
  end.

(** [referenced prefix uris clock dice refs]: [refs] are the references of
    the data URIs [uris], one for one and in the same order, each named
    after the clock reading and the random number drawn when it was
    saved. *)
Inductive referenced (prefix : string) :
  list json -> list Z -> list Z -> list json -> Prop :=
| referenced_nil (c d : list Z) : referenced prefix [] c d []
| referenced_cons (s mime payload : string) (uris : list json)
                  (c d : list Z) (refs : list json) :
    DataUri.exec s = Some (mime, payload) ->
    referenced prefix uris (tl c) (tl d) refs ->
    referenced prefix (JStr s :: uris) c d
      (JStr ("/uploads/" +:+ fileName prefix (hd 0 c) (hd 0 d) (extensionOf mime)) :: refs).

(** ** Records and the store *)

(** The record [POST /reports] builds (lines 80 to 92). *)
Definition reportData (rt : Runtime) (reqBody : list (string * json))
    (reportId : string) (photoFiles : list json)
    (ownerSignFile technicianSignFile : string) (created : Z) : json :=
  JObj (literal
    [("id", Some (JStr reportId));
     ("ownerName", get "ownerName" reqBody);
     ("phoneNumber", get "phoneNumber" reqBody);
     ("licensePlate", get "licensePlate" reqBody);
     ("faultDescription", get "faultDescription" reqBody);
     ("location", Some (orNull (get "location" reqBody)));
     ("photos", Some (JArr photoFiles));
     ("ownerSignature", Some (JStr ownerSignFile));
     ("technicianSignature", Some (JStr technicianSignFile));
     ("createdAt", Some (JStr (toISOString rt created)));
     ("status", Some (JStr "pending"))]).

(** ** Invariants of computations *)

(** [I] is a property of the two directories only. *)
Definition onFiles (I : World -> Prop) : Prop :=
  forall w w', reports w' = reports w -> uploads w' = uploads w -> I w -> I w'.

(** [m] keeps [I], however it ends. *)
Definition preserves {A} (I : World -> Prop) (m : js A) : Prop :=
  forall w r w', m w = (r, w') -> I w -> I w'.

(** ** The store and its listing *)

(** What the listing makes of a stored object: the status field is filled
    in when it is missing or falsy. *)
Definition backfilled (props : list (string * json)) : json :=
  JObj (if truthy (get "status" props) then props
        else set "status" (JStr "pending") props).

(** The statuses a stored record may carry: one of the two values, or none
    for a record that predates the field. *)
Definition storedStatus (v : value) : bool :=
  includes ["pending"; "attended"] v || negb (truthy v).

(** A file that holds a record: an object with such a status. *)
Definition isRecord (f : file) : bool :=
  match f with
  | JsonText (JObj props) => storedStatus (get "status" props)
  | _ => false
  end.

(** Every [.json] file of the reports directory is such a record. *)
Definition storeOk (w : World) : bool :=
  match reports w with
  | Some m =>
      forallb (fun entry => implb (endsWith entry.1 ".json") (isRecord entry.2))
              (map_to_list m)
  | None => true
  end.


(** The listing of a directory [m] enumerated as [files]: the objects of
    the [.json] files, in that order, each with its status filled in. *)
Fixpoint listed (m : gmap string file) (files : list string) : list json :=
  match files with
  | [] => []
  | file :: rest =>
      if endsWith file ".json" then
        match m !! file with
        | Some (JsonText (JObj props)) => backfilled props :: listed m rest
        | _ => listed m rest
        end
      else listed m rest
  end.

(** [res.status(code).json({ error: msg })]. *)
Definition errorResponse (code : Z) (msg : string) : Response :=
  {| statusCode := code; body := JObj [("error", JStr msg)] |}.

(** The properties other than [k], in their order. *)
Fixpoint others (k : string) (props : list (string * json)) : list (string * json) :=
  match props with
  | [] => []
  | (k', v') :: rest =>
      if String.eqb k k' then others k rest else (k', v') :: others k rest
  end.

(** A report as a client sees it. *)
Definition hasAllowedStatus (x : json) : Prop :=
  exists props,
    x = JObj props /\ includes ["pending"; "attended"] (get "status" props) = true.

(** The states of a deployment: it starts without a reports directory;
    requests are handled one at a time; between requests the clock, the
    random sources and the disk's coming answers are anyone's guess. *)
Inductive reachable (rt : Runtime) : World -> Prop :=
| reachable_start (w : World) :
    reports w = None -> reachable rt w
| reachable_drift (w w' : World) :
    reachable rt w ->
    reports w' = reports w -> uploads w' = uploads w ->
    reachable rt w'
| reachable_post (w w' : World) (reqBody : list (string * json)) (r : outcome Response) :
    reachable rt w -> post_reports rt reqBody w = (r, w') -> reachable rt w'
| reachable_get (w w' : World) (r : outcome Response) :
    reachable rt w -> get_reports w = (r, w') -> reachable rt w'
| reachable_put (w w' : World) (id : string) (reqBody : list (string * json))
                (r : outcome Response) :
    reachable rt w -> put_reports_status id reqBody w = (r, w') -> reachable rt w'.

(** ** The rules of validation *)

(** The required fields, in the order the rules are listed. *)
Inductive Field : Type :=
| OwnerName | PhoneNumber | LicensePlate | FaultDescription
| OwnerSignature | TechnicianSignature.

(** The rules, one per field, first to last. *)
Definition rules : list Field :=
  [OwnerName; PhoneNumber; LicensePlate; FaultDescription;
   OwnerSignature; TechnicianSignature].

(** The property of the body a rule reads. *)
Definition fieldName (f : Field) : string :=
  match f with
  | OwnerName => "ownerName"
  | PhoneNumber => "phoneNumber"
  | LicensePlate => "licensePlate"
  | FaultDescription => "faultDescription"
  | OwnerSignature => "ownerSignature"
  | TechnicianSignature => "technicianSignature"
  end.

(** The least length the rule of a field asks for; non-empty is 1. *)
Definition minLength (f : Field) : nat :=
  match f with
  | OwnerName => 2
  | LicensePlate => 3
  | FaultDescription => 10
  | PhoneNumber | OwnerSignature | TechnicianSignature => 1
  end.

(** The rule of a field, in the words of the specification: the field is
    present and its text has at least the required length. *)
Definition satisfies (f : Field) (reqBody : list (string * json)) : bool :=
  match get (fieldName f) reqBody with
  | Some (JStr s) => (minLength f <=? String.length s)%nat
  | _ => false
  end.

(** Fail-fast: the first rule, in order, that the submission violates. *)
Definition firstViolation (reqBody : list (string * json)) : option Field :=
  List.find (fun f => negb (satisfies f reqBody)) rules.

(** The message the source throws for a field. *)
Definition errorMessage (f : Field) : string :=
  match f with
  | OwnerName => "ownerName inválido"
  | PhoneNumber => "phoneNumber requerido"
  | LicensePlate => "licensePlate inválido"
  | FaultDescription => "faultDescription inválido"
  | OwnerSignature => "ownerSignature requerida"
  | TechnicianSignature => "technicianSignature requerida"
  end.

(** A submission whose required fields, where present, are text. *)
Definition isText (v : value) : bool :=
  match v with
  | None | Some (JStr _) => true
  | Some _ => false
  end.

(** Every required field of [reqBody] is text or absent. *)
Definition textual (reqBody : list (string * json)) : bool :=
  forallb (fun f => isText (get (fieldName f) reqBody)) rules.

(** ** Malformed attachments *)


(** ** Errors of the operating system *)

(** [m] consumes a stretch [used] of the coming answers of the operating
    system, and throws whenever one of them is an error. *)
Definition accounted {A} (m : js A) : Prop :=
  forall w r w',
    m w = (r, w') ->
    exists used,
      faults w = (used ++ faults w')%list
      /\ (Exists is_Some used -> exists e, r = Throw e).

(** ** Further vocabulary *)

(** [Array.isArray(v)]. *)
Definition isArray (v : value) : bool :=
  match v with
  | Some (JArr _) => true
  | _ => false
  end.

(** A file the two handlers that read records cannot make a record of:
    text that is no JSON, [null], or a primitive. *)
Definition unlistable (f : file) : bool :=
  match f with
  | JsonText (JObj _) | JsonText (JArr _) => false
  | _ => true
  end.

(** [ref] is the reference of a file the uploads directory of [w] holds. *)
Definition resolves (w : World) (ref : json) : Prop :=
  exists name,
    ref = JStr ("/uploads/" +:+ name)
    /\ is_Some (lookup_file UPLOADS_DIR name w).

(** The reports directory of [x] holds what that of [w] holds. *)
Definition sameReports (w x : World) : Prop :=
  forall name, lookup_file REPORTS_DIR name x = lookup_file REPORTS_DIR name w.

(** [m] accounts for the answers of the operating system it consumes,
    and an error among them is the exception it ends with, message
    included. *)
Definition reported {A} (m : js A) : Prop :=
  forall w r w',
    m w = (r, w') ->
    exists used,
      faults w = (used ++ faults w')%list
      /\ forall msg, In (Some msg) used -> r = Throw (SystemError msg).

(** The names of the properties of a stored record, in order. *)
Definition recordKeys : list string :=
  ["id"; "ownerName"; "phoneNumber"; "licensePlate"; "faultDescription";
   "location"; "photos"; "ownerSignature"; "technicianSignature";
   "createdAt"; "status"].

(** ** Sample data *)

(** A stand-in for the runtime: the bytes of a payload are its own code
    units, a date prints as its milliseconds, and no coercion succeeds. *)
Definition sampleRuntime : Runtime :=
  {| Buffer_from := list_byte_of_string;
     toISOString := pretty;
     coerce_lt := fun _ _ => Return false |}.

(** A reports directory: a record, a record that predates the status
    field, and a file that is no record. *)
Definition sampleStore : gmap string file :=
  <["r1.json" := JsonText (JObj [("id", JStr "r1"); ("ownerName", JStr "Ana");
                                 ("status", JStr "pending")])]>
    (<["legacy.json" := JsonText (JObj [("id", JStr "legacy"); ("ownerName", JStr "Luis")])]>
       (<["notes.txt" := Binary []]> ∅)).

(** A file system that enumerates [legacy.json] first and [r1.json]
    last. *)
Definition sampleOrder (name : string) : nat :=
  if String.eqb name "legacy.json" then 0
  else if String.eqb name "r1.json" then 2
  else 1.

(** A process with that directory, an empty uploads directory and a disk
    that answers every call. *)
Definition sampleWorld : World :=
  {| reports := Some sampleStore;
     uploads := Some ∅;
     clock := [1700000000000; 1700000000001; 1700000000002; 1700000000003];
     dice := [4821; 17; 9050];
     uuids := ["9b2f6c1e-5d7a-4c3b-8e21-0a1b2c3d4e5f"];
     faults := [];
     position := sampleOrder |}.

(** A submission that passes validation, with an empty location, one
    photo and a signature whose mime type has no subtype. *)
Definition sampleBody : list (string * json) :=
  [("ownerName", JStr "Marco");
   ("phoneNumber", JStr "5551234");
   ("licensePlate", JStr "ABC123");
   ("faultDescription", JStr "El motor no enciende");
   ("location", JStr EmptyString);
   ("photos", JArr [JStr "data:image/png;base64,iVBORw0KGgo="]);
   ("ownerSignature", JStr "data:image/svg+xml;base64,PHN2Zz4=");
   ("technicianSignature", JStr "data:foo;base64,AAAA")].

(** The same world with a file in the uploads directory whose name ends
    in [.json] and whose text is the empty object, as the bytes of an
    upload declared [x/json] can be. *)
Definition uploadedJsonWorld : World :=
  set_dir UPLOADS_DIR
    (<["photo-1700000000000-4821.json" := JsonText (JObj [])]> ∅) sampleWorld.


(** The same world, with the disk refusing the first call. *)
Definition failingWorld : World :=
  set_faults [Some "EACCES: permission denied, mkdir '/srv/app/reports'"] sampleWorld.

(** * Properties *)

Example exec_png :
  DataUri.exec "data:image/png;base64,iVBORw0KGgo=" = Some ("image/png", "iVBORw0KGgo=").
Proof. reflexivity. Qed.

Example exec_greedy :
  DataUri.exec "data:a;base64,b;base64,c" = Some ("a;base64,b", "c").
Proof. reflexivity. Qed.

Example exec_empty_payload : DataUri.exec "data:image/png;base64," = None.
Proof. reflexivity. Qed.

Example exec_empty_mime : DataUri.exec "data:;base64,AAAA" = None.
Proof. reflexivity. Qed.

Example exec_two_lines :
  DataUri.exec ("data:image/png;base64,AAAA" +:+ String "010" "BBBB") = None.
Proof. reflexivity. Qed.

Example exec_no_scheme : DataUri.exec "image/png;base64,AAAA" = None.
Proof. reflexivity. Qed.

Example split_mime : split "/" "image/svg+xml" = ["image"; "svg+xml"].
Proof. reflexivity. Qed.

Example split_three : split "/" "a/b/c" = ["a"; "b"; "c"].
Proof. reflexivity. Qed.

Example split_none : split "/" "foo" = ["foo"].
Proof. reflexivity. Qed.

(** ** The regular expression *)

Module DataUriFacts.
Import DataUri.

Lemma stripPrefix_Some (p s r : string) :
  stripPrefix p s = Some r <-> s = p +:+ r.
Proof.
  revert s; induction p as [|a p IH]; intros s; simpl.
  - split; [intros [= ->]; reflexivity | intros ->; reflexivity].
  - destruct s as [|b s]; [split; discriminate|].
    destruct (Ascii.eqb_spec a b) as [->|Hne].
    + rewrite IH. split; [intros ->; reflexivity | intros [= ->]; reflexivity].
    + split; [discriminate | intros [= -> _]; contradiction].
Qed.

Lemma oneLine_app (a b : string) :
  oneLine (a +:+ b) = oneLine a && oneLine b.
Proof.
  induction a as [|c a IH]; simpl; [reflexivity|].
  rewrite IH. apply andb_assoc.
Qed.

Lemma tail_Some (s p : string) :
  tail s = Some p <->
  s = ";base64," +:+ p /\ p <> EmptyString /\ oneLine p = true.
Proof.
  unfold tail. split.
  - destruct (stripPrefix ";base64," s) as [[|c r]|] eqn:E; try discriminate.
    destruct (oneLine (String c r)) eqn:L; intros [= <-].
    apply stripPrefix_Some in E. auto.
  - intros (-> & Hne & L).
    assert (E : stripPrefix ";base64," (";base64," +:+ p) = Some p)
      by (apply stripPrefix_Some; reflexivity).
    rewrite E. destruct p as [|c r]; [contradiction|]. rewrite L. reflexivity.
Qed.

Lemma group1_sound (s g p : string) :
  group1 s = Some (g, p) ->
  s = g +:+ ";base64," +:+ p
  /\ oneLine g = true /\ oneLine p = true /\ p <> EmptyString.
Proof.
  revert g p; induction s as [|c s IH]; intros g p; simpl; [discriminate|].
  assert (Hstop : option_map (pair EmptyString) (tail (String c s)) = Some (g, p) ->
                  String c s = g +:+ ";base64," +:+ p
                  /\ oneLine g = true /\ oneLine p = true /\ p <> EmptyString).
  { destruct (tail (String c s)) as [q|] eqn:E; simpl; [|discriminate].
    intros [= <- <-]. apply tail_Some in E as (E & Hne & L).
    rewrite E. auto. }
  destruct (isLineTerminator c) eqn:Hc; [exact Hstop|].
  destruct (group1 s) as [[g' p']|]; [|exact Hstop].
  intros [= <- <-]. destruct (IH g' p' eq_refl) as (-> & Lg & Lp & Hne).
  simpl. rewrite Hc, Lg. auto.
Qed.

(** The capture is the longest one: no other way of cutting the input at
    an occurrence of [;base64,] leaves a longer first group. *)
Lemma group1_greedy (g p : string) :
  oneLine g = true -> oneLine p = true -> p <> EmptyString ->
  exists g' p', group1 (g +:+ ";base64," +:+ p) = Some (g', p')
                /\ (String.length g <= String.length g')%nat.
Proof.
  intros Lg Lp Hne. induction g as [|c g IH].
  - change (EmptyString +:+ ";base64," +:+ p) with (String ";" ("base64," +:+ p)).
    cbn [group1]. change (isLineTerminator ";") with false. cbv iota.
    destruct (group1 ("base64," +:+ p)) as [[g' p']|].
    + exists (String ";" g'), p'. split; [reflexivity | simpl; lia].
    + assert (E : tail (String ";" ("base64," +:+ p)) = Some p)
        by (apply tail_Some; auto).
      rewrite E. exists EmptyString, p. split; [reflexivity | simpl; lia].
  - simpl in Lg. apply andb_prop in Lg as [Hc Lg].
    apply negb_true_iff in Hc.
    destruct (IH Lg) as (g' & p' & E & Hlen).
    exists (String c g'), p'. simpl. rewrite Hc, E.
    split; [reflexivity | simpl; lia].
Qed.

Lemma exec_sound (s mime payload : string) :
  exec s = Some (mime, payload) ->
  s = "data:" +:+ mime +:+ ";base64," +:+ payload
  /\ mime <> EmptyString /\ payload <> EmptyString
  /\ oneLine mime = true /\ oneLine payload = true.
Proof.
  unfold exec.
  destruct (stripPrefix "data:" s) as [[|c r]|] eqn:E; try discriminate.
  destruct (isLineTerminator c) eqn:Hc; [discriminate|].
  destruct (group1 r) as [[g p]|] eqn:G; [|discriminate].
  intros [= <- <-]. apply stripPrefix_Some in E.
  apply group1_sound in G as (-> & Lg & Lp & Hne).
  rewrite E. simpl. rewrite Hc, Lg. repeat split; auto.
Qed.

Lemma exec_complete (mime payload : string) :
  mime <> EmptyString -> payload <> EmptyString ->
  oneLine mime = true -> oneLine payload = true ->
  exists mime' payload',
    exec ("data:" +:+ mime +:+ ";base64," +:+ payload) = Some (mime', payload')
    /\ (String.length mime <= String.length mime')%nat.
Proof.
  intros Hm Hp Lm Lp. destruct mime as [|c g]; [contradiction|].
  simpl in Lm. apply andb_prop in Lm as [Hc Lg]. apply negb_true_iff in Hc.
  destruct (group1_greedy g payload Lg Lp Hp) as (g' & p' & E & Hlen).
  exists (String c g'), p'. unfold exec.
  assert (S : stripPrefix "data:" ("data:" +:+ String c g +:+ ";base64," +:+ payload)
              = Some (String c (g +:+ ";base64," +:+ payload)))
    by (apply stripPrefix_Some; reflexivity).
  rewrite S, Hc, E. split; [reflexivity | simpl; lia].
Qed.

Lemma exec_None_iff (s : string) : exec s = None <-> ~ matches s.
Proof.
  split.
  - intros E (mime & payload & -> & Hm & Hp & Lm & Lp).
    destruct (exec_complete mime payload Hm Hp Lm Lp) as (? & ? & E' & _).
    congruence.
  - intros Hn. destruct (exec s) as [[mime payload]|] eqn:E; [|reflexivity].
    exfalso. apply Hn. exists mime, payload. apply exec_sound. exact E.
Qed.

End DataUriFacts.

(** ** Running a computation *)

Section Running.
Context {A B : Type}.

Lemma bind_Return (m : js A) (k : A -> js B) (w w1 : World) (a : A) :
  m w = (Return a, w1) -> bind m k w = k a w1.
Proof. unfold bind. intros ->. reflexivity. Qed.

Lemma bind_Throw (m : js A) (k : A -> js B) (w w1 : World) (e : exn) :
  m w = (Throw e, w1) -> bind m k w = (Throw e, w1).
Proof. unfold bind. intros ->. reflexivity. Qed.

Lemma bind_inv (m : js A) (k : A -> js B) (w w' : World) (r : outcome B) :
  bind m k w = (r, w') ->
  (exists a w1, m w = (Return a, w1) /\ k a w1 = (r, w'))
  \/ (exists e, m w = (Throw e, w') /\ r = Throw e).
Proof.
  unfold bind. destruct (m w) as [[a|e] w1].
  - intros H. left. eauto.
  - intros [= <- <-]. right. eauto.
Qed.

End Running.

(** When the operating system reports no error. *)

Lemma syscall_quiet (w : World) : faults w = [] -> syscall w = (Return tt, w).
Proof. unfold syscall. intros ->. reflexivity. Qed.

Lemma mkdir_quiet (d : dir) (w : World) :
  faults w = [] ->
  mkdir d w = (Return tt, match get_dir d w with
                          | Some _ => w
                          | None => set_dir d ∅ w
                          end).
Proof.
  intros Q. unfold mkdir. rewrite (bind_Return _ _ _ _ _ (syscall_quiet w Q)).
  destruct (get_dir d w); reflexivity.
Qed.

Lemma writeFile_quiet (d : dir) (name : string) (data : file) (w : World)
      (m : gmap string file) :
  faults w = [] -> get_dir d w = Some m ->
  writeFile d name data w = (Return tt, set_dir d (<[name := data]> m) w).
Proof.
  intros Q D. unfold writeFile.
  rewrite (bind_Return _ _ _ _ _ (syscall_quiet w Q)), D. reflexivity.
Qed.

Lemma readFile_quiet (d : dir) (name : string) (w : World) (f : file) :
  faults w = [] -> lookup_file d name w = Some f ->
  readFile d name w = (Return f, w).
Proof.
  intros Q L. unfold readFile.
  rewrite (bind_Return _ _ _ _ _ (syscall_quiet w Q)), L. reflexivity.
Qed.

Lemma access_quiet (d : dir) (name : string) (w : World) (f : file) :
  faults w = [] -> lookup_file d name w = Some f ->
  access d name w = (Return tt, w).
Proof.
  intros Q L. unfold access.
  rewrite (bind_Return _ _ _ _ _ (syscall_quiet w Q)), L. reflexivity.
Qed.

Lemma readdir_quiet (d : dir) (w : World) (m : gmap string file) :
  faults w = [] -> get_dir d w = Some m ->
  readdir d w = (Return (enumerate (position w) m), w).
Proof.
  intros Q D. unfold readdir.
  rewrite (bind_Return _ _ _ _ _ (syscall_quiet w Q)), D. reflexivity.
Qed.

Lemma ensureDirs_quiet (w : World) :
  faults w = [] ->
  exists w',
    ensureDirs w = (Return tt, w')
    /\ faults w' = []
    /\ reports w' = Some (default ∅ (reports w))
    /\ uploads w' = Some (default ∅ (uploads w))
    /\ clock w' = clock w /\ dice w' = dice w /\ uuids w' = uuids w.
Proof.
  intros Q. unfold ensureDirs.
  rewrite (bind_Return _ _ _ _ _ (mkdir_quiet REPORTS_DIR w Q)).
  destruct w as [[r|] [u|] c d i f o]; simpl in Q; subst f;
    rewrite mkdir_quiet by reflexivity; simpl; eauto 10.
Qed.

(** ** The attachment decoder *)

Section Decoder.
Variable rt : Runtime.

Lemma saveBase64Image_quiet (s mime payload prefix : string) (w : World)
      (m : gmap string file) :
  DataUri.exec s = Some (mime, payload) ->
  faults w = [] -> uploads w = Some m ->
  let name := fileName prefix (hd 0 (clock w)) (hd 0 (dice w)) (extensionOf mime) in
  exists w',
    saveBase64Image rt (Some (JStr s)) prefix w = (Return ("/uploads/" +:+ name), w')
    /\ faults w' = []
    /\ reports w' = reports w
    /\ uploads w' = Some (<[name := Binary (Buffer_from rt payload)]> m)
    /\ clock w' = tl (clock w) /\ dice w' = tl (dice w) /\ uuids w' = uuids w.
Proof.
  intros E Q U name. unfold saveBase64Image.
  unfold lift at 1. unfold bind at 1. simpl. rewrite E.
  unfold bind at 1. unfold Date_now.
  unfold bind at 1. unfold Math_random_10000.
  erewrite bind_Return; [|apply writeFile_quiet with (m := m); simpl; assumption].
  unfold ret. eexists. split; [reflexivity|]. simpl. auto 10.
Qed.

(** On an input that matches, only the write can fail. *)
Lemma saveBase64Image_Throw (s mime payload prefix : string) (w w' : World) (e : exn) :
  DataUri.exec s = Some (mime, payload) ->
  saveBase64Image rt (Some (JStr s)) prefix w = (Throw e, w') ->
  exists msg, e = SystemError msg.
Proof.
  intros E. unfold saveBase64Image.
  unfold lift at 1. unfold bind at 1. simpl. rewrite E.
  unfold bind at 1. unfold Date_now.
  unfold bind at 1. unfold Math_random_10000.
  intros H. apply bind_inv in H as [(? & ? & _ & H)|(e' & H & [= ->])].
  - discriminate.
  - unfold writeFile in H.
    apply bind_inv in H as [(? & w1 & _ & H)|(e'' & H & [= ->])].
    + destruct (get_dir UPLOADS_DIR w1); inversion H. unfold ENOENT. eauto.
    + unfold syscall in H. simpl in H.
      destruct (faults w) as [|[msg|] rest]; inversion H. eauto.
Qed.

Lemma saveBase64Image_mismatch (s prefix : string) (w : World) :
  DataUri.exec s = None ->
  saveBase64Image rt (Some (JStr s)) prefix w
  = (Throw (Error "Invalid base64 string format"), w).
Proof.
  intros E. unfold saveBase64Image, lift, bind. simpl. rewrite E. reflexivity.
Qed.

End Decoder.

(** Facts about [split], [endsWith] and [get]. *)

Lemma contains_app (c : ascii) (a b : string) :
  contains c (a +:+ b) = contains c a || contains c b.
Proof.
  induction a as [|x a IH]; simpl; [reflexivity|].
  rewrite IH. apply orb_assoc.
Qed.

Lemma length_append (a b : string) :
  String.length (a +:+ b) = (String.length a + String.length b)%nat.
Proof. induction a as [|x a IH]; simpl; [reflexivity | rewrite IH; reflexivity]. Qed.

Lemma split_without_separator (c : ascii) (s : string) :
  contains c s = false -> split c s = [s].
Proof.
  induction s as [|a s IH]; simpl; [reflexivity|].
  intros H. apply orb_false_iff in H as [Ha Hs].
  rewrite Ha, (IH Hs). reflexivity.
Qed.


(** ** Paths *)

Example path_join_name : path_join REPORTS_DIR "r1.json" = Inside REPORTS_DIR "r1.json".
Proof. reflexivity. Qed.

Example path_join_back : path_join REPORTS_DIR "x/../r1.json" = Inside REPORTS_DIR "r1.json".
Proof. reflexivity. Qed.

Example path_join_sibling :
  path_join REPORTS_DIR "../uploads/photo-1-2.json" = Inside UPLOADS_DIR "photo-1-2.json".
Proof. reflexivity. Qed.

Example path_join_parent : path_join REPORTS_DIR "../package.json" = Elsewhere.
Proof. reflexivity. Qed.

Example path_join_subdirectory : path_join REPORTS_DIR "a/b.json" = Elsewhere.
Proof. reflexivity. Qed.

(** A name without a separator that is none of the empty name, [.] and
    [..] is a file of the directory it is joined to. *)
Lemma path_join_name_of (d : dir) (name : string) :
  contains "/" name = false ->
  (3 <= String.length name)%nat ->
  path_join d name = Inside d name.
Proof.
  intros Hc Hl. unfold path_join. rewrite (split_without_separator _ _ Hc).
  assert (E0 : String.eqb name EmptyString = false)
    by (apply String.eqb_neq; intros ->; simpl in Hl; lia).
  assert (E1 : String.eqb name "." = false)
    by (apply String.eqb_neq; intros ->; simpl in Hl; lia).
  assert (E2 : String.eqb name ".." = false)
    by (apply String.eqb_neq; intros ->; simpl in Hl; lia).
  cbn [walk]. rewrite E0, E1, E2. cbn [orb walk].
  destruct d; reflexivity.
Qed.

(** The path of line 137 for an identifier without a separator. *)
Lemma path_join_plain (id : string) :
  contains "/" id = false ->
  path_join REPORTS_DIR (id +:+ ".json") = Inside REPORTS_DIR (id +:+ ".json").
Proof.
  intros H. apply path_join_name_of.
  - rewrite contains_app, H. reflexivity.
  - rewrite length_append. simpl. lia.
Qed.

(** Where the path of line 137 is the file [<id>.json] of the reports
    directory, the handler is [put_reports_status]. *)
Lemma put_reports_status_resolved_plain (id : string) (reqBody : list (string * json)) :
  path_join REPORTS_DIR (id +:+ ".json") = Inside REPORTS_DIR (id +:+ ".json") ->
  put_reports_status_resolved id reqBody = Some (put_reports_status id reqBody).
Proof. intros H. unfold put_reports_status_resolved. rewrite H. reflexivity. Qed.

Lemma endsWith_refl (s : string) : endsWith s s = true.
Proof. destruct s; cbn [endsWith]; rewrite String.eqb_refl; reflexivity. Qed.

Lemma endsWith_app_r (a b c : string) :
  endsWith b c = true -> endsWith (a +:+ b) c = true.
Proof.
  intros H. induction a as [|x a IH]; simpl; [exact H|].
  rewrite IH. apply orb_true_r.
Qed.

Lemma endsWith_app (a b : string) : endsWith (a +:+ b) b = true.
Proof. apply endsWith_app_r, endsWith_refl. Qed.

Lemma fileName_endsWith (prefix : string) (now rnd : Z) (extension : string) :
  endsWith (fileName prefix now rnd extension) ("." +:+ extension) = true.
Proof.
  unfold fileName. do 5 apply endsWith_app_r. apply endsWith_refl.
Qed.

Lemma lookup_file_set_dir (d : dir) (name : string) (m : gmap string file) (w : World) :
  lookup_file d name (set_dir d m w) = m !! name.
Proof. destruct d; reflexivity. Qed.

(** C8.  Whatever the payload of a string that matches the pattern, the
    decoder raises no error of its own: the only error that can come out
    is one the operating system answers the write with, and when the
    write goes through the bytes [Buffer.from] makes of the payload, well
    formed or not, are in the file the returned reference names. *)
Theorem saveBase64Image_payload_unchecked
    (rt : Runtime) (s prefix : string) (w : World) :
  DataUri.matches s ->
  exists mime payload,
    DataUri.exec s = Some (mime, payload)
    /\ (forall e w',
          saveBase64Image rt (Some (JStr s)) prefix w = (Throw e, w') ->
          exists msg, e = SystemError msg)
    /\ (faults w = [] -> is_Some (uploads w) ->
        let name := fileName prefix (hd 0 (clock w)) (hd 0 (dice w)) (extensionOf mime) in
        exists w',
          saveBase64Image rt (Some (JStr s)) prefix w
          = (Return ("/uploads/" +:+ name), w')
          /\ lookup_file UPLOADS_DIR name w' = Some (Binary (Buffer_from rt payload))).
Proof.
  intros M.
  destruct (DataUri.exec s) as [[mime payload]|] eqn:E.
  - exists mime, payload. split; [reflexivity|]. split.
    + intros e w'. apply saveBase64Image_Throw with (1 := E).
    + intros Q [m U] name.
      destruct (saveBase64Image_quiet rt s mime payload prefix w m E Q U)
        as (w' & R & _ & _ & U' & _).
      exists w'. split; [exact R|].
      unfold lookup_file. simpl. rewrite U'. apply lookup_insert_eq.
  - apply DataUriFacts.exec_None_iff in E. contradiction.
Qed.

(** C9.  When the string matches and its mime type holds no ['/'], the
    decoder does not fail: with the write going through, it returns a
    reference whose file name ends in [.undefined], and the file is
    stored under that name. *)
Theorem saveBase64Image_extension_undefined
    (rt : Runtime) (s mime payload prefix : string) (w : World) :
  DataUri.exec s = Some (mime, payload) ->
  contains "/" mime = false ->
  faults w = [] -> is_Some (uploads w) ->
  let name := fileName prefix (hd 0 (clock w)) (hd 0 (dice w)) "undefined" in
  exists w',
    saveBase64Image rt (Some (JStr s)) prefix w = (Return ("/uploads/" +:+ name), w')
    /\ endsWith name ".undefined" = true
    /\ lookup_file UPLOADS_DIR name w' = Some (Binary (Buffer_from rt payload)).
Proof.
  intros E N Q [m U] name.
  destruct (saveBase64Image_quiet rt s mime payload prefix w m E Q U)
    as (w' & R & _ & _ & U' & _).
  assert (X : extensionOf mime = "undefined").
  { unfold extensionOf. rewrite (split_without_separator _ _ N). reflexivity. }
  rewrite X in R, U'. exists w'. split; [exact R|]. split.
  - apply (fileName_endsWith prefix _ _ "undefined").
  - unfold lookup_file. simpl. rewrite U'. apply lookup_insert_eq.
Qed.

(** ** Creating a report *)


Lemma decodable_inv (v : json) :
  decodable v = true ->
  exists s mime payload, v = JStr s /\ DataUri.exec s = Some (mime, payload).
Proof.
  destruct v as [| | |s| |]; simpl; try discriminate.
  destruct (DataUri.exec s) as [[mime payload]|] eqn:E; [|discriminate].
  eauto 6.
Qed.

Section Create.
Variable rt : Runtime.

Lemma savePhotos_quiet (items : list json) :
  forall (acc : list json) (w : World),
    forallb decodable items = true ->
    faults w = [] -> is_Some (uploads w) ->
    exists refs w',
      savePhotos rt items acc w = (Return (acc ++ refs)%list, w')
      /\ referenced "photo" items (clock w) (dice w) refs
      /\ faults w' = [] /\ reports w' = reports w /\ is_Some (uploads w')
      /\ clock w' = drop (List.length items) (clock w)
      /\ dice w' = drop (List.length items) (dice w)
      /\ uuids w' = uuids w.
Proof.
  induction items as [|v items IH]; intros acc w D Q [m U].
  - exists [], w. simpl. rewrite app_nil_r, !drop_0.
    repeat split; eauto using referenced_nil.
  - simpl in D. apply andb_prop in D as [Dv D].
    destruct (decodable_inv v Dv) as (s & mime & payload & -> & E).
    destruct (saveBase64Image_quiet rt s mime payload "photo" w m E Q U)
      as (w1 & R1 & Q1 & P1 & U1 & C1 & D1 & I1).
    destruct (IH (acc ++ [JStr ("/uploads/" +:+
                 fileName "photo" (hd 0 (clock w)) (hd 0 (dice w)) (extensionOf mime))])%list
                 w1 D Q1 (ex_intro _ _ U1))
      as (refs & w2 & R2 & F2 & Q2 & P2 & U2 & C2 & D2 & I2).
    eexists (_ :: refs), w2. cbn [savePhotos].
    rewrite (bind_Return _ _ _ _ _ R1), R2, <- app_assoc. simpl.
    split; [reflexivity|]. split.
    { eapply referenced_cons; [exact E|]. rewrite <- C1, <- D1. exact F2. }
    rewrite C2, D2, C1, D1, P2, P1, I2, I1.
    repeat split; auto; destruct (clock w), (dice w); simpl;
      rewrite ?drop_nil; reflexivity.
Qed.


End Create.

Lemma hd_drop {X : Type} (d : X) (n : nat) (l : list X) :
  hd d (drop n l) = nth n l d.
Proof.
  revert l; induction n as [|n IH]; intros [|x l]; simpl; auto.
Qed.

Lemma tl_drop {X : Type} (n : nat) (l : list X) :
  tl (drop n l) = drop (S n) l.
Proof.
  revert l; induction n as [|n IH]; intros [|x l]; simpl; auto.
Qed.

Section CreateHandler.
Variable rt : Runtime.

Lemma photos_branch (reqBody : list (string * json)) :
  match get "photos" reqBody with
  | Some (JArr items) => savePhotos rt items []
  | _ => ret []
  end = savePhotos rt (photoItems reqBody) [].
Proof.
  unfold photoItems. destruct (get "photos" reqBody) as [[]|]; reflexivity.
Qed.

Lemma post_reports_invalid (reqBody : list (string * json)) (w : World) (e : exn) :
  validate rt reqBody = Throw e ->
  post_reports rt reqBody w
  = (Return {| statusCode := 400; body := JObj [("error", JStr (message e))] |}, w).
Proof.
  intros V. unfold post_reports, try_catch. cbv zeta.
  rewrite (bind_Throw _ _ w w e) by (unfold lift; rewrite V; reflexivity).
  reflexivity.
Qed.

(** The run of a submission that passes validation and whose attachments
    the decoder accepts, when the operating system reports no error. *)
Lemma post_reports_created (reqBody : list (string * json)) (w : World)
      (so mo po st mt pt : string) :
  validate rt reqBody = Return tt ->
  forallb decodable (photoItems reqBody) = true ->
  get "ownerSignature" reqBody = Some (JStr so) ->
  DataUri.exec so = Some (mo, po) ->
  get "technicianSignature" reqBody = Some (JStr st) ->
  DataUri.exec st = Some (mt, pt) ->
  faults w = [] ->
  let n := List.length (photoItems reqBody) in
  let reportId := hd EmptyString (uuids w) in
  exists photoFiles w',
    referenced "photo" (photoItems reqBody) (clock w) (dice w) photoFiles
    /\ post_reports rt reqBody w
       = (Return {| statusCode := 201; body := JObj [("reportId", JStr reportId)] |}, w')
    /\ faults w' = []
    /\ reports w'
       = Some (<[reportId +:+ ".json" :=
                 JsonText (reportData rt reqBody reportId photoFiles
                   ("/uploads/" +:+ fileName "ownerSign" (nth n (clock w) 0)
                      (nth n (dice w) 0) (extensionOf mo))
                   ("/uploads/" +:+ fileName "techSign" (nth (S n) (clock w) 0)
                      (nth (S n) (dice w) 0) (extensionOf mt))
                   (nth (S (S n)) (clock w) 0))]>
               (default ∅ (reports w)))
    /\ uuids w' = tl (uuids w).
Proof.
  intros V D Ho Eo Ht Et Q n reportId.
  destruct (ensureDirs_quiet w Q) as (w1 & R1 & Q1 & P1 & U1 & C1 & D1 & I1).
  destruct (savePhotos_quiet rt (photoItems reqBody) [] w1 D Q1
              ltac:(rewrite U1; eauto))
    as (photoFiles & w2 & R2 & F2 & Q2 & P2 & [m2 U2] & C2 & D2 & I2).
  destruct (saveBase64Image_quiet rt so mo po "ownerSign" w2 m2 Eo Q2 U2)
    as (w3 & R3 & Q3 & P3 & U3 & C3 & D3 & I3).
  destruct (saveBase64Image_quiet rt st mt pt "techSign" w3 _ Et Q3 U3)
    as (w4 & R4 & Q4 & P4 & U4 & C4 & D4 & I4).
  rewrite C3, C2, C1 in R4. rewrite D3, D2, D1 in R4.
  rewrite C2, C1 in R3. rewrite D2, D1 in R3.
  rewrite !tl_drop, !hd_drop in R4. rewrite !hd_drop in R3.
  rewrite C1, D1 in F2. simpl in R2.
  exists photoFiles. eexists. split; [exact F2|].
  unfold post_reports, try_catch. cbv zeta.
  rewrite (bind_Return _ _ w w tt) by (unfold lift; rewrite V; reflexivity).
  rewrite (bind_Return _ _ _ _ _ R1), photos_branch.
  rewrite (bind_Return _ _ _ _ _ R2), Ho, (bind_Return _ _ _ _ _ R3).
  rewrite Ht, (bind_Return _ _ _ _ _ R4).
  unfold bind at 1. unfold uuidv4. unfold bind at 1. unfold Date_now.
  erewrite bind_Return;
    [|apply writeFile_quiet with (m := default ∅ (reports w));
      simpl; congruence].
  unfold ret. cbn [set_uuids set_clock set_dir uuids clock faults reports].
  rewrite I4, I3, I2, I1, C4, C3, C2, C1, !tl_drop, hd_drop.
  split; [reflexivity|]. split; [assumption|].
  split; reflexivity.
Qed.

End CreateHandler.

(** ** The handlers always answer *)

Lemma try_catch_answers {A} (m : js A) (h : exn -> A) (w : World) :
  exists a w', try_catch m (fun e => ret (h e)) w = (Return a, w').
Proof.
  unfold try_catch. destruct (m w) as [[a|e] w']; unfold ret; eauto.
Qed.

Lemma post_reports_answers (rt : Runtime) (reqBody : list (string * json)) (w : World) :
  exists resp w', post_reports rt reqBody w = (Return resp, w').
Proof. apply try_catch_answers. Qed.

Lemma get_reports_answers (w : World) :
  exists resp w', get_reports w = (Return resp, w').
Proof. apply (try_catch_answers _ (fun _ => _)). Qed.

Lemma put_reports_status_answers (id : string) (reqBody : list (string * json))
      (w : World) :
  exists resp w', put_reports_status id reqBody w = (Return resp, w').
Proof. apply (try_catch_answers _ (fun _ => _)). Qed.

(** ** What a computation leaves of the file system *)

Section Frame.
Variable I : World -> Prop.
Hypothesis I_onFiles : onFiles I.

Lemma preserves_ret {A} (a : A) : preserves I (ret a).
Proof. intros w r w' [= _ <-]. auto. Qed.

Lemma preserves_throw {A} (e : exn) : preserves I (@throw A e).
Proof. intros w r w' [= _ <-]. auto. Qed.

Lemma preserves_lift {A} (o : outcome A) : preserves I (lift o).
Proof. intros w r w' [= _ <-]. auto. Qed.

Lemma preserves_bind {A B} (m : js A) (k : A -> js B) :
  preserves I m -> (forall a, preserves I (k a)) -> preserves I (bind m k).
Proof.
  intros Hm Hk w r w' H Hw.
  apply bind_inv in H as [(a & w1 & H1 & H2)|(e & H1 & _)].
  - exact (Hk a w1 r w' H2 (Hm w _ w1 H1 Hw)).
  - exact (Hm w _ w' H1 Hw).
Qed.

Lemma preserves_try_catch {A} (m : js A) (h : exn -> js A) :
  preserves I m -> (forall e, preserves I (h e)) -> preserves I (try_catch m h).
Proof.
  intros Hm Hh w r w' H Hw. unfold try_catch in H.
  destruct (m w) as [[a|e] w1] eqn:E.
  - inversion H; subst. eauto.
  - eapply Hh; eauto.
Qed.

Lemma preserves_syscall : preserves I syscall.
Proof.
  intros w r w' H. unfold syscall in H.
  destruct (faults w) as [|[msg|] rest]; inversion H; subst;
    auto; apply I_onFiles; reflexivity.
Qed.

Lemma preserves_Date_now : preserves I Date_now.
Proof. intros w r w' [= _ <-]. apply I_onFiles; reflexivity. Qed.

Lemma preserves_Math_random : preserves I Math_random_10000.
Proof. intros w r w' [= _ <-]. apply I_onFiles; reflexivity. Qed.

Lemma preserves_uuidv4 : preserves I uuidv4.
Proof. intros w r w' [= _ <-]. apply I_onFiles; reflexivity. Qed.

Lemma preserves_reader {A} (f : World -> outcome A) :
  preserves I (fun w => (f w, w)).
Proof. intros w r w' [= _ <-]. auto. Qed.

Lemma preserves_readdir (d : dir) : preserves I (readdir d).
Proof.
  apply preserves_bind; [apply preserves_syscall|]. intros _ w r w' H.
  destruct (get_dir d w); inversion H; subst; auto.
Qed.

Lemma preserves_readFile (d : dir) (name : string) : preserves I (readFile d name).
Proof.
  apply preserves_bind; [apply preserves_syscall|]. intros _ w r w' H.
  destruct (lookup_file d name w); inversion H; subst; auto.
Qed.

Lemma preserves_access (d : dir) (name : string) : preserves I (access d name).
Proof.
  apply preserves_bind; [apply preserves_syscall|]. intros _ w r w' H.
  destruct (lookup_file d name w); inversion H; subst; auto.
Qed.

Lemma preserves_mkdir (d : dir) :
  (forall w, get_dir d w = None -> I w -> I (set_dir d ∅ w)) ->
  preserves I (mkdir d).
Proof.
  intros Hd. apply preserves_bind; [apply preserves_syscall|]. intros _ w r w' H.
  destruct (get_dir d w) eqn:E; inversion H; subst; auto.
Qed.

Lemma preserves_writeFile (d : dir) (name : string) (data : file) :
  (forall w m, get_dir d w = Some m -> I w -> I (set_dir d (<[name := data]> m) w)) ->
  preserves I (writeFile d name data).
Proof.
  intros Hd. apply preserves_bind; [apply preserves_syscall|]. intros _ w r w' H.
  destruct (get_dir d w) eqn:E; inversion H; subst; auto.
Qed.

End Frame.

Create HintDb frame.

#[local] Hint Resolve preserves_ret preserves_throw preserves_lift
  preserves_syscall preserves_Date_now preserves_Math_random preserves_uuidv4
  preserves_readdir preserves_readFile preserves_access : frame.

(** Walks through a sequence of calls, one [preserves] goal for each. *)
Ltac frame :=
  repeat first
    [ solve [auto with frame]
    | match goal with
      | |- preserves _ (bind _ _) => apply preserves_bind; [|intros ?]
      | |- preserves _ (if ?c then _ else _) => destruct c
      end ].

(** ** Listing the reports *)

(** The enumeration holds the names of the directory, each once. *)
Lemma enumerate_Permutation (place : string -> nat) (m : gmap string file) :
  enumerate place m ≡ₚ (map_to_list m).*1.
Proof. apply merge_sort_Permutation. Qed.

Lemma enumerate_In (place : string -> nat) (m : gmap string file) (name : string) :
  In name (enumerate place m) <-> exists f, m !! name = Some f.
Proof.
  rewrite <- list_elem_of_In, enumerate_Permutation, list_elem_of_fmap. split.
  - intros ([n f] & -> & Hn). apply elem_of_map_to_list in Hn. eauto.
  - intros [f L]. exists (name, f). split; [reflexivity|].
    apply elem_of_map_to_list. exact L.
Qed.

Lemma syscall_position (w w' : World) (r : outcome unit) :
  syscall w = (r, w') -> position w' = position w.
Proof.
  unfold syscall. destruct (faults w) as [|[msg|] rest]; intros [= _ <-]; reflexivity.
Qed.

Lemma storeOk_lookup (w : World) (m : gmap string file) (name : string) (f : file) :
  storeOk w = true -> reports w = Some m -> m !! name = Some f ->
  endsWith name ".json" = true -> isRecord f = true.
Proof.
  unfold storeOk. intros S R L E. rewrite R in S.
  rewrite forallb_forall in S.
  specialize (S (name, f)). simpl in S. rewrite E in S. apply S.
  apply list_elem_of_In, elem_of_map_to_list. exact L.
Qed.

Lemma storeOk_intro (w : World) :
  (forall m name f, reports w = Some m -> m !! name = Some f ->
                    endsWith name ".json" = true -> isRecord f = true) ->
  storeOk w = true.
Proof.
  unfold storeOk. intros H. destruct (reports w) as [m|]; [|reflexivity].
  apply forallb_forall. intros [name f] Hin. simpl.
  destruct (endsWith name ".json") eqn:E; [|reflexivity]. simpl.
  apply (H m name f eq_refl); [|exact E].
  apply elem_of_map_to_list, list_elem_of_In. exact Hin.
Qed.

Lemma storeOk_onFiles : onFiles (fun w => storeOk w = true).
Proof. intros w w' R _. unfold storeOk. rewrite R. auto. Qed.

Lemma syscall_files (w w' : World) (r : outcome unit) :
  syscall w = (r, w') -> reports w' = reports w /\ uploads w' = uploads w.
Proof.
  unfold syscall. destruct (faults w) as [|[msg|] rest]; intros [= _ <-]; auto.
Qed.

Lemma readFile_inv (d : dir) (name : string) (w w' : World) (f : file) :
  readFile d name w = (Return f, w') ->
  lookup_file d name w = Some f
  /\ reports w' = reports w /\ uploads w' = uploads w.
Proof.
  unfold readFile. intros H.
  apply bind_inv in H as [([] & w1 & S & H)|(e & _ & [=])].
  apply syscall_files in S as [R U]. cbv beta in H.
  destruct (lookup_file d name w1) as [f'|] eqn:L; inversion H; subst.
  split; [|auto]. rewrite <- L. unfold lookup_file.
  destruct d; simpl; [rewrite R | rewrite U]; reflexivity.
Qed.

Lemma isRecord_inv (f : file) :
  isRecord f = true ->
  exists props, f = JsonText (JObj props) /\ storedStatus (get "status" props) = true.
Proof.
  destruct f as [[| | | | |props]|]; simpl; try discriminate. eauto.
Qed.

Lemma readReports_skip (file : string) (rest : list string) (acc : list json) :
  endsWith file ".json" = false ->
  readReports (file :: rest) acc = readReports rest acc.
Proof. intros E. cbn [readReports]. rewrite E. reflexivity. Qed.

Lemma readReports_record (file : string) (rest : list string) (acc : list json)
      (w w1 : World) (props : list (string * json)) :
  endsWith file ".json" = true ->
  readFile REPORTS_DIR file w = (Return (JsonText (JObj props)), w1) ->
  readReports (file :: rest) acc w
  = readReports rest (acc ++ [backfilled props]) w1.
Proof.
  intros E R. cbn [readReports]. rewrite E, (bind_Return _ _ _ _ _ R).
  unfold backfilled, bind, lift. simpl.
  destruct (truthy (get "status" props)); reflexivity.
Qed.


Lemma listed_In (m : gmap string file) (files : list string)
      (name : string) (props : list (string * json)) :
  In name files -> endsWith name ".json" = true ->
  m !! name = Some (JsonText (JObj props)) ->
  In (backfilled props) (listed m files).
Proof.
  intros Hin E L. induction files as [|file rest IH]; [destruct Hin|].
  simpl. destruct Hin as [->|Hin].
  - rewrite E, L. left. reflexivity.
  - specialize (IH Hin). destruct (endsWith file ".json"); [|exact IH].
    destruct (m !! file) as [[[| | | | |props0]|]|]; try exact IH.
    right. exact IH.
Qed.

Lemma readReports_inv (files : list string) :
  forall (acc rs : list json) (w w' : World) (m : gmap string file),
    storeOk w = true -> reports w = Some m ->
    readReports files acc w = (Return rs, w') ->
    rs = (acc ++ listed m files)%list.
Proof.
  induction files as [|file rest IH]; intros acc rs w w' m S R H.
  - inversion H; subst. simpl. rewrite app_nil_r. reflexivity.
  - destruct (endsWith file ".json") eqn:E.
    + pose proof H as H0. cbn [readReports] in H0. rewrite E in H0.
      apply bind_inv in H0 as [(content & w1 & F & _)|(e & _ & [=])].
      pose proof (readFile_inv _ _ _ _ _ F) as (L & R1 & U1).
      unfold lookup_file in L. simpl in L. rewrite R in L.
      destruct (isRecord_inv content (storeOk_lookup w m file content S R L E))
        as (props & -> & _).
      rewrite (readReports_record file rest acc w w1 props E F) in H.
      apply IH with (m := m) in H.
      * rewrite H, <- app_assoc. cbn [listed]. rewrite E, L. reflexivity.
      * apply (storeOk_onFiles w w1 R1 U1 S).
      * congruence.
    + rewrite readReports_skip in H by exact E.
      cbn [listed]. rewrite E. eapply IH; eauto.
Qed.

Lemma readReports_quiet (files : list string) :
  forall (acc : list json) (w : World) (m : gmap string file),
    faults w = [] -> storeOk w = true -> reports w = Some m ->
    (forall name, In name files -> is_Some (m !! name)) ->
    readReports files acc w = (Return (acc ++ listed m files)%list, w).
Proof.
  induction files as [|file rest IH]; intros acc w m Q S R Hin.
  - simpl. rewrite app_nil_r. reflexivity.
  - assert (Hrest : forall name, In name rest -> is_Some (m !! name))
      by (intros name Hn; apply Hin; right; exact Hn).
    destruct (endsWith file ".json") eqn:E.
    + destruct (Hin file (or_introl eq_refl)) as [content L].
      destruct (isRecord_inv content (storeOk_lookup w m file content S R L E))
        as (props & -> & _).
      assert (F : readFile REPORTS_DIR file w = (Return (JsonText (JObj props)), w)).
      { apply readFile_quiet; [exact Q|]. unfold lookup_file. simpl. rewrite R. exact L. }
      rewrite (readReports_record file rest acc w w props E F).
      rewrite (IH _ w m Q S R Hrest), <- app_assoc.
      cbn [listed]. rewrite E, L. reflexivity.
    + rewrite readReports_skip by exact E. cbn [listed]. rewrite E.
      apply IH; assumption.
Qed.

Lemma get_reports_quiet (w : World) (m : gmap string file) :
  faults w = [] -> storeOk w = true -> reports w = Some m ->
  get_reports w
  = (Return {| statusCode := 200;
               body := JArr (listed m (enumerate (position w) m)) |}, w).
Proof.
  intros Q S R. unfold get_reports, try_catch.
  rewrite (bind_Return _ _ _ _ _ (readdir_quiet REPORTS_DIR w m Q R)).
  erewrite bind_Return; [reflexivity|].
  apply (readReports_quiet _ [] w m Q S R).
  intros name Hn. apply enumerate_In in Hn. destruct Hn as [f Hn]. eauto.
Qed.

(** Every stored record is in the listing of its directory. *)
Lemma listed_record (m : gmap string file) (name : string)
      (props : list (string * json)) :
  endsWith name ".json" = true ->
  m !! name = Some (JsonText (JObj props)) ->
  forall place, In (backfilled props) (listed m (enumerate place m)).
Proof.
  intros E L place. apply (listed_In m _ name props); auto.
  apply enumerate_In. eauto.
Qed.

Lemma readdir_inv (d : dir) (w w' : World) (names : list string) :
  readdir d w = (Return names, w') ->
  reports w' = reports w /\ uploads w' = uploads w
  /\ exists m, get_dir d w = Some m /\ names = enumerate (position w) m.
Proof.
  unfold readdir. intros H.
  apply bind_inv in H as [([] & w1 & S & H)|(e & _ & [=])].
  pose proof (syscall_position _ _ _ S) as P.
  apply syscall_files in S as [R U].
  assert (G : get_dir d w1 = get_dir d w) by (destruct d; simpl; congruence).
  rewrite <- G, <- P. cbv beta in H.
  destruct (get_dir d w1); inversion H; subst; eauto.
Qed.

Lemma get_reports_inv (w w' : World) (r : Response) :
  storeOk w = true ->
  get_reports w = (Return r, w') -> statusCode r = 200 ->
  exists m,
    reports w = Some m /\ body r = JArr (listed m (enumerate (position w) m)).
Proof.
  intros S H C. unfold get_reports, try_catch in H.
  match type of H with
  | match ?b w with _ => _ end = _ => destruct (b w) as [[r0|e] w0] eqn:B
  end.
  - inversion H; subst r0 w0. clear H.
    apply bind_inv in B as [(files & w1 & D & B)|(e & _ & [=])].
    apply bind_inv in B as [(rs & w2 & L & B)|(e & _ & [=])].
    inversion B; subst. simpl.
    apply readdir_inv in D as (R1 & U1 & m & G & ->). simpl in G.
    apply readReports_inv with (m := m) in L.
    + exists m. subst rs. auto.
    + apply (storeOk_onFiles w w1 R1 U1 S).
    + congruence.
  - inversion H; subst. discriminate.
Qed.

Lemma readReports_preserves (I : World -> Prop) (files : list string) :
  onFiles I -> forall acc, preserves I (readReports files acc).
Proof.
  intros HI. induction files as [|file rest IH]; intros acc; cbn [readReports].
  - apply preserves_ret.
  - destruct (endsWith file ".json"); [|apply IH].
    frame.
Qed.

Lemma get_reports_preserves (I : World -> Prop) :
  onFiles I -> preserves I get_reports.
Proof.
  intros HI. unfold get_reports.
  apply preserves_try_catch; [|intros; apply preserves_ret].
  frame. apply readReports_preserves; assumption.
Qed.

(** ** The store invariant under [POST /reports] *)

Lemma writeFile_inv (d : dir) (name : string) (data : file) (w w' : World) (u : unit) :
  writeFile d name data w = (Return u, w') ->
  lookup_file d name w' = Some data.
Proof.
  unfold writeFile. intros H.
  apply bind_inv in H as [([] & w1 & _ & H)|(e & _ & [=])]. cbv beta in H.
  destruct (get_dir d w1) as [m|]; inversion H; subst.
  rewrite lookup_file_set_dir. apply lookup_insert_eq.
Qed.

Lemma reportData_status (rt : Runtime) (reqBody : list (string * json))
      (reportId : string) (photoFiles : list json) (osf tsf : string) (created : Z) :
  exists props,
    reportData rt reqBody reportId photoFiles osf tsf created = JObj props
    /\ get "status" props = Some (JStr "pending").
Proof.
  unfold reportData. eexists. split; [reflexivity|].
  destruct (get "ownerName" reqBody), (get "phoneNumber" reqBody),
    (get "licensePlate" reqBody), (get "faultDescription" reqBody); reflexivity.
Qed.

Lemma storeOk_insert (w : World) (m : gmap string file) (name : string) (f : file) :
  storeOk w = true -> reports w = Some m -> isRecord f = true ->
  storeOk (set_dir REPORTS_DIR (<[name := f]> m) w) = true.
Proof.
  intros S R F. apply storeOk_intro. simpl. intros m' name' f' [= <-] L E.
  destruct (decide (name = name')) as [<-|Hne].
  - rewrite lookup_insert_eq in L. congruence.
  - rewrite lookup_insert_ne in L by exact Hne.
    apply (storeOk_lookup w m name' f' S R L E).
Qed.

Section CreateInvariant.
Variable rt : Runtime.
Variable I : World -> Prop.
Hypothesis I_onFiles : onFiles I.
Hypothesis I_uploads :
  forall w m, I w -> I (set_dir UPLOADS_DIR m w).

Lemma saveBase64Image_preserves (v : value) (prefix : string) :
  preserves I (saveBase64Image rt v prefix).
Proof.
  unfold saveBase64Image.
  apply preserves_bind; [auto with frame|]. intros [[mime data]|]; [|auto with frame].
  frame. apply preserves_writeFile; auto.
Qed.

Lemma savePhotos_preserves (items : list json) :
  forall acc, preserves I (savePhotos rt items acc).
Proof.
  induction items as [|v items IH]; intros acc; cbn [savePhotos].
  - auto with frame.
  - apply preserves_bind; [apply saveBase64Image_preserves | intros; apply IH].
Qed.

End CreateInvariant.

Lemma post_reports_preserves_storeOk (rt : Runtime) (reqBody : list (string * json)) :
  preserves (fun w => storeOk w = true) (post_reports rt reqBody).
Proof.
  pose proof storeOk_onFiles as HI.
  assert (HU : forall w m, storeOk w = true -> storeOk (set_dir UPLOADS_DIR m w) = true)
    by (intros w m S; exact S).
  unfold post_reports. cbv zeta. rewrite photos_branch.
  apply preserves_try_catch; [|intros; apply preserves_ret].
  apply preserves_bind; [auto with frame | intros _].
  apply preserves_bind; [|intros _].
  { unfold ensureDirs. apply preserves_bind; [|intros _].
    - apply preserves_mkdir; [exact HI|]. intros w _ _. reflexivity.
    - apply preserves_mkdir; [exact HI|]. intros w _ S. exact S. }
  apply preserves_bind; [apply savePhotos_preserves; assumption | intros photoFiles].
  apply preserves_bind; [apply saveBase64Image_preserves; assumption | intros osf].
  apply preserves_bind; [apply saveBase64Image_preserves; assumption | intros tsf].
  apply preserves_bind; [auto with frame | intros reportId].
  apply preserves_bind; [auto with frame | intros created].
  apply preserves_bind; [|auto with frame].
  apply preserves_writeFile; [exact HI|]. intros w m G S.
  apply storeOk_insert; [exact S | exact G |].
  destruct (reportData_status rt reqBody reportId photoFiles osf tsf created)
    as (props & Eq & St).
  unfold reportData in Eq. rewrite Eq. simpl. unfold storedStatus. rewrite St. reflexivity.
Qed.


(** ** Updating the status *)

Lemma files_kept {A} (m : js A) :
  (forall I, onFiles I -> preserves I m) ->
  forall w r w', m w = (r, w') ->
                 reports w' = reports w /\ uploads w' = uploads w.
Proof.
  intros Hm w r w' H.
  refine (Hm (fun x => reports x = reports w /\ uploads x = uploads w) _ w r w' H _).
  - intros x x' R U [R0 U0]. split; congruence.
  - auto.
Qed.

Lemma writeFile_Throw (d : dir) (name : string) (data : file) (w w' : World) (e : exn) :
  writeFile d name data w = (Throw e, w') ->
  reports w' = reports w /\ uploads w' = uploads w.
Proof.
  unfold writeFile. intros H.
  apply bind_inv in H as [([] & w1 & S & H)|(e' & S & _)].
  - apply syscall_files in S. cbv beta in H.
    destruct (get_dir d w1); inversion H; subst. exact S.
  - apply syscall_files in S. exact S.
Qed.

Lemma writeFile_Return (d : dir) (name : string) (data : file) (w w' : World) (u : unit) :
  writeFile d name data w = (Return u, w') ->
  exists m, get_dir d w = Some m /\ w' = set_dir d (<[name := data]> m) w'
            /\ get_dir d w' = Some (<[name := data]> m)
            /\ (d = REPORTS_DIR -> uploads w' = uploads w)
            /\ (d = UPLOADS_DIR -> reports w' = reports w).
Proof.
  unfold writeFile. intros H.
  apply bind_inv in H as [([] & w1 & S & H)|(e' & _ & [=])].
  apply syscall_files in S as [R U]. cbv beta in H.
  destruct (get_dir d w1) as [m|] eqn:G; inversion H; subst.
  exists m. destruct d; simpl in *; repeat split; congruence.
Qed.

Lemma probe_preserves (I : World -> Prop) (d : dir) (name : string) :
  onFiles I ->
  preserves I (try_catch (access d name ;; ret true) (fun _ => ret false)).
Proof.
  intros HI. apply preserves_try_catch; [frame | intros; apply preserves_ret].
Qed.

Lemma probe_found (d : dir) (name : string) (w w' : World) :
  try_catch (access d name ;; ret true) (fun _ => ret false) w = (Return true, w') ->
  is_Some (lookup_file d name w).
Proof.
  unfold try_catch. intros H.
  destruct ((access d name ;; ret true) w) as [[b|e] w0] eqn:B.
  - apply bind_inv in B as [([] & w1 & A & _)|(e & _ & [=])].
    unfold access in A.
    apply bind_inv in A as [([] & w2 & S & A)|(e & _ & [=])].
    apply syscall_files in S as [R U]. cbv beta in A.
    assert (L : lookup_file d name w2 = lookup_file d name w)
      by (unfold lookup_file; destruct d; simpl; [rewrite R | rewrite U]; reflexivity).
    rewrite <- L. destruct (lookup_file d name w2); inversion A; eauto.
  - inversion H.
Qed.

Lemma put_reports_status_invalid (id : string) (reqBody : list (string * json)) (w : World) :
  includes ["pending"; "attended"] (get "status" reqBody) = false ->
  put_reports_status id reqBody w
  = (Return (errorResponse 400 "Estado inválido"), w).
Proof.
  intros Inc.
  unfold put_reports_status, put_reports_status_at, try_catch.
  cbv zeta. rewrite Inc. reflexivity.
Qed.

Lemma put_reports_status_missing (id : string) (reqBody : list (string * json)) (w : World) :
  includes ["pending"; "attended"] (get "status" reqBody) = true ->
  lookup_file REPORTS_DIR (id +:+ ".json") w = None ->
  exists w',
    put_reports_status id reqBody w
    = (Return (errorResponse 404 "Reporte no encontrado"), w')
    /\ reports w' = reports w /\ uploads w' = uploads w.
Proof.
  intros Inc L.
  unfold put_reports_status, put_reports_status_at, try_catch at 1.
  cbv zeta. rewrite Inc.
  cbn [negb].
  destruct (try_catch (access REPORTS_DIR (id +:+ ".json");; ret true)
                      (fun _ => ret false) w) as [[[|]|e] w1] eqn:P.
  - apply probe_found in P as [f Hf]. congruence.
  - rewrite (bind_Return _ _ _ _ _ P). cbn [negb]. exists w1. split; [reflexivity|].
    apply (files_kept _ (fun I HI => probe_preserves I _ _ HI) _ _ _ P).
  - exfalso. unfold try_catch in P.
    destruct ((access REPORTS_DIR (id +:+ ".json");; ret true) w) as [[b|e'] w0];
      inversion P.
Qed.

Lemma put_reports_status_at_missing (d : dir) (name : string)
      (reqBody : list (string * json)) (w : World) :
  includes ["pending"; "attended"] (get "status" reqBody) = true ->
  lookup_file d name w = None ->
  exists w',
    put_reports_status_at d name reqBody w
    = (Return (errorResponse 404 "Reporte no encontrado"), w')
    /\ reports w' = reports w /\ uploads w' = uploads w.
Proof.
  intros Inc L. unfold put_reports_status_at, try_catch at 1. cbv zeta. rewrite Inc.
  cbn [negb].
  destruct (try_catch (access d name;; ret true) (fun _ => ret false) w)
    as [[[|]|e] w1] eqn:P.
  - apply probe_found in P as [f Hf]. congruence.
  - rewrite (bind_Return _ _ _ _ _ P). cbn [negb]. exists w1. split; [reflexivity|].
    apply (files_kept _ (fun I HI => probe_preserves I _ _ HI) _ _ _ P).
  - exfalso. unfold try_catch in P.
    destruct ((access d name;; ret true) w) as [[b|e'] w0]; inversion P.
Qed.

(** Every way the handler can end. *)
Lemma put_reports_status_cases (id : string) (reqBody : list (string * json))
      (w w' : World) (r : outcome Response) :
  put_reports_status id reqBody w = (r, w') ->
  let status := get "status" reqBody in
  let name := id +:+ ".json" in
  (includes ["pending"; "attended"] status = false
   /\ r = Return (errorResponse 400 "Estado inválido") /\ w' = w)
  \/ (includes ["pending"; "attended"] status = true
      /\ reports w' = reports w /\ uploads w' = uploads w
      /\ (r = Return (errorResponse 404 "Reporte no encontrado")
          \/ r = Return (errorResponse 500 "Error actualizando el estado del reporte")))
  \/ (includes ["pending"; "attended"] status = true
      /\ exists m content parsed data,
           reports w = Some m
           /\ m !! name = Some content
           /\ JSON_parse content = Return parsed
           /\ assign parsed "status" status = Return data
           /\ r = Return {| statusCode := 200; body := data |}
           /\ reports w' = Some (<[name := JsonText data]> m)
           /\ uploads w' = uploads w).
Proof.
  intros H status name.
  destruct (includes ["pending"; "attended"] status) eqn:Inc.
  2:{ left. rewrite put_reports_status_invalid in H by exact Inc.
      inversion H; subst. auto. }
  right. unfold put_reports_status, put_reports_status_at, try_catch at 1 in H. cbv zeta in H.
  fold status name in H. rewrite Inc in H. cbn [negb] in H.
  match type of H with
  | match ?b w with _ => _ end = _ => destruct (b w) as [[r0|e] w0] eqn:B
  end; inversion H; subst; clear H.
  - apply bind_inv in B as [(found & w1 & P & B)|(e & _ & [=])].
    pose proof (files_kept _ (fun I HI => probe_preserves I _ _ HI) _ _ _ P) as [R1 U1].
    destruct found; cbn [negb] in B.
    + apply probe_found in P as [f0 L0].
      apply bind_inv in B as [(content & w2 & F & B)|(e & _ & [=])].
      apply readFile_inv in F as (L & R2 & U2).
      apply bind_inv in B as [(parsed & w3 & J & B)|(e & _ & [=])].
      apply bind_inv in B as [(data & w4 & G & B)|(e & _ & [=])].
      apply bind_inv in B as [([] & w5 & W & B)|(e & _ & [=])].
      inversion J; subst. inversion G; subst. inversion B; subst.
      apply writeFile_Return in W as (m & Gm & _ & Gm' & Um & _). simpl in Gm, Gm'.
      right. split; [reflexivity|]. exists m, content, parsed, data.
      unfold lookup_file in L. simpl in L. rewrite <- R2, Gm in L.
      repeat split; try congruence.
      rewrite Um by reflexivity. congruence.
    + inversion B; subst. left. auto 6.
  - left. split; [reflexivity|].
    assert (K : reports w' = reports w /\ uploads w' = uploads w); [|tauto].
    apply bind_inv in B as [(found & w1 & P & B)|(e0 & P & _)].
    2:{ apply (files_kept _ (fun I HI => probe_preserves I _ _ HI) _ _ _ P). }
    pose proof (files_kept _ (fun I HI => probe_preserves I _ _ HI) _ _ _ P) as [R1 U1].
    destruct found; cbn [negb] in B; [|inversion B].
    apply bind_inv in B as [(content & w2 & F & B)|(e0 & F & _)].
    2:{ pose proof (files_kept _ (fun I HI => preserves_readFile I HI _ _) _ _ _ F) as [R2 U2].
        split; congruence. }
    pose proof (files_kept _ (fun I HI => preserves_readFile I HI _ _) _ _ _ F) as [R2 U2].
    apply bind_inv in B as [(parsed & w3 & J & B)|(e0 & J & _)].
    2:{ inversion J; subst. split; congruence. }
    apply bind_inv in B as [(data & w4 & G & B)|(e0 & G & _)].
    2:{ inversion J; inversion G; subst. split; congruence. }
    inversion J; inversion G; subst.
    apply bind_inv in B as [([] & w5 & W & B)|(e0 & W & _)]; [inversion B|].
    apply writeFile_Throw in W as [R5 U5]. split; congruence.
Qed.

(** The same for a path that is the file [name] of either directory. *)
Lemma put_reports_status_at_cases (d : dir) (name : string)
      (reqBody : list (string * json)) (w w' : World) (r : outcome Response) :
  put_reports_status_at d name reqBody w = (r, w') ->
  let status := get "status" reqBody in
  (includes ["pending"; "attended"] status = false
   /\ r = Return (errorResponse 400 "Estado inválido") /\ w' = w)
  \/ (includes ["pending"; "attended"] status = true
      /\ reports w' = reports w /\ uploads w' = uploads w
      /\ (r = Return (errorResponse 404 "Reporte no encontrado")
          \/ r = Return (errorResponse 500 "Error actualizando el estado del reporte")))
  \/ (includes ["pending"; "attended"] status = true
      /\ exists m content parsed data,
           get_dir d w = Some m
           /\ m !! name = Some content
           /\ JSON_parse content = Return parsed
           /\ assign parsed "status" status = Return data
           /\ r = Return {| statusCode := 200; body := data |}
           /\ get_dir d w' = Some (<[name := JsonText data]> m)
           /\ (d = REPORTS_DIR -> uploads w' = uploads w)
           /\ (d = UPLOADS_DIR -> reports w' = reports w)).
Proof.
  intros H status.
  assert (Same : forall x, reports x = reports w -> uploads x = uploads w ->
                           get_dir d x = get_dir d w)
    by (intros x Rx Ux; destruct d; simpl; assumption).
  unfold put_reports_status_at, try_catch at 1 in H. cbv zeta in H.
  fold status in H.
  destruct (includes ["pending"; "attended"] status) eqn:Inc; cbn [negb] in H.
  2:{ left. inversion H; subst. auto. }
  right.
  match type of H with
  | match ?b w with _ => _ end = _ => destruct (b w) as [[r0|e] w0] eqn:B
  end; inversion H; subst; clear H.
  - apply bind_inv in B as [(found & w1 & P & B)|(e & _ & [=])].
    pose proof (files_kept _ (fun I HI => probe_preserves I _ _ HI) _ _ _ P) as [R1 U1].
    destruct found; cbn [negb] in B.
    + apply bind_inv in B as [(content & w2 & F & B)|(e & _ & [=])].
      apply readFile_inv in F as (L & R2 & U2).
      apply bind_inv in B as [(parsed & w3 & J & B)|(e & _ & [=])].
      apply bind_inv in B as [(data & w4 & G & B)|(e & _ & [=])].
      apply bind_inv in B as [([] & w5 & W & B)|(e & _ & [=])].
      inversion J; subst. inversion G; subst. inversion B; subst.
      apply writeFile_Return in W as (m & Gm & _ & Gm' & Um & Rm).
      right. split; [reflexivity|]. exists m, content, parsed, data.
      assert (Gw : get_dir d w = Some m).
      { rewrite <- Gm. symmetry. apply Same; congruence. }
      unfold lookup_file in L. rewrite (Same w1 R1 U1), Gw in L.
      repeat split; try assumption.
      * intros Hd. rewrite (Um Hd). congruence.
      * intros Hd. rewrite (Rm Hd). congruence.
    + inversion B; subst. left. auto 6.
  - left. split; [reflexivity|].
    assert (K : reports w' = reports w /\ uploads w' = uploads w); [|tauto].
    apply bind_inv in B as [(found & w1 & P & B)|(e0 & P & _)].
    2:{ apply (files_kept _ (fun I HI => probe_preserves I _ _ HI) _ _ _ P). }
    pose proof (files_kept _ (fun I HI => probe_preserves I _ _ HI) _ _ _ P) as [R1 U1].
    destruct found; cbn [negb] in B; [|inversion B].
    apply bind_inv in B as [(content & w2 & F & B)|(e0 & F & _)].
    2:{ pose proof (files_kept _ (fun I HI => preserves_readFile I HI _ _) _ _ _ F) as [R2 U2].
        split; congruence. }
    pose proof (files_kept _ (fun I HI => preserves_readFile I HI _ _) _ _ _ F) as [R2 U2].
    apply bind_inv in B as [(parsed & w3 & J & B)|(e0 & J & _)].
    2:{ inversion J; subst. split; congruence. }
    apply bind_inv in B as [(data & w4 & G & B)|(e0 & G & _)].
    2:{ inversion J; inversion G; subst. split; congruence. }
    inversion J; inversion G; subst.
    apply bind_inv in B as [([] & w5 & W & B)|(e0 & W & _)]; [inversion B|].
    apply writeFile_Throw in W as [R5 U5]. split; congruence.
Qed.

(** [set] writes one property and leaves the others where they are. *)

Lemma get_set_eq (k : string) (v : json) (props : list (string * json)) :
  get k (set k v props) = Some v.
Proof.
  induction props as [|[k' v'] props IH]; simpl.
  - rewrite String.eqb_refl. reflexivity.
  - destruct (String.eqb k k') eqn:E; simpl.
    + rewrite String.eqb_refl. reflexivity.
    + rewrite E. exact IH.
Qed.

Lemma get_set_ne (k k0 : string) (v : json) (props : list (string * json)) :
  k0 <> k -> get k0 (set k v props) = get k0 props.
Proof.
  intros Hne. induction props as [|[k' v'] props IH]; simpl.
  - destruct (String.eqb_spec k0 k); [contradiction | reflexivity].
  - destruct (String.eqb_spec k k') as [<-|Hk]; simpl.
    + destruct (String.eqb_spec k0 k); [contradiction | reflexivity].
    + rewrite IH. reflexivity.
Qed.

Lemma others_set (k : string) (v : json) (props : list (string * json)) :
  others k (set k v props) = others k props.
Proof.
  induction props as [|[k' v'] props IH]; simpl.
  - rewrite String.eqb_refl. reflexivity.
  - destruct (String.eqb k k') eqn:E; simpl.
    + rewrite String.eqb_refl. reflexivity.
    + rewrite E, IH. reflexivity.
Qed.

Lemma includes_inv (allowed : list string) (v : value) :
  includes allowed v = true -> exists s, v = Some (JStr s) /\ In s allowed.
Proof.
  destruct v as [[| | |s| |]|]; simpl; try discriminate.
  intros H. apply existsb_exists in H as (x & Hx & E).
  apply String.eqb_eq in E. subst. eauto.
Qed.

Lemma allowed_truthy (v : value) :
  includes ["pending"; "attended"] v = true -> truthy v = true.
Proof.
  intros H. apply includes_inv in H as (s & -> & [<-|[<-|[]]]); reflexivity.
Qed.

Lemma put_reports_status_updated (id : string) (reqBody : list (string * json))
      (w : World) (m : gmap string file) (props : list (string * json)) (v : json) :
  get "status" reqBody = Some v ->
  includes ["pending"; "attended"] (Some v) = true ->
  reports w = Some m ->
  m !! (id +:+ ".json") = Some (JsonText (JObj props)) ->
  faults w = [] ->
  put_reports_status id reqBody w
  = (Return {| statusCode := 200; body := JObj (set "status" v props) |},
     set_dir REPORTS_DIR
       (<[id +:+ ".json" := JsonText (JObj (set "status" v props))]> m) w).
Proof.
  intros G Inc R L Q.
  assert (Lf : lookup_file REPORTS_DIR (id +:+ ".json") w = Some (JsonText (JObj props)))
    by (unfold lookup_file; simpl; rewrite R; exact L).
  unfold put_reports_status, put_reports_status_at, try_catch at 1.
  cbv zeta. rewrite G, Inc. cbn [negb].
  assert (P : try_catch (access REPORTS_DIR (id +:+ ".json");; ret true)
                        (fun _ => ret false) w = (Return true, w)).
  { unfold try_catch.
    rewrite (bind_Return _ _ _ _ _ (access_quiet _ _ _ _ Q Lf)). reflexivity. }
  rewrite (bind_Return _ _ _ _ _ P). cbn [negb].
  rewrite (bind_Return _ _ _ _ _ (readFile_quiet _ _ _ _ Q Lf)).
  unfold lift at 1. unfold bind at 1. cbn [JSON_parse].
  unfold lift at 1. unfold bind at 1. cbn [assign].
  rewrite (bind_Return _ _ _ _ _ (writeFile_quiet REPORTS_DIR _ _ w m Q R)).
  reflexivity.
Qed.

(** X27.  A status outside [{pending, attended}] is answered 400 and
    nothing at all changes, whatever the identifier: no file is written,
    the stored record keeps its status.  With an allowed status, the
    answer is 404, and both directories are as before, when the file the
    path of line 137 names does not exist; for an identifier without a
    separator that file is [<id>.json] of the reports directory.  (The
    status is checked first: when both defects are present the answer is
    400.) *)
Theorem put_reports_status_rejects (id : string) (reqBody : list (string * json))
    (w : World) :
  (includes ["pending"; "attended"] (get "status" reqBody) = false ->
   put_reports_status id reqBody w
   = (Return (errorResponse 400 "Estado inválido"), w))
  /\ (includes ["pending"; "attended"] (get "status" reqBody) = true ->
      forall d name,
        path_join REPORTS_DIR (id +:+ ".json") = Inside d name ->
        lookup_file d name w = None ->
        exists run w',
          put_reports_status_resolved id reqBody = Some run
          /\ run w = (Return (errorResponse 404 "Reporte no encontrado"), w')
          /\ reports w' = reports w /\ uploads w' = uploads w)
  /\ (contains "/" id = false ->
      path_join REPORTS_DIR (id +:+ ".json") = Inside REPORTS_DIR (id +:+ ".json")).
Proof.
  split; [apply put_reports_status_invalid|]. split; [|apply path_join_plain].
  intros Inc d name P L.
  destruct (put_reports_status_at_missing d name reqBody w Inc L) as (w' & Run & K).
  exists (put_reports_status_at d name reqBody), w'.
  unfold put_reports_status_resolved. rewrite P. auto.
Qed.

(** ** The status of every report *)


Lemma put_reports_status_preserves_storeOk (id : string) (reqBody : list (string * json))
      (w w' : World) (r : outcome Response) :
  storeOk w = true ->
  put_reports_status id reqBody w = (r, w') ->
  storeOk w' = true
  /\ forall resp, r = Return resp -> statusCode resp = 200 -> hasAllowedStatus (body resp).
Proof.
  intros S H.
  destruct (put_reports_status_cases id reqBody w w' r H)
    as [(Inc & -> & ->)|[(Inc & R & U & Hr)|(Inc & m & content & parsed & data & R & L & J & G & -> & R' & U')]].
  - split; [exact S|]. intros resp [= <-]. discriminate.
  - split; [apply (storeOk_onFiles w w' R U S)|].
    intros resp -> C. destruct Hr as [[= ->]|[= ->]]; discriminate.
  - pose proof (storeOk_lookup w m _ _ S R L (endsWith_app _ _)) as Rec.
    apply isRecord_inv in Rec as (props & -> & _). simpl in J. inversion J; subst parsed.
    apply includes_inv in Inc as Hs. destruct Hs as (s & Gs & _).
    rewrite Gs in G, Inc. simpl in G. inversion G; subst data.
    assert (St : get "status" (set "status" (JStr s) props) = Some (JStr s))
      by apply get_set_eq.
    split.
    + apply (storeOk_onFiles
               (set_dir REPORTS_DIR
                  (<[id +:+ ".json" := JsonText (JObj (set "status" (JStr s) props))]> m) w) w').
      * simpl. exact R'.
      * simpl. exact U'.
      * apply storeOk_insert; auto. simpl. unfold storedStatus. rewrite St, Inc. reflexivity.
    + intros resp [= <-] _. simpl. eexists. split; [reflexivity|]. rewrite St. exact Inc.
Qed.

(** C5.  Take a stored report, an object, in a well-formed store.  Every
    update of it that is answered 200 carries an allowed status and
    answers with the record in which the status property holds the new
    value; that record replaces the stored one under the same name; every
    other property is as it was, value and position; no other file of
    either directory changes; and a listing that follows and is answered
    200 shows the updated record.  With an allowed status, and the
    operating system reporting no error, the update is answered 200 and so
    is the listing that follows. *)
Theorem put_reports_status_updates (id : string) (reqBody : list (string * json))
    (w : World) (m : gmap string file) (props : list (string * json)) :
  reports w = Some m ->
  m !! (id +:+ ".json") = Some (JsonText (JObj props)) ->
  storeOk w = true ->
  (forall resp w',
     put_reports_status id reqBody w = (Return resp, w') ->
     statusCode resp = 200 ->
     exists v,
       let props' := set "status" v props in
       get "status" reqBody = Some v
       /\ includes ["pending"; "attended"] (Some v) = true
       /\ body resp = JObj props'
       /\ reports w' = Some (<[id +:+ ".json" := JsonText (JObj props')]> m)
       /\ uploads w' = uploads w
       /\ get "status" props' = Some v
       /\ (forall k, k <> "status" -> get k props' = get k props)
       /\ others "status" props' = others "status" props
       /\ (forall name, name <> id +:+ ".json" ->
                        lookup_file REPORTS_DIR name w' = lookup_file REPORTS_DIR name w)
       /\ (forall resp2 w'',
             get_reports w' = (Return resp2, w'') -> statusCode resp2 = 200 ->
             exists rs, body resp2 = JArr rs /\ In (JObj props') rs))
  /\ (includes ["pending"; "attended"] (get "status" reqBody) = true ->
      faults w = [] ->
      exists resp w' rs,
        put_reports_status id reqBody w = (Return resp, w')
        /\ statusCode resp = 200
        /\ get_reports w' = (Return {| statusCode := 200; body := JArr rs |}, w')).
Proof.
  intros R L S. split.
  - intros resp w' H C.
    destruct (put_reports_status_preserves_storeOk id reqBody w w' _ S H) as [S' _].
    destruct (put_reports_status_cases id reqBody w w' _ H)
      as [(_ & [= ->] & _)|[(_ & _ & _ & [[= ->]|[= ->]])
         |(Inc & m0 & content & parsed & data & R0 & L0 & J & G & [= ->] & R' & U')]];
      try discriminate.
    rewrite R in R0. injection R0 as <-. rewrite L in L0. injection L0 as <-.
    simpl in J. injection J as <-.
    destruct (includes_inv _ _ Inc) as (s & Gs & _).
    rewrite Gs in G, Inc. simpl in G. injection G as <-.
    exists (JStr s). cbv zeta.
    assert (St : get "status" (set "status" (JStr s) props) = Some (JStr s))
      by apply get_set_eq.
    split; [exact Gs|]. split; [exact Inc|]. split; [reflexivity|].
    split; [exact R'|]. split; [exact U'|]. split; [exact St|].
    split; [intros k Hk; apply get_set_ne; exact Hk|].
    split; [apply others_set|]. split.
    { intros name Hne. unfold lookup_file. simpl. rewrite R', R.
      apply lookup_insert_ne. congruence. }
    intros resp2 w'' H2 C2.
    destruct (get_reports_inv w' w'' resp2 S' H2 C2) as (m' & Rm' & B).
    rewrite R' in Rm'. injection Rm' as <-.
    eexists. split; [exact B|].
    pose proof (listed_record _ (id +:+ ".json") (set "status" (JStr s) props)
                  (endsWith_app _ _) (lookup_insert_eq m _ _) (position w')) as Hrs.
    unfold backfilled in Hrs. rewrite St, (allowed_truthy _ Inc) in Hrs. exact Hrs.
  - intros Inc Q. destruct (includes_inv _ _ Inc) as (s & Gs & _).
    rewrite Gs in Inc.
    pose proof (put_reports_status_updated id reqBody w m props (JStr s) Gs Inc R L Q) as Run.
    destruct (put_reports_status_preserves_storeOk id reqBody w _ _ S Run) as [S' _].
    eexists _, _, _. split; [exact Run|]. split; [reflexivity|].
    apply (get_reports_quiet
             (set_dir REPORTS_DIR
                (<[id +:+ ".json" := JsonText (JObj (set "status" (JStr s) props))]> m) w)
             _ Q S' eq_refl).
Qed.

(** Whatever requests a deployment has served, its store is well
    formed. *)
Lemma reachable_storeOk (rt : Runtime) (w : World) :
  reachable rt w -> storeOk w = true.
Proof.
  induction 1 as [w R | w w' _ IH R U | w w' reqBody r _ IH H
                 | w w' r _ IH H | w w' id reqBody r _ IH H].
  - unfold storeOk. rewrite R. reflexivity.
  - apply (storeOk_onFiles w w' R U IH).
  - apply (post_reports_preserves_storeOk rt reqBody w r w' H IH).
  - destruct (files_kept _ get_reports_preserves w r w' H) as [R U].
    apply (storeOk_onFiles w w' R U IH).
  - apply (put_reports_status_preserves_storeOk id reqBody w w' r IH H).
Qed.


(** ** The record a submission creates *)

Lemma reportData_fields (rt : Runtime) (reqBody : list (string * json))
      (reportId : string) (photoFiles : list json) (osf tsf : string) (created : Z) :
  exists props,
    reportData rt reqBody reportId photoFiles osf tsf created = JObj props
    /\ get "id" props = Some (JStr reportId)
    /\ get "ownerName" props = get "ownerName" reqBody
    /\ get "phoneNumber" props = get "phoneNumber" reqBody
    /\ get "licensePlate" props = get "licensePlate" reqBody
    /\ get "faultDescription" props = get "faultDescription" reqBody
    /\ get "location" props = Some (orNull (get "location" reqBody))
    /\ get "photos" props = Some (JArr photoFiles)
    /\ get "ownerSignature" props = Some (JStr osf)
    /\ get "technicianSignature" props = Some (JStr tsf)
    /\ get "createdAt" props = Some (JStr (toISOString rt created))
    /\ get "status" props = Some (JStr "pending").
Proof.
  unfold reportData. eexists. split; [reflexivity|].
  destruct (get "ownerName" reqBody), (get "phoneNumber" reqBody),
    (get "licensePlate" reqBody), (get "faultDescription" reqBody);
    repeat split; reflexivity.
Qed.




(** ** Validation *)

Section Validation.
Variable rt : Runtime.

Lemma missingOrShorter_text (v : value) (n : nat) :
  isText v = true -> (1 <= n)%nat ->
  missingOrShorter rt v (Z.of_nat n)
  = Return (negb match v with
                 | Some (JStr s) => (n <=? String.length s)%nat
                 | _ => false
                 end).
Proof.
  intros T Hn. destruct v as [[| | |s| |]|]; try discriminate; [|reflexivity].
  unfold missingOrShorter. destruct s as [|c s].
  - simpl. destruct n; [lia | reflexivity].
  - cbn [truthy negb length_of lessThan]. f_equal.
    destruct (Nat.leb_spec n (String.length (String c s)));
      simpl negb; [apply Z.ltb_ge | apply Z.ltb_lt]; lia.
Qed.

Lemma truthy_text (v : value) :
  isText v = true ->
  negb (truthy v)
  = negb match v with
         | Some (JStr s) => (1 <=? String.length s)%nat
         | _ => false
         end.
Proof.
  intros T. destruct v as [[| | |[|c s]| |]|]; try discriminate; reflexivity.
Qed.

Lemma validate_firstViolation (reqBody : list (string * json)) :
  textual reqBody = true ->
  validate rt reqBody
  = match firstViolation reqBody with
    | Some f => Throw (Error (errorMessage f))
    | None => Return tt
    end.
Proof.
  unfold textual, rules. cbn [forallb fieldName]. intros T.
  repeat (apply andb_prop in T as [? T]).
  unfold validate, firstViolation, rules, satisfies. cbn [List.find fieldName minLength].
  change 2 with (Z.of_nat 2). change 3 with (Z.of_nat 3). change 10 with (Z.of_nat 10).
  rewrite !missingOrShorter_text by (assumption || lia).
  rewrite !truthy_text by assumption.
  repeat match goal with
         | |- context [negb ?b] =>
             lazymatch b with
             | match _ with _ => _ end => destruct b
             end
         end; reflexivity.
Qed.

End Validation.

(** Outside text the length rules read [.length] as JavaScript does: a
    truthy value that has none, a number say, passes them. *)
Example validate_number :
  validate sampleRuntime
    [("ownerName", JNum 42); ("phoneNumber", JNum 5551234);
     ("licensePlate", JStr "ABC123"); ("faultDescription", JStr "El motor no enciende");
     ("ownerSignature", JStr "data:image/png;base64,AAAA");
     ("technicianSignature", JStr "data:image/png;base64,AAAA")]
  = Return tt.
Proof. reflexivity. Qed.

(** C3, as the code has it.  A submission the validator rejects is answered 400 with the
    message of the error, and the state of the process, files included, is
    left as it was: no record is created.  For a submission whose required
    fields are text where present, the validator answers exactly as the
    six rules read in order do, stopping at the first one violated; so the
    answer to a submission that violates a rule is the 400 of the first
    rule it violates.  The six messages differ from one another and each
    starts with the name of its field. *)
Theorem post_reports_validates (rt : Runtime) (reqBody : list (string * json))
    (w : World) :
  (forall e, validate rt reqBody = Throw e ->
     post_reports rt reqBody w = (Return (errorResponse 400 (message e)), w))
  /\ (textual reqBody = true ->
      validate rt reqBody
      = match firstViolation reqBody with
        | Some f => Throw (Error (errorMessage f))
        | None => Return tt
        end
      /\ forall f, firstViolation reqBody = Some f ->
           post_reports rt reqBody w
           = (Return (errorResponse 400 (errorMessage f)), w))
  /\ NoDup (List.map errorMessage rules)
  /\ (forall f, String.prefix (fieldName f) (errorMessage f) = true).
Proof.
  split; [|split; [|split]].
  - intros e V. apply (post_reports_invalid rt reqBody w e V).
  - intros T. pose proof (validate_firstViolation rt reqBody T) as V.
    split; [exact V|]. intros f Hf. rewrite Hf in V.
    apply (post_reports_invalid rt reqBody w _ V).
  - cbn [rules List.map errorMessage].
    repeat (apply NoDup_cons_2;
            [rewrite ?elem_of_cons, elem_of_nil; intros H; decompose [or] H;
             (discriminate || contradiction)|]).
    apply NoDup_nil_2.
  - intros []; reflexivity.
Qed.

(** ** Malformed attachments *)




(** ** Errors of the operating system *)

Lemma accounted_silent {A} (m : js A) :
  (forall w r w', m w = (r, w') -> faults w' = faults w) -> accounted m.
Proof.
  intros Hm w r w' H. exists []. rewrite (Hm w r w' H).
  split; [reflexivity|]. intros X. inversion X.
Qed.

Lemma accounted_bind {A B} (m : js A) (k : A -> js B) :
  accounted m -> (forall a, accounted (k a)) -> accounted (bind m k).
Proof.
  intros Hm Hk w r w' H.
  apply bind_inv in H as [(a & w1 & H1 & H2)|(e & H1 & ->)].
  - destruct (Hm w _ w1 H1) as (u1 & F1 & T1).
    destruct (Hk a w1 r w' H2) as (u2 & F2 & T2).
    exists (u1 ++ u2)%list. rewrite F1, F2, app_assoc. split; [reflexivity|].
    intros X. apply Exists_app in X as [X|X]; [|auto].
    destruct (T1 X) as [e He]. discriminate.
  - destruct (Hm w _ w' H1) as (u1 & F1 & T1). exists u1. eauto.
Qed.

Lemma syscall_consumes (w w' : World) (r : outcome unit) :
  syscall w = (r, w') ->
  (faults w = [] /\ faults w' = [] /\ r = Return tt)
  \/ (faults w = None :: faults w' /\ r = Return tt)
  \/ (exists msg, faults w = Some msg :: faults w' /\ r = Throw (SystemError msg)).
Proof.
  unfold syscall. destruct (faults w) as [|[msg|] rest] eqn:F;
    intros [= <- <-]; simpl; eauto 6.
Qed.

Lemma accounted_syscall : accounted syscall.
Proof.
  intros w r w' H.
  destruct (syscall_consumes w w' r H) as [(F & F' & ->)|[(F & ->)|(msg & F & ->)]].
  - exists []. rewrite F, F'. split; [reflexivity|]. intros X. inversion X.
  - exists [None]. split; [exact F|]. intros X.
    apply Exists_cons in X as [[? [=]]|X]; inversion X.
  - exists [Some msg]. split; [exact F|]. eauto.
Qed.

Lemma accounted_ret {A} (a : A) : accounted (ret a).
Proof. apply accounted_silent. intros w r w' [= _ <-]. reflexivity. Qed.

Lemma accounted_lift {A} (o : outcome A) : accounted (lift o).
Proof. apply accounted_silent. intros w r w' [= _ <-]. reflexivity. Qed.

Lemma accounted_readdir (d : dir) : accounted (readdir d).
Proof.
  apply accounted_bind; [apply accounted_syscall|]. intros _.
  apply accounted_silent. intros w r w' H.
  destruct (get_dir d w); inversion H; reflexivity.
Qed.

Lemma accounted_readFile (d : dir) (name : string) : accounted (readFile d name).
Proof.
  apply accounted_bind; [apply accounted_syscall|]. intros _.
  apply accounted_silent. intros w r w' H.
  destruct (lookup_file d name w); inversion H; reflexivity.
Qed.

Lemma accounted_writeFile (d : dir) (name : string) (data : file) :
  accounted (writeFile d name data).
Proof.
  apply accounted_bind; [apply accounted_syscall|]. intros _.
  apply accounted_silent. intros w r w' H.
  destruct (get_dir d w); inversion H; subst; destruct d; reflexivity.
Qed.

Lemma accounted_readReports (files : list string) :
  forall acc, accounted (readReports files acc).
Proof.
  induction files as [|file rest IH]; intros acc; cbn [readReports].
  - apply accounted_ret.
  - destruct (endsWith file ".json"); [|apply IH].
    apply accounted_bind; [apply accounted_readFile | intros content].
    apply accounted_bind; [apply accounted_lift | intros report].
    apply accounted_bind; [apply accounted_lift | intros status].
    apply accounted_bind; [|intros; apply IH].
    destruct (negb (truthy status)); [apply accounted_lift | apply accounted_ret].
Qed.

Lemma get_reports_faults (w w' : World) (r : outcome Response) :
  get_reports w = (r, w') ->
  exists used,
    faults w = (used ++ faults w')%list
    /\ (Exists is_Some used ->
        r = Return (errorResponse 500 "Error reading reports")).
Proof.
  unfold get_reports, try_catch. intros H.
  match type of H with
  | match ?b w with _ => _ end = _ =>
      assert (A : accounted b);
      [|destruct (b w) as [[r0|e] w0] eqn:B; destruct (A w _ w0 B) as (used & F & T)]
  end.
  { apply accounted_bind; [apply accounted_readdir | intros files].
    apply accounted_bind; [apply accounted_readReports | intros; apply accounted_ret]. }
  - inversion H; subst. exists used. split; [exact F|].
    intros X. destruct (T X) as [e He]. discriminate.
  - inversion H; subst. exists used. auto.
Qed.

Lemma put_reports_status_faults (id : string) (reqBody : list (string * json))
      (w w' : World) (r : outcome Response) :
  put_reports_status id reqBody w = (r, w') ->
  exists used,
    faults w = (used ++ faults w')%list
    /\ (Exists is_Some (tl used) ->
        r = Return (errorResponse 500 "Error actualizando el estado del reporte")).
Proof.
  intros H.
  destruct (includes ["pending"; "attended"] (get "status" reqBody)) eqn:Inc.
  2:{ rewrite put_reports_status_invalid in H by exact Inc. inversion H; subst.
      exists []. split; [reflexivity|]. intros X. inversion X. }
  unfold put_reports_status, put_reports_status_at, try_catch at 1 in H. cbv zeta in H.
  rewrite Inc in H. cbn [negb] in H.
  set (probe := try_catch (access REPORTS_DIR (id +:+ ".json");; ret true)
                          (fun _ => ret false)) in H.
  assert (P : forall x found x',
             probe x = (Return found, x') ->
             (faults x = [] /\ faults x' = []) \/ exists a, faults x = a :: faults x').
  { intros x found x' Hp. unfold probe, try_catch in Hp.
    destruct ((access REPORTS_DIR (id +:+ ".json");; ret true) x) as [[b|e] x0] eqn:B.
    - inversion Hp; subst.
      apply bind_inv in B as [([] & x1 & A & B)|(e & _ & [=])]. inversion B; subst.
      unfold access in A. apply bind_inv in A as [([] & x2 & S & A)|(e & _ & [=])].
      cbv beta in A. destruct (lookup_file REPORTS_DIR (id +:+ ".json") x2); inversion A; subst.
      destruct (syscall_consumes _ _ _ S) as [(F & F' & _)|[(F & _)|(msg & F & _)]]; eauto.
    - inversion Hp; subst.
      apply bind_inv in B as [([] & x1 & A & B)|(e' & A & _)]; [inversion B|].
      unfold access in A. apply bind_inv in A as [([] & x2 & S & A)|(e'' & S & _)].
      + cbv beta in A. destruct (lookup_file REPORTS_DIR (id +:+ ".json") x2); inversion A; subst.
        destruct (syscall_consumes _ _ _ S) as [(F & F' & _)|[(F & _)|(msg & F & _)]]; eauto.
      + destruct (syscall_consumes _ _ _ S) as [(F & F' & _)|[(F & _)|(msg & F & _)]]; eauto. }
  assert (Pt : forall x e x', probe x <> (Throw e, x')).
  { intros x e x' Hp. unfold probe, try_catch in Hp.
    destruct ((access REPORTS_DIR (id +:+ ".json");; ret true) x) as [[b|e'] x0];
      inversion Hp. }
  match type of H with
  | match ?b w with _ => _ end = _ => destruct (b w) as [[r0|e] w0] eqn:B
  end; inversion H; subst; clear H.
  - apply bind_inv in B as [(found & w1 & Hp & B)|(e & _ & [=])].
    destruct found; cbn [negb] in B.
    + assert (A : accounted
        (content <- readFile REPORTS_DIR (id +:+ ".json");;
         reportData <- lift (JSON_parse content);;
         reportData0 <- lift (assign reportData "status" (get "status" reqBody));;
         writeFile REPORTS_DIR (id +:+ ".json") (JsonText reportData0);;
         ret {| statusCode := 200; body := reportData0 |})).
      { apply accounted_bind; [apply accounted_readFile | intros].
        apply accounted_bind; [apply accounted_lift | intros].
        apply accounted_bind; [apply accounted_lift | intros].
        apply accounted_bind; [apply accounted_writeFile | intros; apply accounted_ret]. }
      destruct (A w1 _ w' B) as (u2 & F2 & T2).
      destruct (P w _ w1 Hp) as [(F & F1)|(a & F)].
      * exists []. rewrite F. rewrite F1 in F2.
        destruct u2; [|discriminate]. simpl in F2. rewrite <- F2.
        split; [reflexivity|]. intros X. inversion X.
      * exists (a :: u2). rewrite F, F2. split; [reflexivity|].
        simpl. intros X. destruct (T2 X) as [e He]. discriminate.
    + inversion B; subst.
      destruct (P w _ w' Hp) as [(F & F1)|(a & F)].
      * exists []. rewrite F, F1. split; [reflexivity|]. intros X. inversion X.
      * exists [a]. split; [exact F|]. intros X. inversion X.
  - apply bind_inv in B as [(found & w1 & Hp & B)|(e0 & Hp & _)];
      [|exfalso; exact (Pt _ _ _ Hp)].
    destruct found; cbn [negb] in B; [|inversion B].
    assert (A : accounted
      (content <- readFile REPORTS_DIR (id +:+ ".json");;
       reportData <- lift (JSON_parse content);;
       reportData0 <- lift (assign reportData "status" (get "status" reqBody));;
       writeFile REPORTS_DIR (id +:+ ".json") (JsonText reportData0);;
       ret {| statusCode := 200; body := reportData0 |})).
    { apply accounted_bind; [apply accounted_readFile | intros].
      apply accounted_bind; [apply accounted_lift | intros].
      apply accounted_bind; [apply accounted_lift | intros].
      apply accounted_bind; [apply accounted_writeFile | intros; apply accounted_ret]. }
    destruct (A w1 _ w' B) as (u2 & F2 & T2).
    destruct (P w _ w1 Hp) as [(F & F1)|(a & F)].
    + exists []. rewrite F. rewrite F1 in F2.
      destruct u2; [|discriminate]. simpl in F2. rewrite <- F2.
      split; [reflexivity|]. intros X. inversion X.
    + exists (a :: u2). rewrite F, F2. split; [reflexivity|]. reflexivity.
Qed.

(** X26.  In the listing and in the status update, an
    error of the operating system during the enumeration of the directory,
    the read of a file or its rewrite is answered 500 with a message that
    is a constant of the handler.  [used] is the stretch of answers of the
    operating system the request consumed; in the status update its first
    element answers the existence probe, whose failure is answered 404. *)
Theorem storage_failure_generic_500 :
  (forall w r w',
     get_reports w = (r, w') ->
     exists used,
       faults w = (used ++ faults w')%list
       /\ (Exists is_Some used ->
           r = Return (errorResponse 500 "Error reading reports")))
  /\ (forall id reqBody w r w',
        put_reports_status id reqBody w = (r, w') ->
        exists used,
          faults w = (used ++ faults w')%list
          /\ (Exists is_Some (tl used) ->
              r = Return (errorResponse 500 "Error actualizando el estado del reporte"))).
Proof.
  split.
  - intros w r w'. apply get_reports_faults.
  - intros id reqBody w r w'. apply put_reports_status_faults.
Qed.

(** * Sample runs *)

(** Before the first submission there is no reports directory, and the
    listing is answered 500. *)
Example get_reports_without_directory :
  fst (get_reports {| reports := None; uploads := None; clock := []; dice := [];
                      uuids := []; faults := []; position := fun _ => 0%nat |})
  = Return (errorResponse 500 "Error reading reports").
Proof. reflexivity. Qed.

(** The listing of the sample directory: the record as stored, the older
    one with its status filled in, and nothing for the other file. *)
Example get_reports_sample :
  exists rs,
    fst (get_reports sampleWorld) = Return {| statusCode := 200; body := JArr rs |}
    /\ In (JObj [("id", JStr "r1"); ("ownerName", JStr "Ana"); ("status", JStr "pending")]) rs
    /\ In (JObj [("id", JStr "legacy"); ("ownerName", JStr "Luis");
                 ("status", JStr "pending")]) rs
    /\ List.length rs = 2%nat.
Proof. eexists. split; [reflexivity|]. simpl. tauto. Qed.



(** X27 at a status that is not allowed and at an identifier that names
    no record. *)
Lemma put_reports_status_rejects_example :
  put_reports_status "r1" [("status", JStr "archived")] sampleWorld
  = (Return (errorResponse 400 "Estado inválido"), sampleWorld)
  /\ exists run w',
       put_reports_status_resolved "unknown" [("status", JStr "attended")] = Some run
       /\ run sampleWorld = (Return (errorResponse 404 "Reporte no encontrado"), w')
       /\ reports w' = reports sampleWorld.
Proof.
  split.
  - apply (proj1 (put_reports_status_rejects "r1" [("status", JStr "archived")] sampleWorld)).
    reflexivity.
  - destruct (proj1 (proj2 (put_reports_status_rejects "unknown"
                              [("status", JStr "attended")] sampleWorld))
                eq_refl REPORTS_DIR "unknown.json" eq_refl eq_refl)
      as (run & w' & E & Run & R & _).
    exists run, w'. auto.
Defined.

(** C2 fails at an identifier that leaves the reports directory.  No
    record is stored for [../uploads/photo-1700000000000-4821], yet the
    path of line 137 names the uploaded file, which exists: the update is
    answered 200, not 404, and the uploaded file is rewritten. *)
Theorem put_reports_status_traversal :
  lookup_file REPORTS_DIR ("../uploads/photo-1700000000000-4821" +:+ ".json")
    uploadedJsonWorld = None
  /\ path_join REPORTS_DIR ("../uploads/photo-1700000000000-4821" +:+ ".json")
     = Inside UPLOADS_DIR "photo-1700000000000-4821.json"
  /\ exists run w',
       put_reports_status_resolved "../uploads/photo-1700000000000-4821"
         [("status", JStr "attended")] = Some run
       /\ run uploadedJsonWorld
          = (Return {| statusCode := 200; body := JObj [("status", JStr "attended")] |}, w')
       /\ lookup_file UPLOADS_DIR "photo-1700000000000-4821.json" w'
          = Some (JsonText (JObj [("status", JStr "attended")])).
Proof.
  split; [reflexivity|]. split; [reflexivity|].
  eexists _, _. split; [reflexivity|]. split; [vm_compute; reflexivity|].
  reflexivity.
Qed.

(** C3 at an owner's name of one letter. *)
Lemma post_reports_validates_example :
  textual [("ownerName", JStr "A"); ("phoneNumber", JStr "5551234")] = true
  /\ firstViolation [("ownerName", JStr "A"); ("phoneNumber", JStr "5551234")]
     = Some OwnerName
  /\ post_reports sampleRuntime [("ownerName", JStr "A"); ("phoneNumber", JStr "5551234")]
       sampleWorld
     = (Return (errorResponse 400 "ownerName inválido"), sampleWorld).
Proof.
  split; [reflexivity|]. split; [reflexivity|].
  apply (proj2 (proj1 (proj2 (post_reports_validates sampleRuntime
           [("ownerName", JStr "A"); ("phoneNumber", JStr "5551234")]
           sampleWorld)) eq_refl) OwnerName).
  reflexivity.
Defined.

(** C3 as stated fails outside text: an owner's name that is the number
    7 violates the first rule as the claim words it, and the creation
    answers 201 and stores the record. *)
Lemma post_reports_number_accepted :
  satisfies OwnerName (set "ownerName" (JNum 7) sampleBody) = false
  /\ firstViolation (set "ownerName" (JNum 7) sampleBody) = Some OwnerName
  /\ fst (post_reports sampleRuntime (set "ownerName" (JNum 7) sampleBody) sampleWorld)
     = Return {| statusCode := 201;
                 body := JObj [("reportId", JStr "9b2f6c1e-5d7a-4c3b-8e21-0a1b2c3d4e5f")] |}
  /\ exists props,
       lookup_file REPORTS_DIR "9b2f6c1e-5d7a-4c3b-8e21-0a1b2c3d4e5f.json"
         (snd (post_reports sampleRuntime (set "ownerName" (JNum 7) sampleBody)
                 sampleWorld))
       = Some (JsonText (JObj props))
       /\ get "ownerName" props = Some (JNum 7).
Proof.
  split; [reflexivity|]. split; [reflexivity|]. split; [reflexivity|].
  eexists. split; [vm_compute; reflexivity | reflexivity].
Qed.


(** C5 at the stored record [r1]. *)
Lemma put_reports_status_updates_example :
  storeOk sampleWorld = true
  /\ exists resp w' rs,
       put_reports_status "r1" [("status", JStr "attended")] sampleWorld = (Return resp, w')
       /\ body resp = JObj [("id", JStr "r1"); ("ownerName", JStr "Ana");
                            ("status", JStr "attended")]
       /\ get_reports w' = (Return {| statusCode := 200; body := JArr rs |}, w')
       /\ In (JObj [("id", JStr "r1"); ("ownerName", JStr "Ana");
                    ("status", JStr "attended")]) rs.
Proof.
  split; [reflexivity|].
  destruct (put_reports_status_updates "r1" [("status", JStr "attended")] sampleWorld
              sampleStore
              [("id", JStr "r1"); ("ownerName", JStr "Ana"); ("status", JStr "pending")]
              eq_refl eq_refl eq_refl)
    as [Any Quiet].
  destruct (Quiet eq_refl eq_refl) as (resp & w' & rs & Run & C & G).
  destruct (Any resp w' Run C) as (v & Gv & _ & B & _ & _ & _ & _ & _ & _ & Listed).
  injection Gv as <-.
  destruct (Listed _ _ G eq_refl) as (rs' & [= <-] & Hin).
  exists resp, w', rs. auto.
Defined.

(** X26 at a listing the disk refuses. *)
Lemma storage_failure_generic_500_example :
  fst (get_reports failingWorld)
  = Return (errorResponse 500 "Error reading reports").
Proof.
  destruct (proj1 storage_failure_generic_500 failingWorld _ _
              (surjective_pairing (get_reports failingWorld)))
    as (used & F & T).
  apply T. destruct used as [|a used]; [discriminate|].
  inversion F; subst. apply Exists_cons_hd. eauto.
Defined.

(** C6 fails at the creation.  When the disk refuses the write of the
    photo of the sample submission, the creation answers 400 with the
    message of the operating system, path included, where the claim asks
    for a 500 with a generic message; the listing answers the same kind of
    error, on the read of a record, with its fixed 500. *)
Theorem post_reports_storage_failure_400 :
  fst (post_reports sampleRuntime sampleBody
         (set_faults
            [None; None;
             Some "EACCES: permission denied, open '/srv/app/uploads/photo-1700000000000-4821.png'"]
            sampleWorld))
  = Return (errorResponse 400
              "EACCES: permission denied, open '/srv/app/uploads/photo-1700000000000-4821.png'")
  /\ fst (get_reports
            (set_faults
               [None; Some "EACCES: permission denied, open '/srv/app/reports/legacy.json'"]
               sampleWorld))
     = Return (errorResponse 500 "Error reading reports").
Proof. split; reflexivity. Qed.


(** C8 at a payload that is no base64. *)
Lemma saveBase64Image_payload_unchecked_example :
  DataUri.matches "data:image/png;base64,@@ not base64 @@"
  /\ exists w',
       saveBase64Image sampleRuntime (Some (JStr "data:image/png;base64,@@ not base64 @@"))
         "photo" sampleWorld
       = (Return "/uploads/photo-1700000000000-4821.png", w')
       /\ lookup_file UPLOADS_DIR "photo-1700000000000-4821.png" w'
          = Some (Binary (list_byte_of_string "@@ not base64 @@")).
Proof.
  assert (M : DataUri.matches "data:image/png;base64,@@ not base64 @@").
  { exists "image/png", "@@ not base64 @@". repeat split; discriminate. }
  split; [exact M|].
  destruct (saveBase64Image_payload_unchecked sampleRuntime
              "data:image/png;base64,@@ not base64 @@" "photo" sampleWorld M)
    as (mime & payload & E & _ & Ok).
  injection E as <- <-.
  destruct (Ok eq_refl (ex_intro _ _ eq_refl)) as (w' & Run & L).
  exists w'. split; [exact Run | exact L].
Defined.

(** C9 at the mime type [foo]. *)
Lemma saveBase64Image_extension_undefined_example :
  exists w',
    saveBase64Image sampleRuntime (Some (JStr "data:foo;base64,AAAA")) "techSign" sampleWorld
    = (Return "/uploads/techSign-1700000000000-4821.undefined", w')
    /\ lookup_file UPLOADS_DIR "techSign-1700000000000-4821.undefined" w'
       = Some (Binary (list_byte_of_string "AAAA")).
Proof.
  destruct (saveBase64Image_extension_undefined sampleRuntime
              "data:foo;base64,AAAA" "foo" "AAAA" "techSign" sampleWorld
              eq_refl eq_refl eq_refl (ex_intro _ _ eq_refl))
    as (w' & Run & _ & L).
  exists w'. split; [exact Run | exact L].
Defined.


(** * Further properties of the code *)

(** ** The regular expression, on the data URIs browsers produce *)

Lemma group1_without_semicolon (s : string) :
  contains ";" s = false -> DataUri.group1 s = None.
Proof.
  induction s as [|c s IH]; [reflexivity|].
  cbn [contains]. intros H. apply orb_false_iff in H as [Hc Hs].
  assert (T : DataUri.tail (String c s) = None).
  { unfold DataUri.tail. cbn [DataUri.stripPrefix].
    destruct (Ascii.eqb_spec ";" c) as [<-|_]; [discriminate | reflexivity]. }
  cbn [DataUri.group1]. rewrite T, (IH Hs).
  destruct (DataUri.isLineTerminator c); reflexivity.
Qed.

Lemma group1_exact (g p : string) :
  DataUri.oneLine g = true -> DataUri.oneLine p = true -> p <> EmptyString ->
  contains ";" p = false ->
  DataUri.group1 (g +:+ ";base64," +:+ p) = Some (g, p).
Proof.
  intros Lg Lp Hne Np. induction g as [|c g IH].
  - change (EmptyString +:+ ";base64," +:+ p) with (String ";" ("base64," +:+ p)).
    cbn [DataUri.group1]. change (DataUri.isLineTerminator ";") with false. cbv iota.
    rewrite group1_without_semicolon by (rewrite contains_app; rewrite Np; reflexivity).
    assert (E : DataUri.tail (String ";" ("base64," +:+ p)) = Some p)
      by (apply DataUriFacts.tail_Some; auto).
    rewrite E. reflexivity.
  - simpl in Lg. apply andb_prop in Lg as [Hc Lg]. apply negb_true_iff in Hc.
    simpl. rewrite Hc, (IH Lg). reflexivity.
Qed.

(** X16.  Parsing undoes building: for a mime type and a payload that are
    non-empty and on one line, the payload without [';'] (as base64 is),
    the captures of [data:<mime>;base64,<payload>] are that mime type and
    that payload. *)
Theorem exec_roundtrip (mime payload : string) :
  mime <> EmptyString -> payload <> EmptyString ->
  DataUri.oneLine mime = true -> DataUri.oneLine payload = true ->
  contains ";" payload = false ->
  DataUri.exec ("data:" +:+ mime +:+ ";base64," +:+ payload) = Some (mime, payload).
Proof.
  intros Hm Hp Lm Lp Np. destruct mime as [|c g]; [contradiction|].
  simpl in Lm. apply andb_prop in Lm as [Hc Lg]. apply negb_true_iff in Hc.
  unfold DataUri.exec.
  assert (S : DataUri.stripPrefix "data:"
                ("data:" +:+ String c g +:+ ";base64," +:+ payload)
              = Some (String c (g +:+ ";base64," +:+ payload)))
    by (apply DataUriFacts.stripPrefix_Some; reflexivity).
  rewrite S, Hc, (group1_exact g payload Lg Lp Hp Np). reflexivity.
Qed.

(** X16 at a PNG header. *)
Lemma exec_roundtrip_example :
  DataUri.exec "data:image/png;base64,iVBORw0KGgo=" = Some ("image/png", "iVBORw0KGgo=").
Proof.
  apply (exec_roundtrip "image/png" "iVBORw0KGgo="); (discriminate || reflexivity).
Defined.

(** ** What validation lets through *)

Lemma seq_throwIf_inv (c : outcome bool) (e : exn) (rest : outcome unit) :
  seq (throwIf c e) rest = Return tt -> c = Return false /\ rest = Return tt.
Proof. destruct c as [[|]|e']; simpl; intros H; try discriminate. auto. Qed.

Lemma throwIf_inv (c : outcome bool) (e : exn) :
  throwIf c e = Return tt -> c = Return false.
Proof. destruct c as [[|]|e']; simpl; intros H; try discriminate. auto. Qed.

Lemma missingOrShorter_false (rt : Runtime) (v : value) (n : nat) :
  missingOrShorter rt v (Z.of_nat n) = Return false ->
  truthy v = true
  /\ forall s, v = Some (JStr s) -> (n <= String.length s)%nat.
Proof.
  unfold missingOrShorter. destruct (truthy v) eqn:T; simpl; [|discriminate].
  intros H. split; [reflexivity|]. intros s ->. simpl in H.
  injection H as H. apply Z.ltb_ge in H. lia.
Qed.

Lemma truthy_string (s : string) :
  truthy (Some (JStr s)) = true -> (1 <= String.length s)%nat.
Proof. destruct s; simpl; [discriminate | lia]. Qed.

Lemma validate_Return (rt : Runtime) (reqBody : list (string * json)) :
  validate rt reqBody = Return tt ->
  forall f,
    truthy (get (fieldName f) reqBody) = true
    /\ forall s, get (fieldName f) reqBody = Some (JStr s) ->
                 (minLength f <= String.length s)%nat.
Proof.
  unfold validate. intros H.
  change 2 with (Z.of_nat 2) in H. change 3 with (Z.of_nat 3) in H.
  change 10 with (Z.of_nat 10) in H.
  apply seq_throwIf_inv in H as [H1 H]. apply seq_throwIf_inv in H as [H2 H].
  apply seq_throwIf_inv in H as [H3 H]. apply seq_throwIf_inv in H as [H4 H].
  apply seq_throwIf_inv in H as [H5 H6]. apply throwIf_inv in H6.
  apply missingOrShorter_false in H1 as [T1 L1].
  apply missingOrShorter_false in H3 as [T3 L3].
  apply missingOrShorter_false in H4 as [T4 L4].
  injection H2 as T2. apply negb_false_iff in T2.
  injection H5 as T5. apply negb_false_iff in T5.
  injection H6 as T6. apply negb_false_iff in T6.
  intros []; cbn [fieldName minLength]; (split; [assumption|]); auto;
    intros s E; apply truthy_string; rewrite <- E; assumption.
Qed.

(** X1.  Whatever the types of the submitted values, the validator lets
    a submission through only if each of the six required fields is
    truthy, and a required field that is a string has at least the length
    its rule asks for. *)
Theorem validate_accepts_only (rt : Runtime) (reqBody : list (string * json)) :
  validate rt reqBody = Return tt ->
  forall f,
    truthy (get (fieldName f) reqBody) = true
    /\ forall s, get (fieldName f) reqBody = Some (JStr s) ->
                 (minLength f <= String.length s)%nat.
Proof. apply validate_Return. Qed.

(** X1 at the sample submission. *)
Lemma validate_accepts_only_example :
  validate sampleRuntime sampleBody = Return tt
  /\ truthy (get "faultDescription" sampleBody) = true.
Proof.
  split; [reflexivity|].
  apply (validate_accepts_only sampleRuntime sampleBody eq_refl FaultDescription).
Defined.

(** ** What a 201 stands for *)

Lemma saveBase64Image_reports (rt : Runtime) (v : value) (prefix : string)
      (w w' : World) (r : outcome string) :
  saveBase64Image rt v prefix w = (r, w') -> reports w' = reports w.
Proof.
  intros H.
  refine (saveBase64Image_preserves rt (fun x => reports x = reports w) _ _ v prefix
            w r w' H eq_refl).
  - intros x x' R _ Hx. congruence.
  - intros x m Hx. exact Hx.
Qed.

Lemma saveBase64Image_grows (rt : Runtime) (v : value) (prefix name : string) :
  preserves (fun x => is_Some (lookup_file UPLOADS_DIR name x))
            (saveBase64Image rt v prefix).
Proof.
  assert (HI : onFiles (fun x => is_Some (lookup_file UPLOADS_DIR name x))).
  { intros x x' _ U. unfold lookup_file. simpl. rewrite U. auto. }
  unfold saveBase64Image.
  apply preserves_bind; [auto with frame|]. intros [[mime data]|]; [|auto with frame].
  apply preserves_bind; [auto with frame | intros now].
  apply preserves_bind; [auto with frame | intros rnd].
  apply preserves_bind; [|auto with frame].
  apply preserves_writeFile; [exact HI|]. intros x m G [f Hf].
  unfold lookup_file in *. simpl in *. rewrite G in Hf.
  destruct (decide (prefix +:+ "-" +:+ pretty now +:+ "-" +:+ pretty rnd +:+ "."
                    +:+ interpolate (split "/" mime !! 1%nat) = name)) as [<-|Hne].
  - rewrite lookup_insert_eq. eauto.
  - rewrite lookup_insert_ne by exact Hne. eauto.
Qed.

Lemma resolves_grows (w w' : World) (ref : json) :
  (forall name, is_Some (lookup_file UPLOADS_DIR name w) ->
                is_Some (lookup_file UPLOADS_DIR name w')) ->
  resolves w ref -> resolves w' ref.
Proof. intros G (name & -> & S). exists name. auto. Qed.

Lemma saveBase64Image_Return (rt : Runtime) (v : value) (prefix ref : string)
      (w w' : World) :
  saveBase64Image rt v prefix w = (Return ref, w') ->
  exists s mime payload name,
    v = Some (JStr s)
    /\ DataUri.exec s = Some (mime, payload)
    /\ name = fileName prefix (hd 0 (clock w)) (hd 0 (dice w)) (extensionOf mime)
    /\ ref = "/uploads/" +:+ name
    /\ lookup_file UPLOADS_DIR name w' = Some (Binary (Buffer_from rt payload)).
Proof.
  unfold saveBase64Image. intros H.
  apply bind_inv in H as [(matches & w1 & M & H)|(e & _ & [=])].
  unfold lift in M. injection M as M <-.
  destruct v as [[| | |s| |]|]; simpl in M; try discriminate.
  injection M as <-.
  destruct (DataUri.exec s) as [[mime payload]|] eqn:E; [|discriminate].
  apply bind_inv in H as [(now & w2 & N & H)|(e & _ & [=])].
  apply bind_inv in H as [(rnd & w3 & R & H)|(e & _ & [=])].
  apply bind_inv in H as [([] & w4 & W & H)|(e & _ & [=])].
  injection H as <- <-. injection N as <- <-. injection R as <- <-.
  apply writeFile_inv in W.
  exists s, mime, payload. eexists.
  split; [reflexivity|]. split; [exact E|]. split; [reflexivity|].
  split; [reflexivity | exact W].
Qed.

Lemma savePhotos_Return (rt : Runtime) (items : list json) :
  forall (acc out : list json) (w w' : World),
    savePhotos rt items acc w = (Return out, w') ->
    Forall (resolves w) acc ->
    exists refs,
      out = (acc ++ refs)%list
      /\ forallb decodable items = true
      /\ List.length refs = List.length items
      /\ Forall (resolves w') out.
Proof.
  induction items as [|v items IH]; intros acc out w w' H A.
  - injection H as <- <-. exists []. rewrite app_nil_r. auto.
  - cbn [savePhotos] in H.
    apply bind_inv in H as [(ref & w1 & S & H)|(e & _ & [=])].
    pose proof (saveBase64Image_Return rt _ _ _ _ _ S)
      as (s & mime & payload & name & [= ->] & E & _ & -> & L).
    apply IH in H as (refs & -> & D & Len & R).
    + exists (JStr ("/uploads/" +:+ name) :: refs). rewrite <- app_assoc.
      split; [reflexivity|]. split; [simpl; rewrite E; exact D|].
      split; [simpl; congruence | rewrite <- app_assoc in R; exact R].
    + apply Forall_app. split.
      * eapply Forall_impl; [exact A|]. intros x. apply resolves_grows.
        intros n Hn. exact (saveBase64Image_grows rt _ _ n w _ w1 S Hn).
      * constructor; [|constructor]. exists name. rewrite L. eauto.
Qed.

(** Everything a 201 tells about the run that led to it. *)
Lemma post_reports_201_run (rt : Runtime) (reqBody : list (string * json))
      (w w' : World) (r : Response) :
  post_reports rt reqBody w = (Return r, w') -> statusCode r = 201 ->
  exists reportId photoFiles osf tsf created,
    r = {| statusCode := 201; body := JObj [("reportId", JStr reportId)] |}
    /\ validate rt reqBody = Return tt
    /\ forallb decodable (photoItems reqBody) = true
    /\ List.length photoFiles = List.length (photoItems reqBody)
    /\ (exists so, get "ownerSignature" reqBody = Some (JStr so)
                   /\ decodable (JStr so) = true)
    /\ (exists st, get "technicianSignature" reqBody = Some (JStr st)
                   /\ decodable (JStr st) = true)
    /\ lookup_file REPORTS_DIR (reportId +:+ ".json") w'
       = Some (JsonText (reportData rt reqBody reportId photoFiles osf tsf created))
    /\ Forall (resolves w') photoFiles
    /\ resolves w' (JStr osf) /\ resolves w' (JStr tsf).
Proof.
  intros H C. unfold post_reports, try_catch in H. cbv zeta in H.
  rewrite photos_branch in H.
  match type of H with
  | match ?b w with _ => _ end = _ => destruct (b w) as [[r0|e] w0] eqn:B
  end.
  2:{ inversion H; subst. discriminate. }
  inversion H; subst r0 w0. clear H.
  apply bind_inv in B as [([] & w1 & V & B)|(? & _ & [=])].
  unfold lift in V. injection V as V <-.
  apply bind_inv in B as [(? & w2 & _ & B)|(? & _ & [=])].
  apply bind_inv in B as [(photoFiles & w3 & P & B)|(? & _ & [=])].
  apply bind_inv in B as [(osf & w4 & SO & B)|(? & _ & [=])].
  apply bind_inv in B as [(tsf & w5 & ST & B)|(? & _ & [=])].
  apply bind_inv in B as [(reportId & w6 & U & B)|(? & _ & [=])].
  apply bind_inv in B as [(created & w7 & D & B)|(? & _ & [=])].
  apply bind_inv in B as [(? & w8 & W & B)|(? & _ & [=])].
  inversion B; subst. clear B.
  apply savePhotos_Return in P as (refs & -> & Dec & Len & R3); [|constructor].
  simpl in R3.
  pose proof (saveBase64Image_Return rt _ _ _ _ _ SO)
    as (so & mo & po & no & Ho & Eo & _ & -> & Lo).
  pose proof (saveBase64Image_Return rt _ _ _ _ _ ST)
    as (st & mt & pt & nt & Ht & Et & _ & -> & Lt).
  assert (G45 : forall n, is_Some (lookup_file UPLOADS_DIR n w4) ->
                          is_Some (lookup_file UPLOADS_DIR n w5))
    by (intros n Hn; exact (saveBase64Image_grows rt _ _ n w4 _ w5 ST Hn)).
  assert (G34 : forall n, is_Some (lookup_file UPLOADS_DIR n w3) ->
                          is_Some (lookup_file UPLOADS_DIR n w4))
    by (intros n Hn; exact (saveBase64Image_grows rt _ _ n w3 _ w4 SO Hn)).
  assert (G5 : forall n, is_Some (lookup_file UPLOADS_DIR n w5) ->
                         is_Some (lookup_file UPLOADS_DIR n w')).
  { intros n Hn. apply writeFile_Return in W as (m & _ & _ & _ & Um & _).
    specialize (Um eq_refl). injection U as <- <-. injection D as <- <-.
    unfold lookup_file in *. simpl in *. rewrite Um. exact Hn. }
  exists reportId, refs, ("/uploads/" +:+ no), ("/uploads/" +:+ nt), created.
  split; [reflexivity|]. split; [exact V|]. split; [exact Dec|]. split; [exact Len|].
  split; [exists so; simpl; rewrite Eo; auto|].
  split; [exists st; simpl; rewrite Et; auto|].
  split; [apply writeFile_inv in W; exact W|].
  split; [|split].
  - eapply Forall_impl; [exact R3|]. intros ref0 Hx.
    apply (resolves_grows w5); [exact G5|].
    apply (resolves_grows w4); [exact G45|].
    apply (resolves_grows w3); [exact G34 | exact Hx].
  - apply (resolves_grows w5); [exact G5|]. apply (resolves_grows w4); [exact G45|].
    exists no. rewrite Lo. eauto.
  - apply (resolves_grows w5); [exact G5|]. exists nt. rewrite Lt. eauto.
Qed.

(** X2.  A 201 is given only to a submission that passes validation, whose
    photos, when they are an array, all match the pattern, and whose two
    signatures are strings that match it: no record is created from a
    malformed or mistyped attachment. *)
Theorem post_reports_201_only_if (rt : Runtime) (reqBody : list (string * json))
    (w w' : World) (r : Response) :
  post_reports rt reqBody w = (Return r, w') ->
  statusCode r = 201 ->
  validate rt reqBody = Return tt
  /\ forallb decodable (photoItems reqBody) = true
  /\ (exists so, get "ownerSignature" reqBody = Some (JStr so)
                 /\ decodable (JStr so) = true)
  /\ (exists st, get "technicianSignature" reqBody = Some (JStr st)
                 /\ decodable (JStr st) = true).
Proof.
  intros H C.
  destruct (post_reports_201_run rt reqBody w w' r H C)
    as (reportId & photoFiles & osf & tsf & created & _ & V & D & _ & O & T & _).
  auto.
Qed.

(** X2 at the sample submission. *)
Lemma post_reports_201_only_if_example :
  fst (post_reports sampleRuntime sampleBody sampleWorld)
  = Return {| statusCode := 201;
              body := JObj [("reportId", JStr "9b2f6c1e-5d7a-4c3b-8e21-0a1b2c3d4e5f")] |}
  /\ forallb decodable (photoItems sampleBody) = true.
Proof.
  split; [reflexivity|].
  apply (post_reports_201_only_if sampleRuntime sampleBody sampleWorld
           (snd (post_reports sampleRuntime sampleBody sampleWorld))
           {| statusCode := 201;
              body := JObj [("reportId", JStr "9b2f6c1e-5d7a-4c3b-8e21-0a1b2c3d4e5f")] |}
           eq_refl eq_refl).
Defined.

Lemma reportData_keys (rt : Runtime) (reqBody : list (string * json))
      (reportId : string) (photoFiles : list json) (osf tsf : string) (created : Z) :
  validate rt reqBody = Return tt ->
  exists props,
    reportData rt reqBody reportId photoFiles osf tsf created = JObj props
    /\ List.map fst props = recordKeys.
Proof.
  intros V. unfold reportData.
  destruct (validate_Return rt reqBody V OwnerName) as [T1 _].
  destruct (validate_Return rt reqBody V PhoneNumber) as [T2 _].
  destruct (validate_Return rt reqBody V LicensePlate) as [T3 _].
  destruct (validate_Return rt reqBody V FaultDescription) as [T4 _].
  cbn [fieldName] in *.
  destruct (get "ownerName" reqBody); [|discriminate].
  destruct (get "phoneNumber" reqBody); [|discriminate].
  destruct (get "licensePlate" reqBody); [|discriminate].
  destruct (get "faultDescription" reqBody); [|discriminate].
  eexists. split; reflexivity.
Qed.

(** X3.  The record behind a 201 has exactly the eleven properties [id],
    [ownerName], [phoneNumber], [licensePlate], [faultDescription],
    [location], [photos], [ownerSignature], [technicianSignature],
    [createdAt] and [status], in this order, and its [id] is the
    identifier of the answer. *)
Theorem post_reports_record_shape (rt : Runtime) (reqBody : list (string * json))
    (w w' : World) (r : Response) :
  post_reports rt reqBody w = (Return r, w') ->
  statusCode r = 201 ->
  exists reportId props,
    body r = JObj [("reportId", JStr reportId)]
    /\ lookup_file REPORTS_DIR (reportId +:+ ".json") w' = Some (JsonText (JObj props))
    /\ List.map fst props = recordKeys
    /\ get "id" props = Some (JStr reportId).
Proof.
  intros H C.
  destruct (post_reports_201_run rt reqBody w w' r H C)
    as (reportId & photoFiles & osf & tsf & created & -> & V & _ & _ & _ & _ & L & _).
  destruct (reportData_keys rt reqBody reportId photoFiles osf tsf created V)
    as (props & Eq & K).
  destruct (reportData_fields rt reqBody reportId photoFiles osf tsf created)
    as (props' & Eq' & Fid & _).
  rewrite Eq in Eq'. injection Eq' as <-.
  exists reportId, props. rewrite <- Eq. auto.
Qed.

(** X3 at the sample submission. *)
Lemma post_reports_record_shape_example :
  exists props,
    lookup_file REPORTS_DIR "9b2f6c1e-5d7a-4c3b-8e21-0a1b2c3d4e5f.json"
      (snd (post_reports sampleRuntime sampleBody sampleWorld))
    = Some (JsonText (JObj props))
    /\ List.map fst props = recordKeys.
Proof.
  destruct (post_reports_record_shape sampleRuntime sampleBody sampleWorld
              (snd (post_reports sampleRuntime sampleBody sampleWorld))
              {| statusCode := 201;
                 body := JObj [("reportId", JStr "9b2f6c1e-5d7a-4c3b-8e21-0a1b2c3d4e5f")] |}
              eq_refl eq_refl)
    as (reportId & props & B & L & K & _).
  injection B as <-. exists props. auto.
Defined.

(** X4.  When a 201 is answered, every reference the stored record holds,
    each photo and the two signatures, names a file that is in the uploads
    directory at that moment, and there are as many photo references as
    photos submitted. *)
Theorem post_reports_references_resolve (rt : Runtime) (reqBody : list (string * json))
    (w w' : World) (r : Response) :
  post_reports rt reqBody w = (Return r, w') ->
  statusCode r = 201 ->
  exists reportId props photoFiles ownerSignFile technicianSignFile,
    body r = JObj [("reportId", JStr reportId)]
    /\ lookup_file REPORTS_DIR (reportId +:+ ".json") w' = Some (JsonText (JObj props))
    /\ get "photos" props = Some (JArr photoFiles)
    /\ List.length photoFiles = List.length (photoItems reqBody)
    /\ Forall (resolves w') photoFiles
    /\ get "ownerSignature" props = Some ownerSignFile
    /\ resolves w' ownerSignFile
    /\ get "technicianSignature" props = Some technicianSignFile
    /\ resolves w' technicianSignFile.
Proof.
  intros H C.
  destruct (post_reports_201_run rt reqBody w w' r H C)
    as (reportId & photoFiles & osf & tsf & created & -> & _ & _ & Len & _ & _ & L
        & Rp & Ro & Rt).
  destruct (reportData_fields rt reqBody reportId photoFiles osf tsf created)
    as (props & Eq & _ & _ & _ & _ & _ & _ & Fph & Fo & Ft & _).
  exists reportId, props, photoFiles, (JStr osf), (JStr tsf).
  rewrite <- Eq. auto 12.
Qed.

(** X4 at the sample submission. *)
Lemma post_reports_references_resolve_example :
  resolves (snd (post_reports sampleRuntime sampleBody sampleWorld))
           (JStr "/uploads/photo-1700000000000-4821.png").
Proof.
  destruct (post_reports_references_resolve sampleRuntime sampleBody sampleWorld
              (snd (post_reports sampleRuntime sampleBody sampleWorld))
              {| statusCode := 201;
                 body := JObj [("reportId", JStr "9b2f6c1e-5d7a-4c3b-8e21-0a1b2c3d4e5f")] |}
              eq_refl eq_refl)
    as (reportId & props & photoFiles & o & t & B & L & Ph & _ & R & _).
  injection B as <-.
  assert (E : lookup_file REPORTS_DIR ("9b2f6c1e-5d7a-4c3b-8e21-0a1b2c3d4e5f" +:+ ".json")
                (snd (post_reports sampleRuntime sampleBody sampleWorld))
              = Some (JsonText (reportData sampleRuntime sampleBody
                   "9b2f6c1e-5d7a-4c3b-8e21-0a1b2c3d4e5f"
                   [JStr "/uploads/photo-1700000000000-4821.png"]
                   "/uploads/ownerSign-1700000000001-17.svg+xml"
                   "/uploads/techSign-1700000000002-9050.undefined"
                   1700000000003))) by reflexivity.
  rewrite L in E. injection E as ->. injection Ph as <-.
  inversion R; assumption.
Defined.

(** ** What a creation leaves alone *)

Lemma bind_keep {A B} (I : World -> Prop) (m : js A) (k : A -> js B)
      (w w' : World) (r : outcome B) :
  preserves I m -> bind m k w = (r, w') -> I w ->
  (exists a w1, I w1 /\ k a w1 = (r, w'))
  \/ (I w' /\ exists e, r = Throw e).
Proof.
  intros Hm H Hw.
  apply bind_inv in H as [(a & w1 & H1 & H2)|(e & H1 & ->)].
  - left. exists a, w1. split; [exact (Hm w _ w1 H1 Hw) | exact H2].
  - right. split; [exact (Hm w _ w' H1 Hw) | eauto].
Qed.

Lemma ensureDirs_preserves (I : World -> Prop) :
  onFiles I ->
  (forall d w, get_dir d w = None -> I w -> I (set_dir d ∅ w)) ->
  preserves I ensureDirs.
Proof.
  intros HI Hd. unfold ensureDirs.
  apply preserves_bind; [|intros _]; apply preserves_mkdir; auto.
Qed.

Lemma post_reports_uploads_grow (rt : Runtime) (reqBody : list (string * json))
      (name : string) :
  preserves (fun x => is_Some (lookup_file UPLOADS_DIR name x)) (post_reports rt reqBody).
Proof.
  assert (HI : onFiles (fun x => is_Some (lookup_file UPLOADS_DIR name x))).
  { intros x x' _ U. unfold lookup_file. simpl. rewrite U. auto. }
  unfold post_reports. cbv zeta. rewrite photos_branch.
  apply preserves_try_catch; [|intros; apply preserves_ret].
  apply preserves_bind; [auto with frame | intros _].
  apply preserves_bind; [|intros _].
  { apply ensureDirs_preserves; [exact HI|].
    intros [] x G [f Hf]; unfold lookup_file in *; simpl in *.
    - eauto.
    - rewrite G in Hf. discriminate. }
  apply preserves_bind; [|intros photoFiles].
  { generalize (@nil json). induction (photoItems reqBody) as [|v items IH];
      intros acc; cbn [savePhotos]; [auto with frame|].
    apply preserves_bind; [apply saveBase64Image_grows | intros; apply IH]. }
  apply preserves_bind; [apply saveBase64Image_grows | intros osf].
  apply preserves_bind; [apply saveBase64Image_grows | intros tsf].
  apply preserves_bind; [auto with frame | intros reportId].
  apply preserves_bind; [auto with frame | intros created].
  apply preserves_bind; [|auto with frame].
  apply preserves_writeFile; [exact HI|]. intros x m _ Hx. exact Hx.
Qed.

(** X5.  Whatever its outcome, a creation removes no file from the uploads
    directory, and changes no file of the reports directory except, when
    it answers 201, the record of the identifier it answers with. *)
Theorem post_reports_frame (rt : Runtime) (reqBody : list (string * json))
    (w w' : World) (r : outcome Response) :
  post_reports rt reqBody w = (r, w') ->
  (forall name, is_Some (lookup_file UPLOADS_DIR name w) ->
                is_Some (lookup_file UPLOADS_DIR name w'))
  /\ (forall resp, r = Return resp -> statusCode resp <> 201 ->
        forall name, lookup_file REPORTS_DIR name w' = lookup_file REPORTS_DIR name w)
  /\ (forall reportId,
        r = Return {| statusCode := 201; body := JObj [("reportId", JStr reportId)] |} ->
        forall name, name <> reportId +:+ ".json" ->
                     lookup_file REPORTS_DIR name w' = lookup_file REPORTS_DIR name w).
Proof.
  intros H. split.
  { intros name Hn. exact (post_reports_uploads_grow rt reqBody name w r w' H Hn). }
  assert (HJ : onFiles (sameReports w)).
  { intros x x' R _ Hx name. unfold lookup_file. simpl. rewrite R. apply Hx. }
  assert (HU : forall x m, sameReports w x -> sameReports w (set_dir UPLOADS_DIR m x))
    by (intros x m Hx; exact Hx).
  assert (Failed : forall e w0,
             sameReports w w0 ->
             (ret {| statusCode := 400; body := JObj [("error", JStr (message e))] |}
                : js Response) w0 = (r, w') ->
             (forall resp, r = Return resp -> statusCode resp <> 201 ->
                forall name, lookup_file REPORTS_DIR name w' = lookup_file REPORTS_DIR name w)
             /\ (forall reportId,
                   r = Return {| statusCode := 201;
                                 body := JObj [("reportId", JStr reportId)] |} ->
                   forall name, name <> reportId +:+ ".json" ->
                     lookup_file REPORTS_DIR name w' = lookup_file REPORTS_DIR name w)).
  { intros e w0 J0 [= <- <-]. split; [intros; apply J0 | intros reportId [=]]. }
  unfold post_reports, try_catch in H. cbv zeta in H. rewrite photos_branch in H.
  match type of H with
  | match ?b w with _ => _ end = _ => destruct (b w) as [[r0|e] w0] eqn:B
  end.
  - injection H as <- <-.
    apply (bind_keep (sameReports w)) in B as [([] & w1 & J1 & B)|(_ & ? & [=])];
      [|auto with frame | intros name; reflexivity].
    apply (bind_keep (sameReports w)) in B as [([] & w2 & J2 & B)|(_ & ? & [=])]; [| |exact J1].
    2:{ apply ensureDirs_preserves; [exact HJ|].
        intros [] x G Hx name; [|apply Hx].
        rewrite <- Hx. unfold lookup_file. simpl in *. rewrite G. apply lookup_empty. }
    apply (bind_keep (sameReports w)) in B as [(photoFiles & w3 & J3 & B)|(_ & ? & [=])];
      [|apply savePhotos_preserves; assumption | exact J2].
    apply (bind_keep (sameReports w)) in B as [(osf & w4 & J4 & B)|(_ & ? & [=])];
      [|apply saveBase64Image_preserves; assumption | exact J3].
    apply (bind_keep (sameReports w)) in B as [(tsf & w5 & J5 & B)|(_ & ? & [=])];
      [|apply saveBase64Image_preserves; assumption | exact J4].
    apply (bind_keep (sameReports w)) in B as [(reportId & w6 & J6 & B)|(_ & ? & [=])];
      [|auto with frame | exact J5].
    apply (bind_keep (sameReports w)) in B as [(created & w7 & J7 & B)|(_ & ? & [=])];
      [|auto with frame | exact J6].
    apply bind_inv in B as [([] & w8 & W & B)|(? & _ & [=])].
    injection B as <- <-.
    split; [intros resp [= <-] C; simpl in C; congruence|].
    intros reportId' [= <-] name Hne.
    apply writeFile_Return in W as (m & G & _ & G' & _). simpl in G, G'.
    rewrite <- J7. unfold lookup_file. simpl. rewrite G, G'.
    apply lookup_insert_ne. congruence.
  - apply (Failed e w0); [|exact H]. clear H Failed.
    apply (bind_keep (sameReports w)) in B as [([] & w1 & J1 & B)|(J0 & _)];
      [|exact J0 | auto with frame | intros name; reflexivity].
    apply (bind_keep (sameReports w)) in B as [([] & w2 & J2 & B)|(J0 & _)]; [|exact J0 | |exact J1].
    2:{ apply ensureDirs_preserves; [exact HJ|].
        intros [] x G Hx name; [|apply Hx].
        rewrite <- Hx. unfold lookup_file. simpl in *. rewrite G. apply lookup_empty. }
    apply (bind_keep (sameReports w)) in B as [(photoFiles & w3 & J3 & B)|(J0 & _)];
      [|exact J0 | apply savePhotos_preserves; assumption | exact J2].
    apply (bind_keep (sameReports w)) in B as [(osf & w4 & J4 & B)|(J0 & _)];
      [|exact J0 | apply saveBase64Image_preserves; assumption | exact J3].
    apply (bind_keep (sameReports w)) in B as [(tsf & w5 & J5 & B)|(J0 & _)];
      [|exact J0 | apply saveBase64Image_preserves; assumption | exact J4].
    apply (bind_keep (sameReports w)) in B as [(reportId & w6 & J6 & B)|(J0 & _)];
      [|exact J0 | auto with frame | exact J5].
    apply (bind_keep (sameReports w)) in B as [(created & w7 & J7 & B)|(J0 & _)];
      [|exact J0 | auto with frame | exact J6].
    apply bind_inv in B as [([] & w8 & W & B)|(e' & W & _)]; [discriminate|].
    apply writeFile_Throw in W as [R _].
    intros name. rewrite <- J7. unfold lookup_file. simpl. rewrite R. reflexivity.
Qed.

(** X5 at the sample submission: the earlier record is untouched. *)
Lemma post_reports_frame_example :
  lookup_file REPORTS_DIR "r1.json" (snd (post_reports sampleRuntime sampleBody sampleWorld))
  = lookup_file REPORTS_DIR "r1.json" sampleWorld.
Proof.
  destruct (post_reports_frame sampleRuntime sampleBody sampleWorld _ _
              (surjective_pairing (post_reports sampleRuntime sampleBody sampleWorld)))
    as (_ & _ & Created).
  apply (Created "9b2f6c1e-5d7a-4c3b-8e21-0a1b2c3d4e5f"); [reflexivity | discriminate].
Defined.

(** ** Photos that are no array *)

Lemma validate_set_photos (rt : Runtime) (reqBody : list (string * json)) (v : json) :
  validate rt (set "photos" v reqBody) = validate rt reqBody.
Proof.
  unfold validate. rewrite !get_set_ne by discriminate. reflexivity.
Qed.

(** X6.  A [photos] value that is not an array, absent included, is
    handled as no photos at all: the answer and the state after are those
    of the same submission with [photos] an empty array. *)
Theorem post_reports_photos_not_array (rt : Runtime) (reqBody : list (string * json))
    (w : World) :
  isArray (get "photos" reqBody) = false ->
  post_reports rt reqBody w = post_reports rt (set "photos" (JArr []) reqBody) w.
Proof.
  intros N. unfold post_reports. cbv zeta.
  rewrite validate_set_photos, get_set_eq, !get_set_ne by discriminate.
  destruct (get "photos" reqBody) as [[| | | | |]|]; try discriminate; reflexivity.
Qed.

(** X6 at a [photos] that is one data URI, not an array of them. *)
Lemma post_reports_photos_not_array_example :
  post_reports sampleRuntime
    (set "photos" (JStr "data:image/png;base64,iVBORw0KGgo=") sampleBody) sampleWorld
  = post_reports sampleRuntime (set "photos" (JArr []) sampleBody) sampleWorld.
Proof.
  apply (post_reports_photos_not_array sampleRuntime
           (set "photos" (JStr "data:image/png;base64,iVBORw0KGgo=") sampleBody)
           sampleWorld eq_refl).
Defined.

(** ** The answers of the three handlers *)

(** X7.  A creation is answered 201 with the identifier or 400 with an
    error message, never anything else, a failure of the disk included; a
    listing is answered 200 with an array or the fixed 500; a status
    update is answered 200 or one of the fixed 400, 404 and 500. *)
Theorem handlers_status_codes (rt : Runtime) :
  (forall reqBody w,
     exists resp w',
       post_reports rt reqBody w = (Return resp, w')
       /\ ((statusCode resp = 201
            /\ exists reportId, body resp = JObj [("reportId", JStr reportId)])
           \/ exists msg, resp = errorResponse 400 msg))
  /\ (forall w,
        exists resp w',
          get_reports w = (Return resp, w')
          /\ ((statusCode resp = 200 /\ exists rs, body resp = JArr rs)
              \/ resp = errorResponse 500 "Error reading reports"))
  /\ (forall id reqBody w,
        exists resp w',
          put_reports_status id reqBody w = (Return resp, w')
          /\ (statusCode resp = 200
              \/ resp = errorResponse 400 "Estado inválido"
              \/ resp = errorResponse 404 "Reporte no encontrado"
              \/ resp = errorResponse 500 "Error actualizando el estado del reporte")).
Proof.
  split; [|split].
  - intros reqBody w. unfold post_reports, try_catch. cbv zeta.
    match goal with
    | |- context [match ?b w with _ => _ end] => destruct (b w) as [[r0|e] w0] eqn:B
    end.
    + exists r0, w0. split; [reflexivity|]. left.
      apply bind_inv in B as [(? & w1 & _ & B)|(? & _ & [=])].
      apply bind_inv in B as [(? & w2 & _ & B)|(? & _ & [=])].
      apply bind_inv in B as [(? & w3 & _ & B)|(? & _ & [=])].
      apply bind_inv in B as [(? & w4 & _ & B)|(? & _ & [=])].
      apply bind_inv in B as [(? & w5 & _ & B)|(? & _ & [=])].
      apply bind_inv in B as [(reportId & w6 & _ & B)|(? & _ & [=])].
      apply bind_inv in B as [(? & w7 & _ & B)|(? & _ & [=])].
      apply bind_inv in B as [(? & w8 & _ & B)|(? & _ & [=])].
      injection B as <- <-. simpl. eauto.
    + eexists _, w0. split; [reflexivity|]. right. eexists. reflexivity.
  - intros w. unfold get_reports, try_catch.
    match goal with
    | |- context [match ?b w with _ => _ end] => destruct (b w) as [[r0|e] w0] eqn:B
    end.
    + exists r0, w0. split; [reflexivity|]. left.
      apply bind_inv in B as [(? & w1 & _ & B)|(? & _ & [=])].
      apply bind_inv in B as [(rs & w2 & _ & B)|(? & _ & [=])].
      injection B as <- <-. simpl. eauto.
    + eexists _, w0. split; [reflexivity|]. right. reflexivity.
  - intros id reqBody w.
    destruct (put_reports_status id reqBody w) as [r w'] eqn:H.
    destruct (put_reports_status_cases id reqBody w w' r H)
      as [(_ & -> & _)|[(_ & _ & _ & [->| ->])|(_ & m & c & p & d & _ & _ & _ & _ & -> & _)]];
      eexists _, w'; (split; [reflexivity|]); simpl; auto.
Qed.

(** ** The listing, exactly *)

Lemma listed_length (m : gmap string file) (files : list string) :
  (forall name, In name files -> endsWith name ".json" = true ->
                exists props, m !! name = Some (JsonText (JObj props))) ->
  List.length (listed m files)
  = List.length (List.filter (fun name => endsWith name ".json") files).
Proof.
  induction files as [|file rest IH]; intros Hobj; [reflexivity|].
  assert (Hrest : forall name, In name rest -> endsWith name ".json" = true ->
                               exists props, m !! name = Some (JsonText (JObj props)))
    by (intros name Hn; apply Hobj; right; exact Hn).
  cbn [listed List.filter]. destruct (endsWith file ".json") eqn:E; [|apply IH, Hrest].
  destruct (Hobj file (or_introl eq_refl) E) as [props ->].
  simpl. rewrite (IH Hrest). reflexivity.
Qed.

Lemma before_total (place : string -> nat) : Total (before place).
Proof. intros a b. unfold before. lia. Qed.

(** X8.  On a well-formed store, the body of a listing answered 200 is
    the list of the objects of the [.json] files in the order in which
    [fs.readdir] returned their names, each with its status filled in.
    That order is the file system's: the names of the directory, each
    once, by the place the file system gives them, whatever the names
    are.  The handler sorts nothing itself, no file that is not [.json]
    contributes, and there is one entry for each [.json] file. *)
Theorem get_reports_body (w w' : World) (resp : Response) :
  storeOk w = true ->
  get_reports w = (Return resp, w') ->
  statusCode resp = 200 ->
  exists m names,
    reports w = Some m
    /\ (forall w1 files, readdir REPORTS_DIR w = (Return files, w1) -> files = names)
    /\ body resp = JArr (listed m names)
    /\ names ≡ₚ (map_to_list m).*1
    /\ Sorted (before (position w)) names
    /\ List.length (listed m names)
       = List.length (List.filter (fun name => endsWith name ".json") names).
Proof.
  intros S H C. destruct (get_reports_inv w w' resp S H C) as (m & R & B).
  exists m, (enumerate (position w) m). split; [exact R|]. split.
  { intros w1 files D. apply readdir_inv in D as (_ & _ & m' & G & ->).
    simpl in G. rewrite R in G. injection G as <-. reflexivity. }
  split; [exact B|]. split; [apply enumerate_Permutation|]. split.
  - pose proof (before_total (position w)) as T. apply (Sorted_merge_sort _).
  - apply listed_length. intros name Hn E.
    apply enumerate_In in Hn as [f Hn].
    destruct (isRecord_inv f (storeOk_lookup w m name f S R Hn E)) as (props & -> & _).
    eauto.
Qed.

(** X8 at the sample directory, whose file system enumerates
    [legacy.json] before [r1.json]: the older record comes first, and the
    other file is left out. *)
Lemma get_reports_body_example :
  exists resp w',
    get_reports sampleWorld = (Return resp, w')
    /\ body resp
       = JArr [JObj [("id", JStr "legacy"); ("ownerName", JStr "Luis");
                     ("status", JStr "pending")];
               JObj [("id", JStr "r1"); ("ownerName", JStr "Ana");
                     ("status", JStr "pending")]].
Proof.
  assert (G : get_reports sampleWorld
              = (Return {| statusCode := 200;
                           body := JArr (listed sampleStore
                                           ["legacy.json"; "notes.txt"; "r1.json"]) |},
                 sampleWorld)) by (vm_compute; reflexivity).
  assert (D : readdir REPORTS_DIR sampleWorld
              = (Return ["legacy.json"; "notes.txt"; "r1.json"], sampleWorld))
    by (vm_compute; reflexivity).
  destruct (get_reports_body sampleWorld sampleWorld _ eq_refl G eq_refl)
    as (m & names & R & N & B & _).
  rewrite <- (N _ _ D) in B. injection R as <-.
  eexists _, sampleWorld. split; [exact G|]. rewrite B. reflexivity.
Defined.

(** ** Files that are no records *)

Lemma readReports_unlistable (name : string) (f : file) (files : list string) :
  endsWith name ".json" = true -> unlistable f = true ->
  In name files ->
  forall (acc : list json) (w w' : World) (r : outcome (list json)),
    lookup_file REPORTS_DIR name w = Some f ->
    readReports files acc w = (r, w') ->
    exists e, r = Throw e.
Proof.
  intros E U. induction files as [|file rest IH]; intros Hin acc w w' r L H;
    [destruct Hin|].
  cbn [readReports] in H.
  destruct (decide (file = name)) as [->|Hne].
  - rewrite E in H.
    apply bind_inv in H as [(content & w1 & F & H)|(e & _ & ->)]; [|eauto].
    apply readFile_inv in F as (L1 & _). rewrite L in L1. injection L1 as <-.
    destruct f as [[| | | | |]|]; try discriminate;
      unfold bind, lift in H; simpl in H; injection H as <- _; eauto.
  - destruct Hin as [Heq|Hin]; [contradiction|].
    destruct (endsWith file ".json"); [|eapply IH; eauto].
    apply bind_inv in H as [(content & w1 & F & H)|(e & _ & ->)]; [|eauto].
    apply readFile_inv in F as (_ & R1 & _).
    assert (L1 : lookup_file REPORTS_DIR name w1 = Some f)
      by (unfold lookup_file in *; simpl in *; rewrite R1; exact L).
    apply bind_inv in H as [(report & w2 & P & H)|(e & _ & ->)]; [|eauto].
    injection P as _ <-.
    apply bind_inv in H as [(status & w3 & P & H)|(e & _ & ->)]; [|eauto].
    injection P as _ <-.
    apply bind_inv in H as [(report' & w4 & P & H)|(e & _ & ->)]; [|eauto].
    assert (w4 = w1) as ->.
    { destruct (negb (truthy status)); unfold lift, ret in P; congruence. }
    eapply IH; eauto.
Qed.

(** X9.  One [.json] file of the reports directory that is unparsable, or
    holds [null] or a primitive, makes every listing fail with the 500:
    there is no partial listing. *)
Theorem get_reports_unlistable (w : World) (m : gmap string file)
    (name : string) (f : file) :
  reports w = Some m ->
  m !! name = Some f ->
  endsWith name ".json" = true ->
  unlistable f = true ->
  exists w',
    get_reports w = (Return (errorResponse 500 "Error reading reports"), w').
Proof.
  intros R L E U. unfold get_reports, try_catch.
  match goal with
  | |- context [match ?b w with _ => _ end] => destruct (b w) as [[r0|e] w0] eqn:B
  end; [|eexists; reflexivity].
  exfalso.
  apply bind_inv in B as [(files & w1 & D & B)|(? & _ & [=])].
  apply bind_inv in B as [(rs & w2 & X & _)|(? & _ & [=])].
  apply readdir_inv in D as (R1 & _ & m1 & G & ->). simpl in G.
  rewrite R in G. injection G as <-.
  assert (Hin : In name (enumerate (position w) m)) by (apply enumerate_In; eauto).
  assert (Lw : lookup_file REPORTS_DIR name w1 = Some f)
    by (unfold lookup_file; simpl; rewrite R1, R; exact L).
  destruct (readReports_unlistable name f _ E U Hin [] w1 w2 _ Lw X) as [e He].
  discriminate.
Qed.

(** X9 at the sample directory with a truncated record added. *)
Lemma get_reports_unlistable_example :
  fst (get_reports (set_dir REPORTS_DIR (<["broken.json" := Binary []]> sampleStore)
                            sampleWorld))
  = Return (errorResponse 500 "Error reading reports").
Proof.
  destruct (get_reports_unlistable
              (set_dir REPORTS_DIR (<["broken.json" := Binary []]> sampleStore) sampleWorld)
              (<["broken.json" := Binary []]> sampleStore) "broken.json" (Binary [])
              eq_refl (lookup_insert_eq sampleStore _ _) eq_refl eq_refl) as (w' & ->).
  reflexivity.
Defined.

(** ** Before the first creation *)

(** X10.  While the reports directory does not exist, a listing is
    answered the 500, and a status update with an allowed status whose
    path (line 137) names a file of the reports directory, as that of an
    identifier without a separator does, is answered the 404; neither
    creates the directory: only a creation does. *)
Theorem no_reports_directory (w : World) :
  reports w = None ->
  (exists w',
     get_reports w = (Return (errorResponse 500 "Error reading reports"), w')
     /\ reports w' = None /\ uploads w' = uploads w)
  /\ (forall id reqBody name,
        includes ["pending"; "attended"] (get "status" reqBody) = true ->
        path_join REPORTS_DIR (id +:+ ".json") = Inside REPORTS_DIR name ->
        exists run w',
          put_reports_status_resolved id reqBody = Some run
          /\ run w = (Return (errorResponse 404 "Reporte no encontrado"), w')
          /\ reports w' = None /\ uploads w' = uploads w).
Proof.
  intros R. split.
  - destruct (get_reports w) as [r w'] eqn:H.
    destruct (files_kept _ get_reports_preserves w r w' H) as [R' U'].
    exists w'. rewrite R', R. split; [|auto].
    unfold get_reports, try_catch in H.
    match type of H with
    | match ?b w with _ => _ end = _ => destruct (b w) as [[r0|e] w0] eqn:B
    end; [|inversion H; reflexivity].
    exfalso. apply bind_inv in B as [(files & w1 & D & _)|(? & _ & [=])].
    apply readdir_inv in D as (_ & _ & m & G & _). simpl in G. congruence.
  - intros id reqBody name Inc P.
    destruct (put_reports_status_at_missing REPORTS_DIR name reqBody w Inc)
      as (w' & H & R' & U').
    { unfold lookup_file. simpl. rewrite R. reflexivity. }
    exists (put_reports_status_at REPORTS_DIR name reqBody), w'.
    unfold put_reports_status_resolved. rewrite P, R', R. auto.
Qed.

(** X10 at a fresh deployment. *)
Lemma no_reports_directory_example :
  fst (get_reports {| reports := None; uploads := None; clock := []; dice := [];
                      uuids := []; faults := []; position := fun _ => 0%nat |})
  = Return (errorResponse 500 "Error reading reports")
  /\ exists run,
       put_reports_status_resolved "r1" [("status", JStr "attended")] = Some run
       /\ fst (run {| reports := None; uploads := None; clock := []; dice := [];
                      uuids := []; faults := []; position := fun _ => 0%nat |})
          = Return (errorResponse 404 "Reporte no encontrado").
Proof.
  destruct (no_reports_directory
              {| reports := None; uploads := None; clock := []; dice := [];
                 uuids := []; faults := []; position := fun _ => 0%nat |} eq_refl)
    as [(w' & -> & _) Put].
  split; [reflexivity|].
  destruct (Put "r1" [("status", JStr "attended")] "r1.json" eq_refl eq_refl)
    as (run & w1 & E & Run & _).
  exists run. split; [exact E | rewrite Run; reflexivity].
Defined.

(** ** What a status update leaves alone *)

(** X11.  Whatever its outcome and whatever the identifier, a status
    update changes at most one file, the one the path of line 137 names;
    when that is a file of the reports directory, as for every identifier
    without a separator, the uploads directory is as it was.  Unless the
    update answers 200 it changes no file at all. *)
Theorem put_reports_status_frame (id : string) (reqBody : list (string * json))
    (run : js Response) (w w' : World) (r : outcome Response) :
  put_reports_status_resolved id reqBody = Some run ->
  run w = (r, w') ->
  exists d name,
    path_join REPORTS_DIR (id +:+ ".json") = Inside d name
    /\ (forall d' name', d' <> d \/ name' <> name ->
                         lookup_file d' name' w' = lookup_file d' name' w)
    /\ (d = REPORTS_DIR -> uploads w' = uploads w)
    /\ (forall resp, r = Return resp -> statusCode resp <> 200 ->
                     reports w' = reports w /\ uploads w' = uploads w).
Proof.
  unfold put_reports_status_resolved.
  destruct (path_join REPORTS_DIR (id +:+ ".json")) as [d name|] eqn:P; [|discriminate].
  intros [= <-] H. exists d, name. split; [reflexivity|].
  assert (Kept : reports w' = reports w -> uploads w' = uploads w ->
                 forall d' name', lookup_file d' name' w' = lookup_file d' name' w).
  { intros R U d' name'. unfold lookup_file.
    destruct d'; simpl; [rewrite R | rewrite U]; reflexivity. }
  destruct (put_reports_status_at_cases d name reqBody w w' r H)
    as [(_ & -> & ->)|[(_ & R & U & _)
       |(_ & m & c & p & x & G & _ & _ & _ & -> & G' & U' & R')]].
  - auto.
  - split; [intros; apply Kept; assumption|]. auto.
  - split; [|split; [exact U'|]].
    + intros d' name' Hne. unfold lookup_file.
      destruct d, d'; simpl in *;
        try (rewrite G', G; apply lookup_insert_ne; destruct Hne; congruence);
        try (rewrite (U' eq_refl); reflexivity);
        try (rewrite (R' eq_refl); reflexivity).
    + intros resp [= <-] C. simpl in C. congruence.
Qed.

(** X11 at an update of [r1]: the older record is untouched. *)
Lemma put_reports_status_frame_example :
  lookup_file REPORTS_DIR "legacy.json"
    (snd (put_reports_status "r1" [("status", JStr "attended")] sampleWorld))
  = lookup_file REPORTS_DIR "legacy.json" sampleWorld.
Proof.
  destruct (put_reports_status_frame "r1" [("status", JStr "attended")]
              (put_reports_status "r1" [("status", JStr "attended")])
              sampleWorld _ _ eq_refl (surjective_pairing _))
    as (d & name & P & Other & _).
  injection P as <- <-. apply Other. right. discriminate.
Defined.

Lemma set_set (k : string) (v v' : json) (props : list (string * json)) :
  set k v (set k v' props) = set k v props.
Proof.
  induction props as [|[k0 v0] props IH]; simpl.
  - rewrite String.eqb_refl. reflexivity.
  - destruct (String.eqb k k0) eqn:E; simpl.
    + rewrite String.eqb_refl. reflexivity.
    + rewrite E, IH. reflexivity.
Qed.

Lemma set_get (k : string) (v : json) (props : list (string * json)) :
  get k props = Some v -> set k v props = props.
Proof.
  induction props as [|[k0 v0] props IH]; simpl; [discriminate|].
  destruct (String.eqb_spec k k0) as [->|Hne].
  - intros [= ->]. reflexivity.
  - intros H. rewrite (IH H). reflexivity.
Qed.

(** X12.  A status update is idempotent: with the disk answering every
    call, the same update repeated is answered with the same record and
    leaves everything as the first one left it. *)
Theorem put_reports_status_idempotent (id : string) (reqBody : list (string * json))
    (w : World) (m : gmap string file) (props : list (string * json)) :
  includes ["pending"; "attended"] (get "status" reqBody) = true ->
  reports w = Some m ->
  m !! (id +:+ ".json") = Some (JsonText (JObj props)) ->
  faults w = [] ->
  exists resp w1,
    put_reports_status id reqBody w = (Return resp, w1)
    /\ statusCode resp = 200
    /\ put_reports_status id reqBody w1 = (Return resp, w1).
Proof.
  intros Inc R L Q. destruct (includes_inv _ _ Inc) as (s & Gs & _).
  rewrite Gs in Inc.
  pose proof (put_reports_status_updated id reqBody w m props (JStr s) Gs Inc R L Q) as Run.
  eexists _, _. split; [exact Run|]. split; [reflexivity|].
  rewrite (put_reports_status_updated id reqBody
             (set_dir REPORTS_DIR
                (<[id +:+ ".json" := JsonText (JObj (set "status" (JStr s) props))]> m) w)
             (<[id +:+ ".json" := JsonText (JObj (set "status" (JStr s) props))]> m)
             (set "status" (JStr s) props)
             (JStr s) Gs Inc eq_refl (lookup_insert_eq m _ _) Q).
  rewrite set_set. simpl. rewrite insert_insert_eq. reflexivity.
Qed.

(** X12 at the stored record [r1]. *)
Lemma put_reports_status_idempotent_example :
  exists resp w1,
    put_reports_status "r1" [("status", JStr "attended")] sampleWorld = (Return resp, w1)
    /\ put_reports_status "r1" [("status", JStr "attended")] w1 = (Return resp, w1).
Proof.
  destruct (put_reports_status_idempotent "r1" [("status", JStr "attended")] sampleWorld
              sampleStore
              [("id", JStr "r1"); ("ownerName", JStr "Ana"); ("status", JStr "pending")]
              eq_refl eq_refl eq_refl eq_refl) as (resp & w1 & H1 & _ & H2).
  exists resp, w1. auto.
Defined.

(** X13.  Setting a status and setting the former one back restores the
    file: for a record that has a status, with the disk answering every
    call, an update to another allowed status followed by an update to
    the one it had leaves the reports directory as it was. *)
Theorem put_reports_status_back_and_forth (id : string)
    (there back : list (string * json)) (w : World) (m : gmap string file)
    (props : list (string * json)) :
  includes ["pending"; "attended"] (get "status" there) = true ->
  includes ["pending"; "attended"] (get "status" back) = true ->
  get "status" back = get "status" props ->
  reports w = Some m ->
  m !! (id +:+ ".json") = Some (JsonText (JObj props)) ->
  faults w = [] ->
  exists r1 w1 r2 w2,
    put_reports_status id there w = (Return r1, w1)
    /\ put_reports_status id back w1 = (Return r2, w2)
    /\ body r2 = JObj props
    /\ reports w2 = reports w /\ uploads w2 = uploads w.
Proof.
  intros Inc1 Inc2 Same R L Q.
  destruct (includes_inv _ _ Inc1) as (s1 & G1 & _). rewrite G1 in Inc1.
  destruct (includes_inv _ _ Inc2) as (s2 & G2 & _). rewrite G2 in Inc2.
  rewrite G2 in Same. symmetry in Same.
  pose proof (put_reports_status_updated id there w m props (JStr s1) G1 Inc1 R L Q) as Run1.
  eexists _, _, _, _. split; [exact Run1|].
  split.
  { apply (put_reports_status_updated id back
             (set_dir REPORTS_DIR
                (<[id +:+ ".json" := JsonText (JObj (set "status" (JStr s1) props))]> m) w)
             (<[id +:+ ".json" := JsonText (JObj (set "status" (JStr s1) props))]> m)
             (set "status" (JStr s1) props)
             (JStr s2) G2 Inc2 eq_refl (lookup_insert_eq m _ _) Q). }
  rewrite set_set, (set_get _ _ _ Same). simpl.
  rewrite insert_insert_eq, (insert_id m _ _ L). auto.
Qed.

(** X13 at the stored record [r1], attended and then pending again. *)
Lemma put_reports_status_back_and_forth_example :
  exists r1 w1 r2 w2,
    put_reports_status "r1" [("status", JStr "attended")] sampleWorld = (Return r1, w1)
    /\ put_reports_status "r1" [("status", JStr "pending")] w1 = (Return r2, w2)
    /\ reports w2 = reports sampleWorld.
Proof.
  destruct (put_reports_status_back_and_forth "r1"
              [("status", JStr "attended")] [("status", JStr "pending")] sampleWorld
              sampleStore
              [("id", JStr "r1"); ("ownerName", JStr "Ana"); ("status", JStr "pending")]
              eq_refl eq_refl eq_refl eq_refl eq_refl eq_refl)
    as (r1 & w1 & r2 & w2 & H1 & H2 & _ & R & _).
  exists r1, w1, r2, w2. auto.
Defined.

(** X14.  A status update aimed at a file that is unparsable, or holds
    [null] or a primitive, is never answered 200 and writes nothing: the
    file stays as it is. *)
Theorem put_reports_status_unlistable (id : string) (reqBody : list (string * json))
    (w w' : World) (r : outcome Response) (m : gmap string file) (f : file) :
  reports w = Some m ->
  m !! (id +:+ ".json") = Some f ->
  unlistable f = true ->
  put_reports_status id reqBody w = (r, w') ->
  reports w' = reports w /\ uploads w' = uploads w
  /\ forall resp, r = Return resp -> statusCode resp <> 200.
Proof.
  intros R L U H.
  destruct (put_reports_status_cases id reqBody w w' r H)
    as [(_ & -> & ->)|[(_ & R' & U' & [->| ->])
       |(_ & m0 & c & p & d & R0 & L0 & J & G & _)]].
  - split; [reflexivity|]. split; [reflexivity|]. intros resp [= <-]. discriminate.
  - split; [exact R'|]. split; [exact U'|]. intros resp [= <-]. discriminate.
  - split; [exact R'|]. split; [exact U'|]. intros resp [= <-]. discriminate.
  - exfalso. rewrite R in R0. injection R0 as <-. rewrite L in L0. injection L0 as <-.
    destruct f as [[| | | | |]|]; try discriminate; simpl in J; injection J as <-;
      discriminate.
Qed.

(** X14 at a truncated record. *)
Lemma put_reports_status_unlistable_example :
  reports (snd (put_reports_status "broken" [("status", JStr "attended")]
                  (set_dir REPORTS_DIR (<["broken.json" := Binary []]> sampleStore)
                           sampleWorld)))
  = Some (<["broken.json" := Binary []]> sampleStore).
Proof.
  destruct (put_reports_status_unlistable "broken" [("status", JStr "attended")]
              (set_dir REPORTS_DIR (<["broken.json" := Binary []]> sampleStore) sampleWorld)
              _ _ (<["broken.json" := Binary []]> sampleStore) (Binary [])
              eq_refl (lookup_insert_eq sampleStore _ _) eq_refl (surjective_pairing _))
    as (R & _).
  exact R.
Defined.

(** ** The two directories *)

(** X15.  [ensureDirs] removes nothing: whatever its outcome, every file
    of either directory is still there, unchanged.  With the disk
    answering every call, both directories exist afterwards and a second
    run changes nothing. *)
Theorem ensureDirs_idempotent (w : World) :
  (forall r w', ensureDirs w = (r, w') ->
     forall d name, lookup_file d name w' = lookup_file d name w)
  /\ (faults w = [] ->
      exists w1,
        ensureDirs w = (Return tt, w1)
        /\ is_Some (reports w1) /\ is_Some (uploads w1)
        /\ ensureDirs w1 = (Return tt, w1)).
Proof.
  split.
  - intros r w' H.
    refine (ensureDirs_preserves
              (fun x => forall d name, lookup_file d name x = lookup_file d name w)
              _ _ w r w' H (fun _ _ => eq_refl)).
    + intros x x' R U Hx d name. rewrite <- Hx. unfold lookup_file.
      destruct d; simpl; [rewrite R | rewrite U]; reflexivity.
    + intros d0 x G Hx d name. rewrite <- Hx. unfold lookup_file.
      destruct d0, d; simpl in *; try reflexivity; rewrite G; apply lookup_empty.
  - intros Q. destruct (ensureDirs_quiet w Q) as (w1 & Run & Q1 & R1 & U1 & _).
    exists w1. split; [exact Run|]. rewrite R1, U1. split; [eauto|]. split; [eauto|].
    unfold ensureDirs.
    rewrite (bind_Return _ _ _ _ _ (mkdir_quiet REPORTS_DIR w1 Q1)); simpl; rewrite R1.
    rewrite mkdir_quiet by exact Q1. simpl. rewrite U1. reflexivity.
Qed.

(** X15 at the sample process. *)
Lemma ensureDirs_idempotent_example :
  lookup_file REPORTS_DIR "r1.json" (snd (ensureDirs sampleWorld))
  = lookup_file REPORTS_DIR "r1.json" sampleWorld.
Proof.
  apply (proj1 (ensureDirs_idempotent sampleWorld) _ _ (surjective_pairing _)).
Defined.

(** ** The names of the saved images *)

Lemma pretty_N_go_lacks (c : ascii) (x : N) :
  (forall d, Ascii.eqb (pretty_N_char d) c = false) ->
  forall s, contains c s = false -> contains c (pretty_N_go x s) = false.
Proof.
  intros Hc. induction (N.lt_wf_0 x) as [x _ IH]. intros s Hs.
  assert (x = 0 \/ 0 < x)%N as [->|Hx] by lia.
  - rewrite pretty_N_go_0. exact Hs.
  - rewrite pretty_N_go_step by exact Hx.
    apply IH; [apply N.div_lt; lia|].
    simpl. rewrite Hs, Hc. reflexivity.
Qed.

(** A decimal numeral that is not negative holds digits only. *)
Lemma pretty_Z_lacks (c : ascii) (z : Z) :
  (forall d, Ascii.eqb (pretty_N_char d) c = false) ->
  (0 <= z)%Z -> contains c (pretty z) = false.
Proof.
  intros Hc Hz.
  assert (H0 : contains c "0" = false).
  { change (Ascii.eqb (pretty_N_char 0) c || false = false).
    rewrite (Hc 0%N). reflexivity. }
  destruct z as [|p|p]; [exact H0| |lia].
  unfold pretty, pretty_Z, pretty, pretty_positive, pretty, pretty_N.
  case_decide; [exact H0|].
  apply pretty_N_go_lacks; [exact Hc | reflexivity].
Qed.

Ltac noDigit := intros d; unfold pretty_N_char; repeat case_match; reflexivity.

Lemma pretty_Z_flat (z : Z) : contains "/" (pretty z) = false.
Proof.
  destruct z as [|p|p]; [reflexivity|apply pretty_Z_lacks; [noDigit|lia]|].
  change (pretty (Z.neg p)) with ("-" +:+ pretty (Z.pos p)).
  rewrite contains_app. simpl. apply pretty_Z_lacks; [noDigit|lia].
Qed.

Lemma split_flat (sep : ascii) (s : string) :
  Forall (fun seg => contains sep seg = false) (split sep s).
Proof.
  induction s as [|c s IH]; simpl.
  - repeat constructor.
  - destruct (Ascii.eqb c sep) eqn:E.
    + constructor; [reflexivity|exact IH].
    + destruct (split sep s) as [|seg segs].
      * repeat constructor. simpl. rewrite E. reflexivity.
      * inversion IH as [|? ? Hseg Hsegs]; subst.
        constructor; [|exact Hsegs]. simpl. rewrite E. exact Hseg.
Qed.

Lemma extensionOf_flat (mimeType : string) :
  contains "/" (extensionOf mimeType) = false.
Proof.
  unfold extensionOf.
  destruct (split "/" mimeType !! 1%nat) as [seg|] eqn:E; [|reflexivity].
  exact (proj1 (Forall_lookup _ _) (split_flat "/" mimeType) _ _ E).
Qed.

(** X17.  The name under which an image is saved holds no path separator
    when the prefix holds none, whatever the data URI says: the file lands
    in the uploads directory itself, and the reference returned is
    [/uploads/] followed by that name. *)
Theorem saveBase64Image_name_flat (rt : Runtime) (v : value) (prefix ref : string)
    (w w' : World) :
  contains "/" prefix = false ->
  saveBase64Image rt v prefix w = (Return ref, w') ->
  exists name,
    ref = "/uploads/" +:+ name
    /\ contains "/" name = false
    /\ is_Some (lookup_file UPLOADS_DIR name w').
Proof.
  intros P H.
  destruct (saveBase64Image_Return rt v prefix ref w w' H)
    as (s & mime & payload & name & _ & _ & -> & -> & L).
  eexists. split; [reflexivity|]. split; [|eauto].
  unfold fileName. rewrite !contains_app, P, !pretty_Z_flat, extensionOf_flat.
  reflexivity.
Qed.

(** X17 at a data URI whose mime type holds two separators. *)
Lemma saveBase64Image_name_flat_example :
  exists name,
    fst (saveBase64Image sampleRuntime (Some (JStr "data:image/../x;base64,AAAA")) "photo"
           sampleWorld)
    = Return ("/uploads/" +:+ name)
    /\ contains "/" name = false.
Proof.
  destruct (saveBase64Image sampleRuntime (Some (JStr "data:image/../x;base64,AAAA"))
              "photo" sampleWorld) as [[r|e] w'] eqn:H.
  - destruct (saveBase64Image_name_flat sampleRuntime _ "photo" r sampleWorld w'
                eq_refl H) as (name & -> & F & _).
    exists name. auto.
  - vm_compute in H. discriminate.
Defined.

(** A text is cut in one way only at the first occurrence of [sep]. *)
Lemma cut_unique (sep : ascii) (a b x y : string) :
  contains sep a = false -> contains sep b = false ->
  a +:+ String sep x = b +:+ String sep y -> a = b /\ x = y.
Proof.
  revert b. induction a as [|c a IH]; intros [|c' b]; simpl; intros Ha Hb H.
  - injection H as ->. auto.
  - injection H as <- _. rewrite Ascii.eqb_refl in Hb. discriminate.
  - injection H as -> _. rewrite Ascii.eqb_refl in Ha. discriminate.
  - injection H as <- H.
    apply orb_false_iff in Ha as [_ Ha]. apply orb_false_iff in Hb as [_ Hb].
    destruct (IH b Ha Hb H) as [-> ->]. auto.
Qed.

(** X19.  Two images saved under one prefix in the same millisecond, with
    the same random draw and the same extension, get the same name: with
    the disk answering every call, both saves return the same reference,
    and the file holds the bytes of the second image only. *)
Theorem saveBase64Image_collision (rt : Runtime) (s1 s2 mime1 payload1 mime2 payload2
    prefix : string) (w : World) (m : gmap string file) (now rnd : Z) (c d : list Z) :
  DataUri.exec s1 = Some (mime1, payload1) ->
  DataUri.exec s2 = Some (mime2, payload2) ->
  extensionOf mime1 = extensionOf mime2 ->
  faults w = [] -> uploads w = Some m ->
  clock w = now :: now :: c -> dice w = rnd :: rnd :: d ->
  exists ref w1 w2,
    saveBase64Image rt (Some (JStr s1)) prefix w = (Return ref, w1)
    /\ saveBase64Image rt (Some (JStr s2)) prefix w1 = (Return ref, w2)
    /\ ref = "/uploads/" +:+ fileName prefix now rnd (extensionOf mime1)
    /\ uploads w2
       = Some (<[fileName prefix now rnd (extensionOf mime1)
                 := Binary (Buffer_from rt payload2)]> m).
Proof.
  intros E1 E2 X Q U C D.
  destruct (saveBase64Image_quiet rt s1 mime1 payload1 prefix w m E1 Q U)
    as (w1 & R1 & Q1 & _ & U1 & C1 & D1 & _).
  destruct (saveBase64Image_quiet rt s2 mime2 payload2 prefix w1 _ E2 Q1 U1)
    as (w2 & R2 & _ & _ & U2 & _).
  rewrite C1, D1, C, D, <- X in R2. rewrite C1, D1, C, D, <- X in U2.
  rewrite C, D in R1. simpl in R1, R2, U2.
  eexists _, w1, w2. split; [exact R1|]. split; [exact R2|]. split; [reflexivity|].
  rewrite U2, insert_insert_eq. reflexivity.
Qed.

(** X19 at two photos of one millisecond. *)
Lemma saveBase64Image_collision_example :
  exists ref w1 w2,
    saveBase64Image sampleRuntime (Some (JStr "data:image/png;base64,AAAA")) "photo"
      (set_clock [5; 5] (set_dice [7; 7] sampleWorld)) = (Return ref, w1)
    /\ saveBase64Image sampleRuntime (Some (JStr "data:image/png;base64,BBBB")) "photo" w1
       = (Return ref, w2).
Proof.
  destruct (saveBase64Image_collision sampleRuntime
              "data:image/png;base64,AAAA" "data:image/png;base64,BBBB"
              "image/png" "AAAA" "image/png" "BBBB" "photo"
              (set_clock [5; 5] (set_dice [7; 7] sampleWorld)) ∅ 5 7 [] []
              eq_refl eq_refl eq_refl eq_refl eq_refl eq_refl eq_refl)
    as (ref & w1 & w2 & H1 & H2 & _).
  exists ref, w1, w2. auto.
Defined.

(** X20.  That is the only way for two names to collide: when the
    prefixes hold no ['-'], and the clock readings and random draws are
    not negative, two saves that return the same reference were given the
    same prefix, the same clock reading and the same draw. *)
Theorem saveBase64Image_names_distinct (rt : Runtime) (v1 v2 : value)
    (prefix1 prefix2 ref : string) (w1 w1' w2 w2' : World) :
  contains "-" prefix1 = false -> contains "-" prefix2 = false ->
  (0 <= hd 0 (clock w1))%Z -> (0 <= hd 0 (dice w1))%Z ->
  (0 <= hd 0 (clock w2))%Z -> (0 <= hd 0 (dice w2))%Z ->
  saveBase64Image rt v1 prefix1 w1 = (Return ref, w1') ->
  saveBase64Image rt v2 prefix2 w2 = (Return ref, w2') ->
  prefix1 = prefix2
  /\ hd 0 (clock w1) = hd 0 (clock w2)
  /\ hd 0 (dice w1) = hd 0 (dice w2).
Proof.
  intros P1 P2 C1 D1 C2 D2 H1 H2.
  destruct (saveBase64Image_Return rt v1 prefix1 ref w1 w1' H1)
    as (s1 & m1 & p1 & n1 & _ & _ & -> & -> & _).
  destruct (saveBase64Image_Return rt v2 prefix2 _ w2 w2' H2)
    as (s2 & m2 & p2 & n2 & _ & _ & -> & E & _).
  simpl in E. injection E as E. unfold fileName in E.
  apply (cut_unique "-" prefix1 prefix2 _ _ P1 P2) in E as [<- E].
  apply (cut_unique "-" (pretty (hd 0 (clock w1))) (pretty (hd 0 (clock w2))) _ _
           (pretty_Z_lacks "-" _ ltac:(noDigit) C1)
           (pretty_Z_lacks "-" _ ltac:(noDigit) C2)) in E as [N E].
  apply (cut_unique "." (pretty (hd 0 (dice w1))) (pretty (hd 0 (dice w2))) _ _
           (pretty_Z_lacks "." _ ltac:(noDigit) D1)
           (pretty_Z_lacks "." _ ltac:(noDigit) D2)) in E as [R _].
  apply (inj pretty) in N, R. auto.
Qed.

(** X20 at a photo and a signature saved at the same reading of the
    clock: the references differ. *)
Lemma saveBase64Image_names_distinct_example :
  fst (saveBase64Image sampleRuntime (Some (JStr "data:image/png;base64,AAAA")) "photo"
         sampleWorld)
  <> fst (saveBase64Image sampleRuntime (Some (JStr "data:image/png;base64,AAAA"))
            "ownerSign" sampleWorld).
Proof.
  destruct (saveBase64Image sampleRuntime _ "photo" sampleWorld)
    as [[r1|e1] w1] eqn:H1; [|vm_compute in H1; discriminate].
  destruct (saveBase64Image sampleRuntime _ "ownerSign" sampleWorld)
    as [[r2|e2] w2] eqn:H2; [|vm_compute in H2; discriminate].
  simpl. intros [= <-].
  destruct (saveBase64Image_names_distinct sampleRuntime _ _ "photo" "ownerSign" r1
              sampleWorld w1 sampleWorld w2 eq_refl eq_refl
              ltac:(simpl; lia) ltac:(simpl; lia) ltac:(simpl; lia) ltac:(simpl; lia)
              H1 H2) as [P _].
  discriminate.
Defined.

(** ** The captures of the pattern *)

(** X18.  The two captures cut the data URI at its last [;base64,]: they
    put the input back together, and no other way of reading the input as
    [data:<mime>;base64,<payload>] has a longer mime type. *)
Theorem exec_captures (s mime payload : string) :
  DataUri.exec s = Some (mime, payload) ->
  s = "data:" +:+ mime +:+ ";base64," +:+ payload
  /\ forall mime' payload',
       s = "data:" +:+ mime' +:+ ";base64," +:+ payload' ->
       mime' <> EmptyString -> payload' <> EmptyString ->
       DataUri.oneLine mime' = true -> DataUri.oneLine payload' = true ->
       (String.length mime' <= String.length mime)%nat.
Proof.
  intros E. split; [apply (DataUriFacts.exec_sound s mime payload E)|].
  intros mime' payload' -> Hm Hp Lm Lp.
  destruct (DataUriFacts.exec_complete mime' payload' Hm Hp Lm Lp)
    as (m'' & p'' & E' & Hlen).
  rewrite E in E'. injection E' as <- <-. exact Hlen.
Qed.

(** X18 at a payload that holds the marker once more. *)
Lemma exec_captures_example :
  "data:a;base64,b;base64,c" = "data:" +:+ "a;base64,b" +:+ ";base64," +:+ "c"
  /\ (String.length "a" <= String.length "a;base64,b")%nat.
Proof.
  destruct (exec_captures "data:a;base64,b;base64,c" "a;base64,b" "c" eq_refl)
    as [E Longest].
  split; [exact E|].
  apply (Longest "a" "b;base64,c"); (reflexivity || discriminate).
Defined.

(** ** A creation and what follows *)

(** X21.  The identifier a creation answers with is the one a status
    update takes: with the disk answering every call, a creation followed
    by an update of the identifier it returned, with an allowed status, is
    answered 200 with the record created, its [id] as returned and its
    status the one asked for, and that record is the one stored. *)
Theorem post_then_put (rt : Runtime) (reqBody update : list (string * json))
    (w : World) (so mo po st mt pt : string) :
  validate rt reqBody = Return tt ->
  forallb decodable (photoItems reqBody) = true ->
  get "ownerSignature" reqBody = Some (JStr so) ->
  DataUri.exec so = Some (mo, po) ->
  get "technicianSignature" reqBody = Some (JStr st) ->
  DataUri.exec st = Some (mt, pt) ->
  faults w = [] ->
  includes ["pending"; "attended"] (get "status" update) = true ->
  exists reportId props w1 w2,
    post_reports rt reqBody w
    = (Return {| statusCode := 201; body := JObj [("reportId", JStr reportId)] |}, w1)
    /\ put_reports_status reportId update w1
       = (Return {| statusCode := 200; body := JObj props |}, w2)
    /\ get "id" props = Some (JStr reportId)
    /\ get "status" props = get "status" update
    /\ get "ownerName" props = get "ownerName" reqBody
    /\ lookup_file REPORTS_DIR (reportId +:+ ".json") w2 = Some (JsonText (JObj props))
    /\ uploads w2 = uploads w1.
Proof.
  intros V D Ho Eo Ht Et Q Inc.
  destruct (post_reports_created rt reqBody w so mo po st mt pt V D Ho Eo Ht Et Q)
    as (photoFiles & w1 & _ & Run & Q1 & R1 & _).
  destruct (includes_inv _ _ Inc) as (s & Gs & _). rewrite Gs in Inc.
  match type of R1 with
  | _ = Some (<[_ := JsonText (reportData _ _ ?i _ ?a ?b ?c)]> _) =>
      destruct (reportData_fields rt reqBody i photoFiles a b c)
        as (props & E & Hid & Hname & _)
  end.
  rewrite E in R1.
  pose proof (put_reports_status_updated _ update w1 _ props (JStr s) Gs Inc R1
                (lookup_insert_eq _ _ _) Q1) as Upd.
  eexists _, _, w1, _. split; [exact Run|]. split; [exact Upd|].
  rewrite get_set_eq, !get_set_ne, Gs by discriminate.
  split; [exact Hid|]. split; [reflexivity|]. split; [exact Hname|].
  split; [|reflexivity].
  unfold lookup_file. simpl. apply lookup_insert_eq.
Qed.

(** X21 at the sample submission, attended next. *)
Lemma post_then_put_example :
  exists props w1 w2,
    post_reports sampleRuntime sampleBody sampleWorld
    = (Return {| statusCode := 201;
                 body := JObj [("reportId", JStr "9b2f6c1e-5d7a-4c3b-8e21-0a1b2c3d4e5f")] |},
       w1)
    /\ put_reports_status "9b2f6c1e-5d7a-4c3b-8e21-0a1b2c3d4e5f"
         [("status", JStr "attended")] w1
       = (Return {| statusCode := 200; body := JObj props |}, w2)
    /\ get "status" props = Some (JStr "attended").
Proof.
  destruct (post_then_put sampleRuntime sampleBody [("status", JStr "attended")]
              sampleWorld
              "data:image/svg+xml;base64,PHN2Zz4=" "image/svg+xml" "PHN2Zz4="
              "data:foo;base64,AAAA" "foo" "AAAA"
              eq_refl eq_refl eq_refl eq_refl eq_refl eq_refl eq_refl eq_refl)
    as (reportId & props & w1 & w2 & H1 & H2 & Hid & Hs & _).
  assert (Hr : reportId = "9b2f6c1e-5d7a-4c3b-8e21-0a1b2c3d4e5f").
  { assert (G : fst (post_reports sampleRuntime sampleBody sampleWorld)
                = Return {| statusCode := 201;
                            body := JObj [("reportId",
                                           JStr "9b2f6c1e-5d7a-4c3b-8e21-0a1b2c3d4e5f")] |})
      by (vm_compute; reflexivity).
    rewrite H1 in G. simpl in G. congruence. }
  subst reportId. exists props, w1, w2. auto.
Defined.

(** X22.  Nothing is rolled back: with the disk answering every call, a
    submission that passes validation and whose photos decode, but whose
    owner signature the decoder refuses, is answered the 400 of the
    decoder after its photos were saved; the photos stay in the uploads
    directory, and no record is written. *)
Theorem post_reports_no_rollback (rt : Runtime) (reqBody : list (string * json))
    (w : World) (so : string) :
  validate rt reqBody = Return tt ->
  forallb decodable (photoItems reqBody) = true ->
  get "ownerSignature" reqBody = Some (JStr so) ->
  DataUri.exec so = None ->
  faults w = [] ->
  exists photoFiles w',
    post_reports rt reqBody w
    = (Return (errorResponse 400 "Invalid base64 string format"), w')
    /\ referenced "photo" (photoItems reqBody) (clock w) (dice w) photoFiles
    /\ Forall (resolves w') photoFiles
    /\ reports w' = Some (default ∅ (reports w)).
Proof.
  intros V D Ho Eo Q.
  destruct (ensureDirs_quiet w Q) as (w1 & R1 & Q1 & P1 & U1 & C1 & D1 & _).
  destruct (savePhotos_quiet rt (photoItems reqBody) [] w1 D Q1
              ltac:(rewrite U1; eauto))
    as (photoFiles & w2 & R2 & F2 & _ & P2 & _).
  destruct (savePhotos_Return rt _ _ _ _ _ R2 (Forall_nil_2 _))
    as (refs & _ & _ & _ & Res).
  rewrite C1, D1 in F2. simpl in R2, Res.
  exists photoFiles, w2. split; [|split; [exact F2|split; [exact Res|congruence]]].
  unfold post_reports, try_catch. cbv zeta.
  rewrite (bind_Return _ _ w w tt) by (unfold lift; rewrite V; reflexivity).
  rewrite (bind_Return _ _ _ _ _ R1), photos_branch.
  rewrite (bind_Return _ _ _ _ _ R2), Ho.
  rewrite (bind_Throw _ _ _ _ _ (saveBase64Image_mismatch rt so "ownerSign" w2 Eo)).
  reflexivity.
Qed.

(** X22 at the sample submission with its owner signature cut short. *)
Lemma post_reports_no_rollback_example :
  exists photoFiles w',
    post_reports sampleRuntime (set "ownerSignature" (JStr "data:image/png") sampleBody)
      sampleWorld
    = (Return (errorResponse 400 "Invalid base64 string format"), w')
    /\ Forall (resolves w') photoFiles
    /\ List.length photoFiles = 1%nat.
Proof.
  destruct (post_reports_no_rollback sampleRuntime
              (set "ownerSignature" (JStr "data:image/png") sampleBody) sampleWorld
              "data:image/png" eq_refl eq_refl eq_refl eq_refl eq_refl)
    as (photoFiles & w' & H & F & Res & _).
  exists photoFiles, w'. split; [exact H|]. split; [exact Res|].
  inversion F as [|? ? ? ? ? ? ? _ F']; subst. inversion F'; subst. reflexivity.
Defined.

(** ** What the operating system says, and who hears it *)

(** X23.  The existence probe of a status update answers 404 for every
    error of the operating system, not only for a missing file: when the
    disk refuses the probe, whatever the reason and whether or not the
    record exists, the update with an allowed status is answered 404 and
    nothing is read or written. *)
Theorem put_reports_status_probe_refused (id : string) (reqBody : list (string * json))
    (w : World) (msg : string) (rest : list (option string)) :
  includes ["pending"; "attended"] (get "status" reqBody) = true ->
  faults w = Some msg :: rest ->
  put_reports_status id reqBody w
  = (Return (errorResponse 404 "Reporte no encontrado"), set_faults rest w).
Proof.
  intros Inc F. unfold put_reports_status, put_reports_status_at, try_catch at 1. cbv zeta.
  rewrite Inc. cbn [negb].
  assert (P : try_catch (access REPORTS_DIR (id +:+ ".json");; ret true)
                        (fun _ => ret false) w = (Return false, set_faults rest w)).
  { unfold try_catch, access, bind, syscall. rewrite F. reflexivity. }
  rewrite (bind_Return _ _ _ _ _ P). reflexivity.
Qed.

(** X23 at a stored record and a disk that denies permission. *)
Lemma put_reports_status_probe_refused_example :
  lookup_file REPORTS_DIR "r1.json" sampleWorld <> None
  /\ fst (put_reports_status "r1" [("status", JStr "attended")]
            (set_faults [Some "EACCES: permission denied"] sampleWorld))
     = Return (errorResponse 404 "Reporte no encontrado").
Proof.
  split; [discriminate|].
  rewrite (put_reports_status_probe_refused "r1" [("status", JStr "attended")]
             (set_faults [Some "EACCES: permission denied"] sampleWorld)
             "EACCES: permission denied" [] eq_refl eq_refl).
  reflexivity.
Defined.

Lemma reported_silent {A} (m : js A) :
  (forall w r w', m w = (r, w') -> faults w' = faults w) -> reported m.
Proof.
  intros Hm w r w' H. exists []. rewrite (Hm w r w' H).
  split; [reflexivity|]. intros msg [].
Qed.

Lemma reported_bind {A B} (m : js A) (k : A -> js B) :
  reported m -> (forall a, reported (k a)) -> reported (bind m k).
Proof.
  intros Hm Hk w r w' H.
  apply bind_inv in H as [(a & w1 & H1 & H2)|(e & H1 & ->)].
  - destruct (Hm w _ w1 H1) as (u1 & F1 & T1).
    destruct (Hk a w1 r w' H2) as (u2 & F2 & T2).
    exists (u1 ++ u2)%list. rewrite F1, F2, app_assoc. split; [reflexivity|].
    intros msg X. apply in_app_or in X as [X|X]; [|auto].
    specialize (T1 msg X). discriminate.
  - destruct (Hm w _ w' H1) as (u1 & F1 & T1). exists u1.
    split; [exact F1|]. intros msg X. specialize (T1 msg X).
    injection T1 as ->. reflexivity.
Qed.

Lemma reported_syscall : reported syscall.
Proof.
  intros w r w' H.
  destruct (syscall_consumes w w' r H) as [(F & F' & ->)|[(F & ->)|(msg & F & ->)]].
  - exists []. rewrite F, F'. split; [reflexivity|]. intros msg [].
  - exists [None]. split; [exact F|]. intros msg [[=]|[]].
  - exists [Some msg]. split; [exact F|]. intros msg' [[= ->]|[]]. reflexivity.
Qed.

Lemma reported_ret {A} (a : A) : reported (ret a).
Proof. apply reported_silent. intros w r w' [= _ <-]. reflexivity. Qed.

Lemma reported_lift {A} (o : outcome A) : reported (lift o).
Proof. apply reported_silent. intros w r w' [= _ <-]. reflexivity. Qed.

Lemma reported_throw {A} (e : exn) : reported (throw e : js A).
Proof. apply reported_silent. intros w r w' [= _ <-]. reflexivity. Qed.

Lemma reported_mkdir (d : dir) : reported (mkdir d).
Proof.
  apply reported_bind; [apply reported_syscall|]. intros _.
  apply reported_silent. intros w r w' H.
  destruct (get_dir d w); inversion H; subst; destruct d; reflexivity.
Qed.

Lemma reported_writeFile (d : dir) (name : string) (data : file) :
  reported (writeFile d name data).
Proof.
  apply reported_bind; [apply reported_syscall|]. intros _.
  apply reported_silent. intros w r w' H.
  destruct (get_dir d w); inversion H; subst; destruct d; reflexivity.
Qed.

Lemma reported_saveBase64Image (rt : Runtime) (v : value) (prefix : string) :
  reported (saveBase64Image rt v prefix).
Proof.
  unfold saveBase64Image.
  apply reported_bind; [apply reported_lift | intros [[mimeType base64Data]|]];
    [|apply reported_throw].
  apply reported_bind;
    [apply reported_silent; intros w r w' [= _ <-]; reflexivity | intros now].
  apply reported_bind;
    [apply reported_silent; intros w r w' [= _ <-]; reflexivity | intros rnd].
  apply reported_bind; [apply reported_writeFile | intros; apply reported_ret].
Qed.

Lemma reported_savePhotos (rt : Runtime) (items : list json) :
  forall acc, reported (savePhotos rt items acc).
Proof.
  induction items as [|v items IH]; intros acc; cbn [savePhotos].
  - apply reported_ret.
  - apply reported_bind; [apply reported_saveBase64Image | intros; apply IH].
Qed.

(** X24.  A creation tells the client what the operating system said:
    when one of the answers of the disk the request consumed is an error,
    the response is a 400 whose [error] is the message of that error. *)
Theorem post_reports_reports_os_error (rt : Runtime) (reqBody : list (string * json))
    (w w' : World) (r : outcome Response) :
  post_reports rt reqBody w = (r, w') ->
  exists used,
    faults w = (used ++ faults w')%list
    /\ forall msg, In (Some msg) used -> r = Return (errorResponse 400 msg).
Proof.
  intros H. unfold post_reports, try_catch in H. cbv zeta in H.
  rewrite photos_branch in H.
  match type of H with
  | match ?b w with _ => _ end = _ =>
      assert (A : reported b); [|destruct (b w) as [[r0|e] w0] eqn:B]
  end.
  { apply reported_bind; [apply reported_lift | intros _].
    apply reported_bind;
      [apply reported_bind; [apply reported_mkdir | intros; apply reported_mkdir]
      | intros _].
    apply reported_bind; [apply reported_savePhotos | intros photoFiles].
    apply reported_bind; [apply reported_saveBase64Image | intros osf].
    apply reported_bind; [apply reported_saveBase64Image | intros tsf].
    apply reported_bind;
      [apply reported_silent; intros x r1 x' [= _ <-]; reflexivity | intros reportId].
    apply reported_bind;
      [apply reported_silent; intros x r1 x' [= _ <-]; reflexivity | intros created].
    apply reported_bind; [apply reported_writeFile | intros; apply reported_ret]. }
  - destruct (A w _ w0 B) as (used & F & T). inversion H; subst.
    exists used. split; [exact F|]. intros msg X. specialize (T msg X). discriminate.
  - destruct (A w _ w0 B) as (used & F & T). inversion H; subst.
    exists used. split; [exact F|]. intros msg X. specialize (T msg X).
    injection T as ->. reflexivity.
Qed.

(** X24 at a disk that fails the write of the record. *)
Lemma post_reports_reports_os_error_example :
  fst (post_reports sampleRuntime sampleBody
         (set_faults [None; None; None; None; None; Some "ENOSPC: no space left on device"]
                     sampleWorld))
  = Return (errorResponse 400 "ENOSPC: no space left on device").
Proof.
  destruct (post_reports_reports_os_error sampleRuntime sampleBody
              (set_faults [None; None; None; None; None;
                           Some "ENOSPC: no space left on device"] sampleWorld)
              _ _ (surjective_pairing _)) as (used & F & T).
  apply T.
  assert (E : faults (snd (post_reports sampleRuntime sampleBody
                (set_faults [None; None; None; None; None;
                             Some "ENOSPC: no space left on device"] sampleWorld))) = [])
    by (vm_compute; reflexivity).
  rewrite E, app_nil_r in F. simpl in F. rewrite <- F. simpl. auto 10.
Defined.

(** ** A file that holds an array *)

(** X25.  A report file that holds an array takes no status: whatever the
    outcome of an update of it, the file holds the same array afterwards,
    and a 200 answers with that array; with an allowed status and the
    disk answering every call the update is answered 200 all the same. *)
Theorem put_reports_status_array (id : string) (reqBody : list (string * json))
    (w : World) (m : gmap string file) (items : list json) :
  reports w = Some m ->
  m !! (id +:+ ".json") = Some (JsonText (JArr items)) ->
  (forall r w',
     put_reports_status id reqBody w = (r, w') ->
     lookup_file REPORTS_DIR (id +:+ ".json") w' = Some (JsonText (JArr items))
     /\ forall resp, r = Return resp -> statusCode resp = 200 ->
                     body resp = JArr items)
  /\ (includes ["pending"; "attended"] (get "status" reqBody) = true ->
      faults w = [] ->
      put_reports_status id reqBody w
      = (Return {| statusCode := 200; body := JArr items |}, w)).
Proof.
  intros R L.
  assert (Lf : lookup_file REPORTS_DIR (id +:+ ".json") w = Some (JsonText (JArr items)))
    by (unfold lookup_file; simpl; rewrite R; exact L).
  split.
  - intros r w' H.
    destruct (put_reports_status_cases id reqBody w w' r H)
      as [(_ & -> & ->)|[(_ & R' & U' & [->| ->])
         |(_ & m0 & c & p & d & R0 & L0 & J & G & -> & R1 & _)]].
    + split; [exact Lf|]. intros resp [= <-]. discriminate.
    + split; [|intros resp [= <-]; discriminate].
      unfold lookup_file in *. simpl in *. rewrite R'. exact Lf.
    + split; [|intros resp [= <-]; discriminate].
      unfold lookup_file in *. simpl in *. rewrite R'. exact Lf.
    + rewrite R in R0. injection R0 as <-. rewrite L in L0. injection L0 as <-.
      simpl in J. injection J as <-. simpl in G. injection G as <-.
      split; [|intros resp [= <-] _; reflexivity].
      unfold lookup_file. simpl. rewrite R1. apply lookup_insert_eq.
  - intros Inc Q.
    unfold put_reports_status, put_reports_status_at, try_catch at 1.
    cbv zeta. rewrite Inc. cbn [negb].
    assert (P : try_catch (access REPORTS_DIR (id +:+ ".json");; ret true)
                          (fun _ => ret false) w = (Return true, w)).
    { unfold try_catch.
      rewrite (bind_Return _ _ _ _ _ (access_quiet _ _ _ _ Q Lf)). reflexivity. }
    rewrite (bind_Return _ _ _ _ _ P). cbn [negb].
    rewrite (bind_Return _ _ _ _ _ (readFile_quiet _ _ _ _ Q Lf)).
    unfold lift at 1. unfold bind at 1. cbn [JSON_parse].
    unfold lift at 1. unfold bind at 1. cbn [assign].
    rewrite (bind_Return _ _ _ _ _ (writeFile_quiet REPORTS_DIR _ _ w m Q R)).
    rewrite (insert_id m _ _ L). unfold ret. f_equal.
    destruct w; simpl in *. subst. reflexivity.
Qed.

(** X25 at a file that holds an empty array. *)
Lemma put_reports_status_array_example :
  fst (put_reports_status "list" [("status", JStr "attended")]
         (set_dir REPORTS_DIR (<["list.json" := JsonText (JArr [])]> sampleStore)
                  sampleWorld))
  = Return {| statusCode := 200; body := JArr [] |}.
Proof.
  rewrite (proj2 (put_reports_status_array "list" [("status", JStr "attended")]
                    (set_dir REPORTS_DIR (<["list.json" := JsonText (JArr [])]> sampleStore)
                             sampleWorld)
                    (<["list.json" := JsonText (JArr [])]> sampleStore) []
                    eq_refl (lookup_insert_eq sampleStore _ _)) eq_refl eq_refl).
  reflexivity.
Defined.
